(** * rssa_analyzer: the RSSA reader and the cylindrical binner

    A shallow embedding of [rssa_parser.py], [rssa.py], the numeric core of
    [plotter.py] and the menu of [menu.py], with the properties of the
    natural-language specification stated and settled against it, and
    further properties of the code after them.

    Conventions.
    - A binary file opened for reading is the list of bytes that remain to be
      read; every read returns the value read and the remaining bytes.
    - A Python exception is a value of [exn]; code that can raise returns a
      [result].  [ValueError] carries the raise site (the message), since the
      repository and numpy raise it at several places.
    - numpy scalars of type int32 and int64 are integers of [Z] with the
      wrap-around of their arithmetic written out.
    - The numbers of the track table are float64.  The reader produces the
      floats of the processor; [rssa.py] and [plotter.py] are written once
      over a class of arithmetic operations, with float64 as its instance
      (see Numbers below).
    - numpy is the one of a 64-bit Linux on x86-64: [int] is int64, and a
      NaN converted to an integer is [-2^63].  Memory is not bounded: an
      array of any size can be made.
    - Drawing, saving and showing the figures are outside the embedding:
      the binner is embedded up to its grids, and the menu takes the
      drawing, with the files and the terminal, from an environment. *)

From Stdlib Require Import Strings.String Strings.Byte.
From Stdlib Require Import ZArith List Lia Bool Sorting.Sorted Sorting.Permutation.
From Stdlib Require Import Floats.PrimFloat Floats.SpecFloat Floats.FloatOps.
From Stdlib Require Floats.FloatAxioms.
Import ListNotations.
Open Scope Z_scope.

(** ** Exceptions and results *)

(** The places a [ValueError] is raised at. *)
Inductive value_error : Type :=
| FrameMismatch       (* rssa_parser.py, read_fortran_record: count_1 != count_2 *)
| ParticleKind        (* rssa.py, get_particle_mask: neither 'n' nor 'p' *)
| BufferOffset        (* np.frombuffer: offset beyond the buffer *)
| BufferNotMultiple   (* np.frombuffer: size not a multiple of the element size *)
| BufferTooSmall      (* np.frombuffer: buffer smaller than requested size *)
| ReshapeSize         (* ndarray.reshape: size does not fit the shape *)
| ZeroSizeReduction   (* ndarray.min / max of an empty array *)
| NegativeSamples     (* np.linspace: negative number of samples *)
| NegativeDimensions. (* np.zeros: negative dimension *)

(** The places a [NotImplementedError] is raised at (all in read_header). *)
Inductive not_implemented : Type :=
| UnknownGenerator    (* 'd1suned' not in the identification record *)
| BadRecordWidth      (* nrcd != 11 *)
| NonNegativeHistories (* np1 >= 0 *)
| ExtensionRecords.   (* range(njsw, njsw + niwr) is not empty *)

Inductive exn : Type :=
| ValueError (why : value_error)
| NotImplementedError (why : not_implemented)
| IndexError
| TypeError
| UnicodeDecodeError.

Inductive result (A : Type) : Type :=
| Ok (a : A)
| Raise (e : exn).
Arguments Ok {A} a.
Arguments Raise {A} e.

Definition bind {A B} (r : result A) (k : A -> result B) : result B :=
  match r with
  | Ok a => k a
  | Raise e => Raise e
  end.

Notation "x <- r ;; k" := (bind r (fun x => k))
  (at level 61, r at next level, right associativity).
Notation "' p <- r ;; k" := (bind r (fun x => let p := x in k))
  (at level 61, p pattern, r at next level, right associativity).

Definition is_ok {A} (r : result A) : bool :=
  match r with Ok _ => true | Raise _ => false end.

(** ** Bytes and fixed-width integers *)

Definition stream := list byte.

Definition zb (b : byte) : Z := Z.of_N (Byte.to_N b).

Definition len {A} (l : list A) : Z := Z.of_nat (length l).

(** Little-endian unsigned value of a byte string. *)
Fixpoint le_uint (bs : list byte) : Z :=
  match bs with
  | [] => 0
  | b :: t => zb b + 256 * le_uint t
  end.

(** The signed [w]-bit integer congruent to [x]: what int32 / int64
    arithmetic of numpy keeps of a result. *)
Definition wrap (w : Z) (x : Z) : Z :=
  (x + 2 ^ (w - 1)) mod 2 ^ w - 2 ^ (w - 1).

Definition int32_of_bytes (bs : list byte) : Z := wrap 32 (le_uint bs).
Definition int64_of_bytes (bs : list byte) : Z := wrap 64 (le_uint bs).

(** [n] consecutive items of [w] bytes each. *)
Fixpoint chunks {A} (w : nat) (n : nat) (l : list A) : list (list A) :=
  match n with
  | O => []
  | S n' => firstn w l :: chunks w n' (skipn w l)
  end.

(** [np.fromfile(file, dtype, count)] in binary mode, for a dtype of
    [itemsize] bytes: the items read (as raw bytes) and the rest of the
    file.  A negative count reads every whole item that remains; a count
    larger than what remains yields a shorter array without an error. *)
Definition np_fromfile (itemsize : nat) (count : Z) (f : stream)
  : list (list byte) * stream :=
  let avail := (length f / itemsize)%nat in
  let n := if count <? 0 then avail else Nat.min (Z.to_nat count) avail in
  (chunks itemsize n f, skipn (n * itemsize) f).

(** [a[0]] on a one-dimensional array. *)
Definition item0 {A} (a : list A) : result A :=
  match a with
  | x :: _ => Ok x
  | [] => Raise IndexError
  end.

(** [np.frombuffer(data, dtype, count, offset)]: the items as raw bytes. *)
Definition np_frombuffer (data : list byte) (itemsize : nat) (count : Z) (offset : Z)
  : result (list (list byte)) :=
  let ts := len data in
  if (offset <? 0) || (ts <? offset) then Raise (ValueError BufferOffset)
  else
    let s := ts - offset in
    let buf := skipn (Z.to_nat offset) data in
    if count <? 0 then
      if negb (s mod Z.of_nat itemsize =? 0) then Raise (ValueError BufferNotMultiple)
      else Ok (chunks itemsize (Z.to_nat (s / Z.of_nat itemsize)) buf)
    else
      if s <? count * Z.of_nat itemsize then Raise (ValueError BufferTooSmall)
      else Ok (chunks itemsize (Z.to_nat count) buf).

Definition INT : nat := 4.
Definition LONG : nat := 8.
Definition FLOAT : nat := 8.
Definition BYTE : nat := 1.

(** [np.frombuffer(data, INT, 1, offset)[0]] and its int64 counterpart. *)
Definition int32_at (data : list byte) (offset : Z) : result Z :=
  a <- np_frombuffer data INT 1 offset ;;
  x <- item0 a ;;
  Ok (int32_of_bytes x).

Definition int64_at (data : list byte) (offset : Z) : result Z :=
  a <- np_frombuffer data LONG 1 offset ;;
  x <- item0 a ;;
  Ok (int64_of_bytes x).

(** ** read_fortran_record *)

Definition read_int (f : stream) : result (Z * stream) :=
  let '(a, f') := np_fromfile INT 1 f in
  x <- item0 a ;;
  Ok (int32_of_bytes x, f').

Definition read_fortran_record (f : stream) : result (list byte * stream) :=
  '(count_1, f1) <- read_int f ;;
  let '(a, f2) := np_fromfile BYTE count_1 f1 in
  let data := concat a in
  '(count_2, f3) <- read_int f2 ;;
  if negb (count_1 =? count_2) then Raise (ValueError FrameMismatch)
  else Ok (data, f3).

(** ** Text of the identification record *)

(** [bytes.decode('UTF-8')], strict: the code points, or nothing where
    Python raises [UnicodeDecodeError] (a stray or missing continuation byte,
    an overlong form, a surrogate, a value above U+10FFFF). *)
Definition in_range (lo hi b : Z) : bool := (lo <=? b) && (b <=? hi).

Definition low6 (b : Z) : Z := Z.land b 63.

Fixpoint utf8_decode (bs : list byte) : option (list Z) :=
  match bs with
  | [] => Some []
  | b0 :: t0 =>
    let c0 := zb b0 in
    if c0 <? 128 then option_map (cons c0) (utf8_decode t0)
    else if in_range 194 223 c0 then
      match t0 with
      | b1 :: t1 =>
        if in_range 128 191 (zb b1)
        then option_map (cons (Z.land c0 31 * 64 + low6 (zb b1))) (utf8_decode t1)
        else None
      | _ => None
      end
    else if in_range 224 239 c0 then
      match t0 with
      | b1 :: b2 :: t2 =>
        let lo := if c0 =? 224 then 160 else 128 in
        let hi := if c0 =? 237 then 159 else 191 in
        if in_range lo hi (zb b1) && in_range 128 191 (zb b2)
        then option_map
               (cons (Z.land c0 15 * 4096 + low6 (zb b1) * 64 + low6 (zb b2)))
               (utf8_decode t2)
        else None
      | _ => None
      end
    else if in_range 240 244 c0 then
      match t0 with
      | b1 :: b2 :: b3 :: t3 =>
        let lo := if c0 =? 240 then 144 else 128 in
        let hi := if c0 =? 244 then 143 else 191 in
        if in_range lo hi (zb b1) && in_range 128 191 (zb b2) && in_range 128 191 (zb b3)
        then option_map
               (cons (Z.land c0 7 * 262144 + low6 (zb b1) * 4096
                      + low6 (zb b2) * 64 + low6 (zb b3)))
               (utf8_decode t3)
        else None
      | _ => None
      end
    else None
  end.

Definition decode_utf8 (bs : list byte) : result (list Z) :=
  match utf8_decode bs with
  | Some s => Ok s
  | None => Raise UnicodeDecodeError
  end.

Fixpoint starts_with (p s : list Z) : bool :=
  match p, s with
  | [], _ => true
  | _ :: _, [] => false
  | a :: p', b :: s' => (a =? b) && starts_with p' s'
  end.

(** [p in s] on strings. *)
Fixpoint str_in (p s : list Z) : bool :=
  starts_with p s ||
  match s with
  | [] => false
  | _ :: s' => str_in p s'
  end.

(** The code points of ['d1suned']. *)
Definition d1suned : list Z := [100; 49; 115; 117; 110; 101; 100].

(** ** read_header *)

Record Surface : Type := {
  id : Z;
  info : Z;
  type : Z;
  num_params : Z;
  params : list Z
}.

Record Parameters : Type := {
  np1 : Z;
  nrss : Z;
  nrcd : Z;
  njsw : Z;
  niss : Z;
  niwr : Z;
  mipts : Z;
  kjaq : Z;
  surfaces : list Surface
}.

(** The body of the loop over [range(njsw)]: one surface record is read
    and decoded. *)
Definition decode_surface (kjaq : Z) (data : list byte) : result Surface :=
  sid <- int32_at data 0 ;;
  sinfo <- (if kjaq =? 1 then int32_at data 4 else Ok (-1)) ;;
  stype <- int32_at data 8 ;;
  snum <- int32_at data 12 ;;
  sparams <- np_frombuffer data INT (-1) 16 ;;
  Ok {| id := sid; info := sinfo; type := stype; num_params := snum;
        params := map int32_of_bytes sparams |}.

Definition read_surface (kjaq : Z) (f : stream) : result (Surface * stream) :=
  '(data, f1) <- read_fortran_record f ;;
  surface <- decode_surface kjaq data ;;
  Ok (surface, f1).

(** [for i in range(njsw)], as [n = max(njsw, 0)] iterations. *)
Fixpoint read_surfaces (n : nat) (kjaq : Z) (f : stream)
  : result (list Surface * stream) :=
  match n with
  | O => Ok ([], f)
  | S n' =>
    '(s, f1) <- read_surface kjaq f ;;
    '(l, f2) <- read_surfaces n' kjaq f1 ;;
    Ok (s :: l, f2)
  end.

(** [niwr, mipts, kjaq = np.frombuffer(data, INT, 3)]. *)
Definition flags_of (data : list byte) : result (Z * Z * Z) :=
  a <- np_frombuffer data INT 3 0 ;;
  match map int32_of_bytes a with
  | [x; y; z] => Ok (x, y, z)
  | _ => Raise (ValueError BufferTooSmall)
  end.

(** [_last_dump], the int32 of the last four bytes of the first record, is
    read and dropped by the source; a record whose text holds ['d1suned']
    has seven bytes or more, so that this cannot raise, and it is left
    out. *)
Definition read_header (f : stream) : result (Parameters * stream) :=
  (* First record *)
  '(data, f1) <- read_fortran_record f ;;
  format_record_id <- decode_utf8 data ;;
  if negb (str_in d1suned format_record_id)
  then Raise (NotImplementedError UnknownGenerator)
  else
  (* Second record *)
  '(data, f2) <- read_fortran_record f1 ;;
  np1 <- int64_at data 0 ;;
  nrss <- int64_at data 8 ;;
  nrcd <- int32_at data 16 ;;
  njsw <- int32_at data 20 ;;
  niss <- int64_at data 24 ;;
  if negb (nrcd =? 11) then Raise (NotImplementedError BadRecordWidth)
  else
  (* Third record *)
  if negb (np1 <? 0) then Raise (NotImplementedError NonNegativeHistories)
  else
  '(data, f3) <- read_fortran_record f2 ;;
  '(niwr, mipts, kjaq) <- flags_of data ;;
  (* Fourth record *)
  '(surfaces, f4) <- read_surfaces (Z.to_nat njsw) kjaq f3 ;;
  (* range(njsw, njsw + niwr), the sum taken in int32 *)
  f5 <- (if njsw <? wrap 32 (njsw + niwr)
         then '(_, _) <- read_fortran_record f4 ;;
              Raise (NotImplementedError ExtensionRecords)
         else Ok f4) ;;
  (* Summary record *)
  '(_, f6) <- read_fortran_record f5 ;;
  Ok ({| np1 := np1; nrss := nrss; nrcd := nrcd; njsw := njsw; niss := niss;
         niwr := niwr; mipts := mipts; kjaq := kjaq; surfaces := surfaces |}, f6).

(** ** Arrays *)

(** [a.reshape(-1, w)] for [w > 0]: rows of [w] items. *)
Definition np_reshape {A} (w : nat) (a : list A) : result (list (list A)) :=
  if negb (len a mod Z.of_nat w =? 0) then Raise (ValueError ReshapeSize)
  else Ok (chunks w (length a / w) a).

(** [row[4:-4]]. *)
Definition strip4 {A} (row : list A) : list A :=
  firstn (length row - 8) (skipn 4 row).

(** [a[i]] with Python's negative indices. *)
Definition getitem {A} (a : list A) (i : Z) : result A :=
  let n := len a in
  let j := if i <? 0 then i + n else i in
  if (j <? 0) || (n <=? j) then Raise IndexError
  else match nth_error a (Z.to_nat j) with
       | Some v => Ok v
       | None => Raise IndexError
       end.

Fixpoint mapM {A B} (f : A -> result B) (l : list A) : result (list B) :=
  match l with
  | [] => Ok []
  | x :: t => y <- f x ;; r <- mapM f t ;; Ok (y :: r)
  end.

(** [a[idx]] for an integer index array. *)
Definition take {A} (a : list A) (idx : list Z) : result (list A) :=
  mapM (getitem a) idx.

Fixpoint where_from (i : Z) (c : list bool) : list Z :=
  match c with
  | [] => []
  | b :: t => if b then i :: where_from (i + 1) t else where_from (i + 1) t
  end.

(** [np.where(c)[0]]: the positions at which [c] holds. *)
Definition np_where (c : list bool) : list Z := where_from 0 c.

(** [range(n)] as an array. *)
Definition arange (n : Z) : list Z := map Z.of_nat (seq 0 (Z.to_nat n)).

(** ** read_tracks and read_rssa *)

(** The float64 value of a 64-bit pattern. *)
Definition float_of_bits (b : Z) : float :=
  let s := Z.testbit b 63 in
  let e := Z.land (Z.shiftr b 52) 2047 in
  let m := Z.land b (2 ^ 52 - 1) in
  SF2Prim
    (if e =? 0 then
       if m =? 0 then S754_zero s else S754_finite s (Z.to_pos m) (-1074)
     else if e =? 2047 then
       if m =? 0 then S754_infinity s else S754_nan
     else S754_finite s (Z.to_pos (m + 2 ^ 52)) (e - 1075)).

Definition float_of_bytes (bs : list byte) : float := float_of_bits (le_uint bs).

Definition read_tracks (f : stream) : result (list (list float)) :=
  (* Read the whole remaining of the file at once *)
  let '(a, _) := np_fromfile BYTE (-1) f in
  let data := concat a in
  data <- np_reshape 96 data ;;
  (* Remove the first and last 4 bytes *)
  let data := map strip4 data in
  data <- np_frombuffer (concat data) FLOAT (-1) 0 ;;
  np_reshape 11 (map float_of_bytes data).

(** [read_rssa] on the contents of the file named by [filename]. *)
Definition read_rssa (f : stream) : result (Parameters * list (list float)) :=
  '(parameters, f1) <- read_header f ;;
  tracks <- read_tracks f1 ;;
  Ok (parameters, tracks).

(** ** Building files (used to write down concrete inputs) *)

Definition byte_of_Z (z : Z) : byte :=
  match Byte.of_N (Z.to_N (z mod 256)) with
  | Some b => b
  | None => x00
  end.

(** The [n] little-endian bytes of an integer. *)
Fixpoint le_bytes (n : nat) (z : Z) : list byte :=
  match n with
  | O => []
  | S n' => byte_of_Z z :: le_bytes n' (z / 256)
  end.

Definition i32 (z : Z) : list byte := le_bytes 4 z.
Definition i64 (z : Z) : list byte := le_bytes 8 z.

(** A record between its two length markers. *)
Definition frame (payload : list byte) : list byte :=
  i32 (len payload) ++ payload ++ i32 (len payload).

Definition ascii_bytes (s : list Z) : list byte := map byte_of_Z s.

(** ** The stages of read_header

    [read_header] reads its records in a fixed order.  The three leading
    stages are named here so that a property can say how far a file gets;
    [read_header_stages] below shows that [read_header] is their
    composition. *)

(** First record: the identification text. *)
Definition read_id (f : stream) : result (list Z * stream) :=
  '(data, f1) <- read_fortran_record f ;;
  format_record_id <- decode_utf8 data ;;
  Ok (format_record_id, f1).

Record Counts : Type := {
  c_np1 : Z; c_nrss : Z; c_nrcd : Z; c_njsw : Z; c_niss : Z
}.

(** Second record: the counts. *)
Definition read_counts (f : stream) : result (Counts * stream) :=
  '(data, f2) <- read_fortran_record f ;;
  np1 <- int64_at data 0 ;;
  nrss <- int64_at data 8 ;;
  nrcd <- int32_at data 16 ;;
  njsw <- int32_at data 20 ;;
  niss <- int64_at data 24 ;;
  Ok ({| c_np1 := np1; c_nrss := nrss; c_nrcd := nrcd; c_njsw := njsw;
         c_niss := niss |}, f2).

(** Third record: [niwr, mipts, kjaq]. *)
Definition read_flags (f : stream) : result (Z * Z * Z * stream) :=
  '(data, f3) <- read_fortran_record f ;;
  '(niwr, mipts, kjaq) <- flags_of data ;;
  Ok (niwr, mipts, kjaq, f3).

(** The number of payload bytes [np.fromfile(file, np.byte, count_1)] reads. *)
Definition payload_size (count_1 : Z) (f1 : stream) : nat :=
  if count_1 <? 0 then length f1 else Nat.min (Z.to_nat count_1) (length f1).

(** One record read and its payload decoded: the shape of every stage. *)
Definition stage {A} (decode : list byte -> result A) (f : stream)
  : result (A * stream) :=
  '(data, f1) <- read_fortran_record f ;;
  a <- decode data ;;
  Ok (a, f1).

Definition decode_counts (data : list byte) : result Counts :=
  np1 <- int64_at data 0 ;;
  nrss <- int64_at data 8 ;;
  nrcd <- int32_at data 16 ;;
  njsw <- int32_at data 20 ;;
  niss <- int64_at data 24 ;;
  Ok {| c_np1 := np1; c_nrss := nrss; c_nrcd := nrcd; c_njsw := njsw;
        c_niss := niss |}.

(** The payloads of the records that [read_fortran_record] reads one after
    the other from [f], and what is left of the file after them. *)
Inductive records_from : stream -> list (list byte) -> stream -> Prop :=
| records_none (f : stream) : records_from f [] f
| records_next (f f1 rest : stream) (data : list byte) (more : list (list byte)) :
    read_fortran_record f = Ok (data, f1) ->
    records_from f1 more rest ->
    records_from f (data :: more) rest.

(** A framed record whose two length markers are both there and differ. *)
Definition frame_mismatch (f : stream) : Prop :=
  exists pre data suf rest,
    f = pre ++ data ++ suf ++ rest /\
    length pre = 4%nat /\ length suf = 4%nat /\
    len data = int32_of_bytes pre /\
    int32_of_bytes pre <> int32_of_bytes suf.

(** The errors numpy's [frombuffer] raises. *)
Definition frombuffer_error (w : value_error) : Prop :=
  w = BufferOffset \/ w = BufferNotMultiple \/ w = BufferTooSmall.

(** The errors that decoding the payload of a record can raise. *)
Definition is_buffer_exn (e : exn) : bool :=
  match e with
  | IndexError | UnicodeDecodeError => true
  | ValueError BufferOffset | ValueError BufferNotMultiple
  | ValueError BufferTooSmall => true
  | _ => false
  end.

(** The errors that reading and decoding the records of a header can raise
    besides [NotImplementedError]. *)
Definition is_decode_exn (e : exn) : bool :=
  is_buffer_exn e ||
  match e with
  | ValueError FrameMismatch => true
  | _ => false
  end.

(** [g] is what remains of [f] after some bytes have been read. *)
Definition suffix (g f : stream) : Prop := exists pre, f = pre ++ g.

(** Why [read_header] rejects a file as unsupported: every record up to the
    check is read and decoded, and the check fails. *)
Definition unsupported (f : stream) (w : not_implemented) : Prop :=
  exists s f1, read_id f = Ok (s, f1) /\
   ((w = UnknownGenerator /\ str_in d1suned s = false) \/
    (str_in d1suned s = true /\
     exists c f2, read_counts f1 = Ok (c, f2) /\
      ((w = BadRecordWidth /\ c_nrcd c <> 11) \/
       (w = NonNegativeHistories /\ c_nrcd c = 11 /\ 0 <= c_np1 c) \/
       (w = ExtensionRecords /\ c_nrcd c = 11 /\ c_np1 c < 0 /\
        exists niwr mipts kjaq f3 surfaces f4 ext f5,
          read_flags f2 = Ok (niwr, mipts, kjaq, f3) /\
          read_surfaces (Z.to_nat (c_njsw c)) kjaq f3 = Ok (surfaces, f4) /\
          0 < niwr /\
          read_fortran_record f4 = Ok (ext, f5))))).

(** The end [njsw + niwr] of the range of extension records is an int32. *)
Definition extension_end_fits (f : stream) : Prop :=
  forall s f1 c f2 niwr mipts kjaq f3,
    read_id f = Ok (s, f1) ->
    read_counts f1 = Ok (c, f2) ->
    read_flags f2 = Ok (niwr, mipts, kjaq, f3) ->
    - 2 ^ 31 <= c_njsw c + niwr < 2 ^ 31.

(** ** Example files *)

Definition id_record : list byte := frame (ascii_bytes d1suned).

Definition count_record (np1 nrss nrcd njsw niss : Z) : list byte :=
  frame (i64 np1 ++ i64 nrss ++ i32 nrcd ++ i32 njsw ++ i64 niss).

Definition flags_record (niwr mipts kjaq : Z) : list byte :=
  frame (i32 niwr ++ i32 mipts ++ i32 kjaq).

Definition surface_record (id info type num_params : Z) (params : list Z) : list byte :=
  frame (i32 id ++ i32 info ++ i32 type ++ i32 num_params ++ concat (map i32 params)).

(** A summary record; its content is not looked at. *)
Definition summary_record : list byte := frame (i32 0 ++ i32 0).

(** A track record: eleven float64 bit patterns between two markers of 88. *)
Definition track_record (fields : list Z) : list byte :=
  i32 88 ++ concat (map i64 fields) ++ i32 88.

(** A well-formed header announcing [nrss] tracks and no surface. *)
Definition plain_header (nrss : Z) : list byte :=
  id_record ++ count_record (-1000) nrss 11 0 2 ++ flags_record 0 0 0
  ++ summary_record.

(** Three tracks announced, one stored. *)
Definition file_fewer_tracks : list byte :=
  plain_header 3 ++ track_record (repeat 4607182418800017408 11).

(** One track stored; the bit pattern is that of 1.0. *)
Definition file_one_track : list byte :=
  plain_header 1 ++ track_record (repeat 4607182418800017408 11).

(** One surface record that declares two parameters and stores one. *)
Definition file_short_params : list byte :=
  id_record ++ count_record (-1000) 0 11 1 0 ++ flags_record 0 0 0
  ++ surface_record 7 0 3 2 [5] ++ summary_record.

(** One extension record announced ([niwr = 1]) and the file ends there. *)
Definition file_extension_missing : list byte :=
  id_record ++ count_record (-1000) 0 11 0 0 ++ flags_record 1 0 0.

(** One extension record announced and stored. *)
Definition file_extension : list byte :=
  file_extension_missing ++ frame (i32 0) ++ summary_record.

(** An identification record that is not UTF-8 text. *)
Definition file_bad_text : list byte := frame [xff].

(** A count record of 20 bytes, with [nrcd = 12]. *)
Definition file_short_counts : list byte :=
  id_record ++ frame (i64 (-1000) ++ i64 0 ++ i32 12).

(** [njsw = 1] and [niwr = 2^31 - 1]: the int32 sum [njsw + niwr] wraps to
    [-2^31], and the range of extension records is empty. *)
Definition file_extension_wraps : list byte :=
  id_record ++ count_record (-1000) 0 11 1 0 ++ flags_record 2147483647 0 0
  ++ surface_record 7 0 3 1 [5] ++ summary_record.

(** The header of [plain_header nrss] once decoded, and what is left. *)
Definition plain_parameters (nrss : Z) : Parameters * stream :=
  ({| np1 := -1000; nrss := nrss; nrcd := 11; njsw := 0; niss := 2;
      niwr := 0; mipts := 0; kjaq := 0; surfaces := [] |}, []).

(** The header of [file_short_params] once decoded. *)
Definition short_params_parameters : Parameters :=
  {| np1 := -1000; nrss := 0; nrcd := 11; njsw := 1; niss := 0;
     niwr := 0; mipts := 0; kjaq := 0;
     surfaces := [{| id := 7; info := -1; type := 3; num_params := 2;
                     params := [5] |}] |}.

(** * Numbers

    The arithmetic of [rssa.py] and [plotter.py] is that of float64.  The
    embedding is written once over the operations it uses, so that a
    property that does not depend on how they round is stated for every
    arithmetic; [binary64] below is the one of the processor. *)

Class Arith (F : Type) : Type := {
  fadd : F -> F -> F;
  fsub : F -> F -> F;
  fmul : F -> F -> F;
  fdiv : F -> F -> F;
  fabs : F -> F;
  fsqrt : F -> F;
  (** [x < y], [x <= y], [x == y] *)
  flt : F -> F -> bool;
  fle : F -> F -> bool;
  feq : F -> F -> bool;
  (** The conversion of an integer, and [ndarray.astype(int)]. *)
  of_int : Z -> F;
  astype_int : F -> Z;
  (** [np.arctan2(y, x)] *)
  arctan2 : F -> F -> F;
  (** [a.dot(b)] on two vectors: the sum of the products of their entries,
      as the BLAS library adds them up *)
  fdot : list F -> list F -> F;
  (** The literal [1e-4]. *)
  lit_1e_4 : F
}.

(** ** Integer index arrays and np.intersect1d *)

Fixpoint insert (x : Z) (l : list Z) : list Z :=
  match l with
  | [] => [x]
  | y :: t => if x <=? y then x :: l else y :: insert x t
  end.

(** [ndarray.sort()] on integers. *)
Fixpoint sort (l : list Z) : list Z :=
  match l with
  | [] => []
  | x :: t => insert x (sort t)
  end.

(** [a[mask]] for [mask[0] = True], [mask[1:] = a[1:] != a[:-1]]: the first
    element of every run. *)
Fixpoint run_heads (prev : Z) (l : list Z) : list Z :=
  match l with
  | [] => []
  | x :: t => if x =? prev then run_heads x t else x :: run_heads x t
  end.

Definition dedup (l : list Z) : list Z :=
  match l with
  | [] => []
  | x :: t => x :: run_heads x t
  end.

(** [aux[:-1][aux[1:] == aux[:-1]]]: the elements equal to their successor. *)
Fixpoint repeated (l : list Z) : list Z :=
  match l with
  | [] => []
  | x :: t =>
    match t with
    | [] => []
    | y :: _ => if x =? y then x :: repeated t else repeated t
    end
  end.

(** An array used as an index: of dtype int64, or of dtype object when
    [None] found its way into it (the elements are then Python integers or
    [None]). *)
Inductive index_array : Type :=
| IntArray (l : list Z)
| ObjArray (l : list (option Z)).

(** What [plot_current_cyl] hands to [np.intersect1d]: [None], the 1-tuple
    that [np.where] returns, or an array. *)
Inductive pyobj : Type :=
| PyNone
| PyWhere (l : list Z)
| PyArray (a : index_array).

(** [np.asanyarray(o)], flattened. *)
Definition asanyarray (o : pyobj) : index_array :=
  match o with
  | PyNone => ObjArray [None]
  | PyWhere l => IntArray l
  | PyArray a => a
  end.

Fixpoint all_ints (l : list (option Z)) : option (list Z) :=
  match l with
  | [] => Some []
  | Some x :: t => option_map (cons x) (all_ints t)
  | None :: _ => None
  end.

(** [ndarray.sort()] on objects: two or more elements are compared with
    [<], which [None] does not support. *)
Definition sort_objects (l : list (option Z)) : result (list (option Z)) :=
  match l with
  | [] | [_] => Ok l
  | _ =>
    match all_ints l with
    | Some ints => Ok (map Some (sort ints))
    | None => Raise TypeError
    end
  end.

Definition obj_eqb (a b : option Z) : bool :=
  match a, b with
  | Some x, Some y => x =? y
  | None, None => true
  | _, _ => false
  end.

Fixpoint run_heads_obj (prev : option Z) (l : list (option Z)) : list (option Z) :=
  match l with
  | [] => []
  | x :: t => if obj_eqb x prev then run_heads_obj x t else x :: run_heads_obj x t
  end.

Definition dedup_obj (l : list (option Z)) : list (option Z) :=
  match l with
  | [] => []
  | x :: t => x :: run_heads_obj x t
  end.

Fixpoint repeated_obj (l : list (option Z)) : list (option Z) :=
  match l with
  | [] => []
  | x :: t =>
    match t with
    | [] => []
    | y :: _ => if obj_eqb x y then x :: repeated_obj t else repeated_obj t
    end
  end.

(** Whether an array is of dtype object. *)
Definition is_objects (a : index_array) : bool :=
  match a with
  | ObjArray _ => true
  | IntArray _ => false
  end.

(** [np.unique(a)] *)
Definition np_unique (a : index_array) : result index_array :=
  match a with
  | IntArray l => Ok (IntArray (dedup (sort l)))
  | ObjArray l => s <- sort_objects l ;; Ok (ObjArray (dedup_obj s))
  end.

Definition as_objects (a : index_array) : list (option Z) :=
  match a with
  | IntArray l => map Some l
  | ObjArray l => l
  end.

(** [np.concatenate((a, b))] *)
Definition np_concatenate (a b : index_array) : index_array :=
  match a, b with
  | IntArray l, IntArray m => IntArray (l ++ m)
  | _, _ => ObjArray (as_objects a ++ as_objects b)
  end.

(** [np.intersect1d(ar1, ar2)]:
    unique both, concatenate, sort, keep what equals its successor. *)
Definition np_intersect1d (ar1 ar2 : pyobj) : result index_array :=
  ar1 <- np_unique (asanyarray ar1) ;;
  ar2 <- np_unique (asanyarray ar2) ;;
  match np_concatenate ar1 ar2 with
  | IntArray aux => Ok (IntArray (repeated (sort aux)))
  | ObjArray aux => s <- sort_objects aux ;; Ok (ObjArray (repeated_obj s))
  end.

(** [a[idx]] for an index array: an array of dtype object is refused. *)
Definition take_idx {A} (a : list A) (idx : index_array) : result (list A) :=
  match idx with
  | IntArray l => take a l
  | ObjArray _ => Raise IndexError
  end.

(** ** The RSSA object and the plotter *)

Record RSSA (F : Type) : Type := {
  filename : string;
  parameters : Parameters;
  (** each row has the 11 values a, b, wgt, erg, tme, x, y, z, u, v, c *)
  tracks : list (list F)
}.
Arguments filename {F} r.
Arguments parameters {F} r.
Arguments tracks {F} r.

(** What [generate_figures_current_cyl] draws: the two grids with their
    extent, and the two lines it prints. *)
Record Figures (F : Type) : Type := {
  grid_values : list (list F);
  error_grid : list (list F);
  extent : list F;
  area : F;
  resolution : F * F
}.
Arguments grid_values {F} f.
Arguments error_grid {F} f.
Arguments extent {F} f.
Arguments area {F} f.
Arguments resolution {F} f.

Inductive surface_type : Type := multiple | cyl | plane.

(** A piece of the text of [get_info]: literal text, an integer, or a
    number printed with two decimals. *)
Inductive piece (F : Type) : Type :=
| Text (s : string)
| Int (z : Z)
| Fixed2 (v : F).
Arguments Text {F} s.
Arguments Int {F} z.
Arguments Fixed2 {F} v.

(** ** The cells of a grid *)

(** The row (or the column) an index names on an axis of [n] cells: a
    negative index counts from the end. *)
Definition cell_of (n i : Z) : Z := if i <? 0 then i + n else i.

(** The values that [np.add.at] adds to the cell [(r, c)] of a grid of [n]
    rows of [m] cells: those listed with a pair of indices that names the
    cell, in their order. *)
Definition landed {A} (n m r c : Z) (rows cols : list Z) (values : list A) : list A :=
  map snd
      (filter (fun t => (cell_of n (fst (fst t)) =? r) && (cell_of m (snd (fst t)) =? c))
              (combine (combine rows cols) values)).

(** The cell [(r, c)] of a grid. *)
Definition cell {A} (grid : list (list A)) (r c : Z) (d : A) : A :=
  nth (Z.to_nat c) (nth (Z.to_nat r) grid []) d.

Section Numeric.
Context {F : Type} {arith : Arith F}.

Definition fzero : F := of_int 0.
Definition fone : F := of_int 1.

(** *** numpy on arrays of numbers *)

Definition isnan (x : F) : bool := negb (feq x x).

(** One step of the reductions [min] and [max]; a NaN is kept. *)
Definition np_minimum (a b : F) : F := if flt a b || isnan a then a else b.
Definition np_maximum (a b : F) : F := if flt b a || isnan a then a else b.

Definition np_min (a : list F) : result F :=
  match a with
  | [] => Raise (ValueError ZeroSizeReduction)
  | x :: t => Ok (fold_left np_minimum t x)
  end.

Definition np_max (a : list F) : result F :=
  match a with
  | [] => Raise (ValueError ZeroSizeReduction)
  | x :: t => Ok (fold_left np_maximum t x)
  end.

(** [np.sum].  The additions are written in the order of the array; numpy
    adds an array of eight numbers or more pairwise in blocks, which gives
    the same sum with another rounding in float64.  No property below
    depends on how a sum of eight numbers or more is rounded. *)
Definition np_sum (a : list F) : F := fold_left fadd a fzero.

(** [np.std(a)]: the root of the mean of the squared deviations. *)
Definition np_std (a : list F) : F :=
  let n := of_int (len a) in
  let arrmean := fdiv (np_sum a) n in
  let x := map (fun v => fsub v arrmean) a in
  let x := map (fun v => fmul v v) x in
  fsqrt (fdiv (np_sum x) n).

(** [np.linalg.norm([a, b])]: the root of the dot product of the vector
    with itself. *)
Definition np_linalg_norm2 (a b : F) : F :=
  let v := [a; b] in
  fsqrt (fdot v v).

(** [np.angle(x + 1j * y)] for one track: the product and the sum are
    those of complex numbers, the angle is [arctan2(imag, real)]. *)
Definition np_angle (x y : F) : F :=
  let re := fadd x (fsub (fmul fzero y) (fmul fone fzero)) in
  let im := fadd fzero (fadd (fmul fzero fzero) (fmul fone y)) in
  arctan2 im re.

Fixpoint map2 {A B C} (f : A -> B -> C) (l : list A) (m : list B) : list C :=
  match l, m with
  | a :: l', b :: m' => f a b :: map2 f l' m'
  | _, _ => []
  end.

Fixpoint set_last {A} (l : list A) (v : A) : list A :=
  match l with
  | [] => []
  | [_] => [v]
  | x :: t => x :: set_last t v
  end.

(** [np.linspace(start, stop, num)] *)
Definition np_linspace (start stop : F) (num : Z) : result (list F) :=
  if num <? 0 then Raise (ValueError NegativeSamples)
  else
    let div := num - 1 in
    let y := map of_int (arange num) in
    let delta := fsub stop start in
    let y :=
      if 0 <? div then
        let step := fdiv delta (of_int div) in
        if feq step fzero
        then map (fun v => fmul (fdiv v (of_int div)) delta) y
        else map (fun v => fmul v step) y
      else map (fun v => fmul v delta) y in
    let y := map (fun v => fadd v start) y in
    Ok (if 1 <? num then set_last y stop else y).

(** [np.zeros((rows, cols))] *)
Definition np_zeros (rows cols : Z) : result (list (list F)) :=
  if (rows <? 0) || (cols <? 0) then Raise (ValueError NegativeDimensions)
  else Ok (repeat (repeat fzero (Z.to_nat cols)) (Z.to_nat rows)).

(** The position an index denotes in an axis of [n] items. *)
Definition norm_index (n i : Z) : result nat :=
  let j := if i <? 0 then i + n else i in
  if (j <? 0) || (n <=? j) then Raise IndexError else Ok (Z.to_nat j).

Fixpoint update {A} (l : list A) (k : nat) (f : A -> A) : list A :=
  match l, k with
  | [], _ => []
  | x :: t, O => f x :: t
  | x :: t, S k' => x :: update t k' f
  end.

(** [grid[i, j] += v] *)
Definition add_cell (grid : list (list F)) (i j : Z) (v : F)
  : result (list (list F)) :=
  r <- norm_index (len grid) i ;;
  c <- norm_index (len (nth r grid [])) j ;;
  Ok (update grid r (fun row => update row c (fun old => fadd old v))).

(** [np.add.at(grid, (rows, cols), values)]: the cells are added to one
    pair of indices after the other, so that a cell named twice receives
    both values. *)
Fixpoint np_add_at (grid : list (list F)) (rows cols : list Z) (values : list F)
  : result (list (list F)) :=
  match rows, cols, values with
  | i :: rows', j :: cols', v :: values' =>
    g <- add_cell grid i j v ;;
    np_add_at g rows' cols' values'
  | _, _, _ => Ok grid
  end.

(** The index [closest] gives to one value on an axis of [n] edges that
    starts with [l0] and [a1]. *)
Definition bin_index (n : Z) (l0 a1 v : F) : Z :=
  let i := astype_int (fdiv (fsub v l0) (fsub a1 l0)) in
  if i =? n - 1 then n - 2 else i.

(** The items of [a] at the positions [idx], all of them within [a]. *)
Definition pick (a : list F) (idx : list Z) : list F :=
  map (fun i => nth (Z.to_nat i) a fzero) idx.

(** A grid of [rows] rows of [cols] cells. *)
Definition grid_shape (rows cols : nat) (grid : list (list F)) : Prop :=
  length grid = rows /\ Forall (fun row => length row = cols) grid.

(** *** rssa.py *)

Variable rssa : RSSA F.

(** [self.tracks[:, k]] *)
Definition column (k : nat) : list F :=
  map (fun row => nth k row fzero) (tracks rssa).

Definition x : list F := column 5.
Definition y : list F := column 6.
Definition z : list F := column 7.
Definition wgt : list F := column 2.
Definition energies : list F := column 3.
Definition histories : list F := map fabs (column 0).

Definition mask_neutron_tracks : list Z :=
  let bitarrays := map fabs (column 1) in
  np_where (map (fun b => flt b (of_int 900000000)) bitarrays).

Definition mask_photon_tracks : list Z :=
  let bitarrays := map fabs (column 1) in
  np_where (map (fun b => fle (of_int 900000000) b) bitarrays).

Definition get_particle_mask (particle : string) : result (list Z) :=
  if String.eqb particle "n" then Ok mask_neutron_tracks
  else if String.eqb particle "p" then Ok mask_photon_tracks
  else Raise (ValueError ParticleKind).

(** The property [type]. *)
Definition rssa_type : surface_type :=
  if 1 <? len (surfaces (parameters rssa)) then multiple
  else
    let radius := map2 (fun a b => fsqrt (fadd (fmul a a) (fmul b b))) x y in
    if flt (np_std radius) lit_1e_4 then cyl else plane.

Definition get_info : result (list (piece F)) :=
  let info :=
    [Text "RSSA file "; Text (filename rssa);
     Text " was recorded using the following surfaces:\n"] in
  let info := info ++
    flat_map (fun surface => [Text "  Surface id: "; Int (id surface); Text "\n"])
             (surfaces (parameters rssa)) in
  let sur_type := rssa_type in
  info <- match sur_type with
          | cyl =>
            x0 <- getitem x 0 ;;
            y0 <- getitem y 0 ;;
            Ok (info ++ [Text "The surface type is a cylinder with a radius of ";
                         Fixed2 (np_linalg_norm2 x0 y0); Text "\n"])
          | plane => Ok (info ++ [Text "The surface type is a plane...\n"])
          | multiple => Ok info
          end ;;
  let n_tracks := len mask_neutron_tracks in
  let p_tracks := len mask_photon_tracks in
  Ok (info ++
      [Text "The total amount of tracks recorded is ";
       Int (nrss (parameters rssa)); Text ", of which "; Int n_tracks;
       Text " were neutrons and "; Int p_tracks; Text " were photons.\n";
       Text "The simulation that produced this RSSA run ";
       Int (wrap 64 (Z.abs (np1 (parameters rssa)))); Text " histories\n";
       Text "The amount of independent histories that reached the RSSA surfaces was ";
       Int (niss (parameters rssa)); Text ".\n"]).

(** *** plotter.py *)

Definition closest (axis values : list F) : result (list Z) :=
  l0 <- getitem axis 0 ;;
  a1 <- getitem axis 1 ;;
  let lm := fsub a1 l0 in
  let idx := map (fun v => fdiv (fsub v l0) lm) values in
  let idx := map astype_int idx in
  (* Limit case where the value lies at the end of the axis *)
  Ok (map (fun i => if i =? len axis - 1 then len axis - 2 else i) idx).

Definition calculate_grid_axes_cyl (z_int theta_int : Z) (mask : option index_array)
  : result (list F * list F) :=
  let mask := match mask with
              | None => IntArray (np_where (map (fun v => negb (feq v fzero)) x))
              | Some m => m
              end in
  zs <- take_idx z mask ;;
  z_min <- np_min zs ;;
  z_max <- np_max zs ;;
  xs <- take_idx x mask ;;
  ys <- take_idx y mask ;;
  let thetas := map2 np_angle xs ys in
  theta_min <- np_min thetas ;;
  theta_max <- np_max thetas ;;
  z_axis <- np_linspace z_min z_max (z_int + 1) ;;
  theta_axis <- np_linspace theta_min theta_max (theta_int + 1) ;;
  Ok (z_axis, theta_axis).

(** The rows the binner works on: those of the particle kind, met with
    the geometry filter if there is one. *)
Definition select_rows (particle : string) (mask : option index_array)
  : result index_array :=
  particle_mask <- get_particle_mask particle ;;
  match mask with
  | Some m => np_intersect1d (PyArray (IntArray particle_mask)) (PyArray m)
  | None => Ok (IntArray particle_mask)
  end.

(** [generate_figures_current_cyl], lines 78 to 105: the two grids, their
    extent, and the numbers of the two lines printed at the end.  The rest
    of the function draws the grids with matplotlib and is not embedded; it
    can still raise (so does [int(np.log10(...))] on a greatest value that
    is zero, infinite or a NaN).  A result [Ok] therefore says that the
    function reaches its drawing code with these grids, which it must to
    return; an exception here is the exception of the function. *)
Definition generate_figures_current_cyl
           (particle : string) (z_int theta_int : Z) (source_intensity : F)
           (value_range : option (F * F)) (mask : option index_array)
  : result (Figures F) :=
  particle_mask <- select_rows particle mask ;;
  (* Create the empty grid *)
  '(z_axis, theta_axis) <- calculate_grid_axes_cyl z_int theta_int (Some particle_mask) ;;
  grid_values <- np_zeros z_int theta_int ;;
  error_grid <- np_zeros z_int theta_int ;;
  (* Calculate the indices at both axis of the grids for each track *)
  zs <- take_idx z particle_mask ;;
  z_idx <- closest z_axis zs ;;
  xs <- take_idx x particle_mask ;;
  ys <- take_idx y particle_mask ;;
  let thetas := map2 np_angle xs ys in
  theta_idx <- closest theta_axis thetas ;;
  (* Populate both grids *)
  ws <- take_idx wgt particle_mask ;;
  grid_values <- np_add_at grid_values z_idx theta_idx ws ;;
  error_grid <- np_add_at error_grid z_idx theta_idx (map (fun _ => fone) z_idx) ;;
  (* Normalize values *)
  x0 <- getitem x 0 ;;
  y0 <- getitem y 0 ;;
  let radius := np_linalg_norm2 x0 y0 in
  t0 <- getitem theta_axis 0 ;;
  tl <- getitem theta_axis (-1) ;;
  z0 <- getitem z_axis 0 ;;
  zl <- getitem z_axis (-1) ;;
  let extent := [fmul radius t0; fmul radius tl; z0; zl] in
  t1 <- getitem theta_axis 1 ;;
  z1 <- getitem z_axis 1 ;;
  let area := fabs (fmul (fmul radius (fsub t1 t0)) (fsub z1 z0)) in
  let grid_values := map (map (fun v => fdiv v area)) grid_values in
  let nps := of_int (wrap 64 (Z.abs (np1 (parameters rssa)))) in
  let grid_values := map (map (fun v => fdiv v nps)) grid_values in
  let grid_values := map (map (fun v => fmul v source_intensity)) grid_values in
  (* Give a relative error of 1 to empty voxels *)
  let error_grid := map (map (fun c => if feq c fzero then fone else c)) error_grid in
  let error_grid := map (map (fun c => fdiv fone (fsqrt c))) error_grid in
  Ok {| grid_values := grid_values; error_grid := error_grid; extent := extent;
        area := area;
        resolution := (fmul radius (fsub t1 t0), fsub z1 z0) |}.

(** The geometry filter of [plot_current_cyl]: first the axial range. *)
Definition axial_mask (z_range : option (F * F)) : result pyobj :=
  let mask := PyNone in
  match z_range with
  | Some (lo, hi) =>
    let mask1 := np_where (map (fun v => flt lo v) z) in
    let mask2 := np_where (map (fun v => flt v hi) z) in
    m <- np_intersect1d (PyWhere mask1) (PyWhere mask2) ;;
    Ok (PyArray m)
  | None => Ok mask
  end.

(** Then the perimeter range, for a cylinder of the given radius. *)
Definition perimeter_mask (radius : F) (mask : pyobj) (lo hi : F) : result pyobj :=
  let thetas := map2 np_angle x y in
  let x_values := map (fun t => fmul radius t) thetas in
  let mask1 := np_where (map (fun v => flt lo v) x_values) in
  let mask2 := np_where (map (fun v => flt v hi) x_values) in
  m <- np_intersect1d mask (PyWhere mask1) ;;
  m <- np_intersect1d (PyArray m) (PyWhere mask2) ;;
  Ok (PyArray m).

Definition location_mask (x_range z_range : option (F * F)) : result pyobj :=
  mask <- axial_mask z_range ;;
  match x_range with
  | Some (lo, hi) =>
    x0 <- getitem x 0 ;;
    y0 <- getitem y 0 ;;
    let radius := np_linalg_norm2 x0 y0 in
    perimeter_mask radius mask lo hi
  | None => Ok mask
  end.

(** [plot_current_cyl], up to the call of [generate_figures_current_cyl];
    saving and showing the figures is not embedded.  [Ok] is to be read as
    it is there. *)
Definition plot_current_cyl
           (particle : string) (z_int theta_int : Z) (source_intensity : F)
           (value_range x_range z_range : option (F * F))
  : result (Figures F) :=
  (* Filter tracks location if necessary *)
  mask <- location_mask x_range z_range ;;
  let mask := match mask with
              | PyArray m => Some m
              | _ => None
              end in
  generate_figures_current_cyl particle z_int theta_int source_intensity
                               value_range mask.
End Numeric.

(** ** float64 *)

(** The float64 nearest to an integer. *)
Definition float_of_Z (i : Z) : float :=
  SF2Prim (binary_normalize prec emax i 0 false).

(** [astype(int)] on a float64: the fraction is dropped; a NaN, an
    infinity and a value that is no int64 give [-2^63], the result of the
    conversion instruction of x86-64. *)
Definition float_astype_int (f : float) : Z :=
  match Prim2SF f with
  | S754_zero _ => 0
  | S754_finite s m e =>
    let v := if 0 <=? e then Zpos m * 2 ^ e else Zpos m / 2 ^ (- e) in
    let v := if s then - v else v in
    if (v <? - 2 ^ 63) || (2 ^ 63 <=? v) then - 2 ^ 63 else v
  | _ => - 2 ^ 63
  end.

(** float64 arithmetic.  The arctangent is the one of the C library and
    the dot product the one of the BLAS library (which may fuse a product
    with the sum that follows it); both are taken as parameters. *)
Definition binary64 (libm_atan2 : float -> float -> float)
           (blas_ddot : list float -> list float -> float) : Arith float := {|
  fadd := PrimFloat.add;
  fsub := PrimFloat.sub;
  fmul := PrimFloat.mul;
  fdiv := PrimFloat.div;
  fabs := PrimFloat.abs;
  fsqrt := PrimFloat.sqrt;
  flt := PrimFloat.ltb;
  fle := PrimFloat.leb;
  feq := PrimFloat.eqb;
  of_int := float_of_Z;
  astype_int := float_astype_int;
  arctan2 := libm_atan2;
  fdot := blas_ddot;
  lit_1e_4 := 0x1.a36e2eb1c432dp-14%float
|}.

(** The float64 nearest to pi. *)
Definition float_pi : float := 0x1.921fb54442d18p+1%float.

(** The values the C standard (Annex F) fixes for [atan2] when an argument
    is zero; no value is given elsewhere (NaN). *)
Definition atan2_axes (y x : float) : float :=
  if is_nan y || is_nan x then nan
  else if is_zero y then
    if get_sign x then (if get_sign y then - float_pi else float_pi)%float
    else y
  else if is_zero x then
    (if get_sign y then - (float_pi / 2) else float_pi / 2)%float
  else nan.

(** ** Kinds of float64 values *)

(** A zero or a NaN. *)
Definition zero_or_nan (x : spec_float) : Prop :=
  match x with
  | S754_zero _ | S754_nan => True
  | _ => False
  end.

(** A zero or a finite number other than zero. *)
Definition sf_number (x : spec_float) : Prop :=
  match x with
  | S754_zero _ | S754_finite _ _ _ => True
  | _ => False
  end.

(** A NaN, the number [l] itself, or a zero where [l] is one. *)
Definition nan_or_near (l x : spec_float) : Prop :=
  x = S754_nan \/ x = l \/ (zero_or_nan l /\ zero_or_nan x).

(** A dot product that rounds every product and every sum. *)
Definition ddot_rounded (a b : list float) : float :=
  fold_left (fun acc p => acc + fst p * snd p)%float (combine a b) 0%float.

(** ** Example tables *)

(** float64 arithmetic with the arctangent known on the axes and the dot
    product without fused operations. *)
Definition B64 : Arith float := binary64 atan2_axes ddot_rounded.

(** A track with packed flag [b], weight [w] and position [(px, py, pz)]. *)
Definition track (b w px py pz : float) : list float :=
  [1; b; w; 1; 0; px; py; pz; 0; 0; 1]%float.

Definition table (rows : list (list float)) : RSSA float :=
  {| filename := "example.w"; parameters := fst (plain_parameters (len rows));
     tracks := rows |}.

(** One neutron on the cylinder of radius 1. *)
Definition table_one : RSSA float := table [track 8e8 0.5 1 0 0].

(** Three photons at [z = 0, 5, 10] on the cylinder of radius 1, at the
    angles [0], [pi/2] and [0]. *)
Definition table_three : RSSA float :=
  table [track 9e8 0.5 1 0 0; track 9e8 0.25 0 1 5; track 9e8 0.125 1 0 10].

(** Two photons in opposite corners of the grid, of weight 0.1 (the
    float64 nearest to it) and 0.5. *)
Definition table_corners : RSSA float :=
  table [track 9e8 0x1.999999999999ap-4 1 0 0; track 9e8 0.5 0 1 10].

(** Two photons far up the cylinder, at [z = 1e16] and [z = 1e16 + 4]. *)
Definition table_far : RSSA float :=
  table [track 9e8 0.5 1 0 1e16; track 9e8 0.25 0 1 10000000000000004].

(** * The layout of a file, written down

    The repository has no writer.  The functions below lay out a header and
    a track table in the form [read_header] and [read_tracks] read, so that
    what the reader accepts can be stated for every file of that form. *)

Definition int32 (v : Z) : Prop := - 2 ^ 31 <= v < 2 ^ 31.
Definition int64 (v : Z) : Prop := - 2 ^ 63 <= v < 2 ^ 63.

Definition encode_surface (s : Surface) : list byte :=
  surface_record (id s) (info s) (type s) (num_params s) (params s).

(** The records of a header: the identification text, the counts, the
    flags, one record per surface, and the summary. *)
Definition encode_header (text : list byte) (p : Parameters) (summary : list byte)
  : list byte :=
  frame text
  ++ count_record (np1 p) (nrss p) (nrcd p) (njsw p) (niss p)
  ++ flags_record (niwr p) (mipts p) (kjaq p)
  ++ concat (map encode_surface (surfaces p))
  ++ frame summary.

(** A surface descriptor as [read_header] builds them under the flag
    [kjaq]: int32 fields, and [info = -1] unless [kjaq = 1]. *)
Definition surface_ok (kjaq : Z) (s : Surface) : Prop :=
  int32 (id s) /\ int32 (type s) /\ int32 (num_params s) /\
  (if kjaq =? 1 then int32 (info s) else info s = -1) /\
  Forall int32 (params s) /\
  16 + 4 * len (params s) < 2 ^ 31.

(** The headers [read_header] can return. *)
Definition header_ok (p : Parameters) : Prop :=
  int64 (np1 p) /\ np1 p < 0 /\ int64 (nrss p) /\ nrcd p = 11 /\
  njsw p = len (surfaces p) /\ int32 (njsw p) /\ int64 (niss p) /\
  int32 (niwr p) /\ niwr p <= 0 /\ int32 (mipts p) /\ int32 (kjaq p) /\
  Forall (surface_ok (kjaq p)) (surfaces p).

(** An identification text that names the supported generator. *)
Definition text_ok (text : list byte) : Prop :=
  len text < 2 ^ 31 /\
  exists s, utf8_decode text = Some s /\ str_in d1suned s = true.

(** A track record: two markers of four bytes around eleven 64-bit
    patterns. *)
Definition encode_track (r : list byte * list Z * list byte) : list byte :=
  let '(pre, fields, post) := r in
  pre ++ concat (map i64 fields) ++ post.

Definition track_ok (r : list byte * list Z * list byte) : Prop :=
  let '(pre, fields, post) := r in
  length pre = 4%nat /\ length fields = 11%nat /\ length post = 4%nat.

(** The row [read_tracks] makes of a track record. *)
Definition track_row (r : list byte * list Z * list byte) : list float :=
  let '(_, fields, _) := r in
  map (fun v => float_of_bits (v mod 2 ^ 64)) fields.

(** * The order of float64 values

    The comparisons of float64 order the values that are no NaN as their
    rank does: the sign class first, then exponent and mantissa. *)

Definition sf_rank (x : spec_float) : Z * Z * Z :=
  match x with
  | S754_zero _ => (0, 0, 0)
  | S754_infinity s => (if s then -2 else 2, 0, 0)
  | S754_nan => (0, 0, 0)
  | S754_finite s m e => if s then (-1, - e, - Zpos m) else (1, e, Zpos m)
  end.

Definition lex_lt (a b : Z * Z * Z) : Prop :=
  let '(a1, a2, a3) := a in
  let '(b1, b2, b3) := b in
  a1 < b1 \/ (a1 = b1 /\ (a2 < b2 \/ (a2 = b2 /\ a3 < b3))).

(** * menu.py

    The menu reads lines from the terminal and prints to it.  The terminal
    is a [world]: the lines still to be typed and what has been printed so
    far.  A method becomes a function of the menu and of the world, which
    returns a result or the exception that escapes it, and the new world.

    What the menu calls outside the repository is taken from an [Env]: the
    files of the machine, the parsers [int] and [float] of Python, the
    arctangent of the C library, and the two parts of the plotter that
    make the figures of the grids, and that save and show them. *)

Inductive py_exn : Type :=
| Known (e : exn)        (* raised by the reader or by the binner *)
| OtherValueError        (* a ValueError of int(), float() or of the drawing *)
| FileNotFoundError
| EOFError               (* input() when no line is left *)
| OtherException.        (* any other exception of the environment *)

(** [isinstance(e, ValueError)]; [UnicodeDecodeError] is a subclass of
    [ValueError], [NotImplementedError] is not. *)
Definition is_ValueError (e : py_exn) : bool :=
  match e with
  | Known (ValueError _) | Known UnicodeDecodeError | OtherValueError => true
  | _ => false
  end.

Inductive res (A : Type) : Type :=
| Ret (a : A)
| Exc (e : py_exn).
Arguments Ret {A} a.
Arguments Exc {A} e.

Definition text : Type := list (piece float).

(** What is written to the terminal. *)
Inductive out_item : Type :=
| Cleared                 (* the screen is cleared *)
| Printed (t : text)      (* print(t) *)
| Prompt (s : string).    (* the prompt of input(s) *)

Record world : Type := {
  stdin : list string;
  stdout : list out_item
}.

Definition io (A : Type) : Type := world -> res A * world.

Definition io_ret {A} (a : A) : io A := fun w => (Ret a, w).

Definition io_bind {A B} (c : io A) (k : A -> io B) : io B :=
  fun w => match c w with
           | (Ret a, w') => k a w'
           | (Exc e, w') => (Exc e, w')
           end.

Notation "x <~ c ;; k" := (io_bind c (fun x => k))
  (at level 61, c at next level, right associativity).

Definition io_raise {A} (e : py_exn) : io A := fun w => (Exc e, w).

Definition print (t : text) : io unit :=
  fun w => (Ret tt, {| stdin := stdin w; stdout := stdout w ++ [Printed t] |}).

Definition input (prompt : string) : io string :=
  fun w =>
    let out := stdout w ++ [Prompt prompt] in
    match stdin w with
    | [] => (Exc EOFError, {| stdin := []; stdout := out |})
    | line :: rest => (Ret line, {| stdin := rest; stdout := out |})
    end.

Definition clear_screen : io unit :=
  fun w => (Ret tt, {| stdin := stdin w; stdout := stdout w ++ [Cleared] |}).

(** A result of the reader or of the binner, as one of the menu. *)
Definition lift {A} (r : result A) : res A :=
  match r with
  | Ok a => Ret a
  | Raise e => Exc (Known e)
  end.

(** A computation that does not touch the terminal. *)
Definition io_lift {A} (r : res A) : io A := fun w => (r, w).

(** [try: c except ValueError: handler] *)
Definition try_ValueError {A} (c : io A) (handler : io A) : io A :=
  fun w => match c w with
           | (Exc e, w') => if is_ValueError e then handler w' else (Exc e, w')
           | r => r
           end.

(** A file name on the machine. *)
Inductive file : Type :=
| Missing                     (* open() raises FileNotFoundError *)
| Unreadable                  (* open() raises another error *)
| Contents (bytes : stream).

Record Env : Type := {
  env_atan2 : float -> float -> float;
  env_ddot : list float -> list float -> float;
  env_files : string -> file;
  (** [int(s)] and [float(s)], [None] where they raise [ValueError] *)
  env_int : string -> option Z;
  env_float : string -> option float;
  (** the two figures made of the grids, with the exception this raises *)
  env_draw : Figures float -> option (float * float) -> option py_exn;
  (** the figures saved under a name and shown *)
  env_show : Figures float -> string -> option py_exn
}.

Definition env_arith (env : Env) : Arith float :=
  binary64 (env_atan2 env) (env_ddot env).

Definition MAIN_MENU : string := "
 ***********************************************
                RSSA analyzer
 ***********************************************
 * Open RSSA file                       (open)   
 * Display RSSA information             (info)   
 * Plot                                 (plot)
 * Plot with many customization options (custom)
 * Exit                                 (end)    
".

Inductive Command : Type := RUN | OPEN | INFO | PLOT | CUSTOM_PLOT | END.

(** [Command(command_str)] *)
Definition Command_of (command_str : string) : option Command :=
  if String.eqb command_str "run" then Some RUN
  else if String.eqb command_str "open" then Some OPEN
  else if String.eqb command_str "info" then Some INFO
  else if String.eqb command_str "plot" then Some PLOT
  else if String.eqb command_str "custom" then Some CUSTOM_PLOT
  else if String.eqb command_str "end" then Some END
  else None.

Record Menu : Type := {
  rssa_list : list (RSSA float);
  command : Command;
  subtext : text
}.

(** A text that is not the empty string. *)
Definition truthy (t : text) : bool :=
  existsb (fun p => match p with
                    | Text s => negb (String.eqb s "")
                    | _ => true
                    end) t.

Definition rssa_filenames (m : Menu) : list string := map filename (rssa_list m).

(** [RSSA(filename)] *)
Definition RSSA_init (env : Env) (name : string) : res (RSSA float) :=
  match env_files env name with
  | Missing => Exc FileNotFoundError
  | Unreadable => Exc OtherException
  | Contents f =>
    match read_rssa f with
    | Ok (p, t) => Ret {| filename := name; parameters := p; tracks := t |}
    | Raise e => Exc (Known e)
    end
  end.

Definition listing (names : list string) : list out_item :=
  map (fun '(i, name) => Printed [Text "["; Int i; Text "]: "; Text name])
      (combine (arange (len names)) names).

(** [select_rssa_index] with more than one file: it asks again, by a call
    to itself, until a line is an index of the list.  (The depth of the
    calls of Python is not bounded here.) *)
Fixpoint select_loop (env : Env) (names : list string) (lines : list string)
         (out : list out_item) : res Z * world :=
  let out := out ++ listing names ++ [Prompt " select the rssa by index: "] in
  match lines with
  | [] => (Exc EOFError, {| stdin := []; stdout := out |})
  | inp :: rest =>
    match env_int env inp with
    | Some idx =>
      if (0 <=? idx) && (idx <? len names)
      then (Ret idx, {| stdin := rest; stdout := out |})
      else select_loop env names rest
             (out ++ [Printed [Text "Index not among possible options..."]])
    | None =>
      select_loop env names rest (out ++ [Printed [Text "Not a valid index..."]])
    end
  end.

Definition select_rssa_index (env : Env) (m : Menu) : io Z :=
  fun w =>
    (* In case there is only 1 file loaded there is no need to ask *)
    if len (rssa_list m) =? 1 then (Ret 0, w)
    else select_loop env (rssa_filenames m) (stdin w) (stdout w).

Definition go_main_menu (m : Menu) (sub : option text) : Menu :=
  {| rssa_list := rssa_list m;
     command := RUN;
     subtext := match sub with
                | Some t => if truthy t then t else subtext m
                | None => subtext m
                end |}.

Definition get_command (m : Menu) : io Menu :=
  command_str <~ input " enter action: " ;;
  io_ret match Command_of command_str with
         | Some c => {| rssa_list := rssa_list m; command := c; subtext := subtext m |}
         | None => {| rssa_list := rssa_list m; command := RUN;
                      subtext := [Text "Invalid action..."] |}
         end.

Definition command_run (m : Menu) : io Menu :=
  _ <~ clear_screen ;;
  _ <~ print [Text MAIN_MENU] ;;
  _ <~ (if truthy (subtext m) then print (subtext m) else io_ret tt) ;;
  get_command {| rssa_list := rssa_list m; command := command m; subtext := [] |}.

Definition command_open (env : Env) (m : Menu) : io Menu :=
  name <~ input " enter rssa file name: " ;;
  if existsb (String.eqb name) (rssa_filenames m)
  then io_ret (go_main_menu m (Some [Text "RSSA filename already loaded..."]))
  else
    match RSSA_init env name with
    | Ret rssa =>
      io_ret (go_main_menu {| rssa_list := rssa_list m ++ [rssa];
                              command := command m; subtext := subtext m |}
                           (Some [Text "RSSA file loaded!"]))
    | Exc FileNotFoundError =>
      io_ret (go_main_menu m (Some [Text "File not found for this path or filename..."]))
    | Exc e => io_raise e
    end.

Definition no_files : text := [Text "No RSSA files loaded..."].

(** [self.rssa_list[idx]] *)
Definition chosen (m : Menu) (idx : Z) : io (RSSA float) :=
  io_lift (lift (getitem (rssa_list m) idx)).

Definition command_info (env : Env) (m : Menu) : io Menu :=
  if len (rssa_list m) =? 0
  then io_ret (go_main_menu m (Some no_files))
  else
    idx <~ select_rssa_index env m ;;
    rssa <~ chosen m idx ;;
    info <~ io_lift (lift (@get_info float (env_arith env) rssa)) ;;
    io_ret (go_main_menu m (Some info)).

(** The call of [plot_current_cyl] by the two plot commands: the arguments
    are converted, the grids are computed, the figures are made, the two
    lines on the cells are printed, and the figures are saved and shown. *)
Definition call_plot (env : Env) (rssa : RSSA float)
           (particle z_int theta_int source_intensity : string)
           (value_range x_range z_range : option (float * float)) : io unit :=
  match env_int env z_int with
  | None => io_raise OtherValueError
  | Some zi =>
    match env_int env theta_int with
    | None => io_raise OtherValueError
    | Some ti =>
      match env_float env source_intensity with
      | None => io_raise OtherValueError
      | Some si =>
        figures <~ io_lift (lift (@plot_current_cyl float (env_arith env) rssa
                                    particle zi ti si value_range x_range z_range)) ;;
        match env_draw env figures value_range with
        | Some e => io_raise e
        | None =>
          _ <~ print [Text "The area of a cell is "; Fixed2 (area figures);
                      Text "cm2"] ;;
          _ <~ print [Text "The resolution is "; Fixed2 (fst (resolution figures));
                      Text "cm x "; Fixed2 (snd (resolution figures)); Text "cm"] ;;
          match env_show env figures (filename rssa ++ "PLOT") with
          | Some e => io_raise e
          | None => io_ret tt
          end
        end
      end
    end
  end.

Definition incorrect_parameter : text :=
  [Text "Some parameter introduced was incorrect..."].

(** The call inside its [try], and the return to the main menu that
    follows it. *)
Definition try_plot (m : Menu) (call : io unit) : io Menu :=
  m' <~ try_ValueError (_ <~ call ;; io_ret m)
                       (io_ret (go_main_menu m (Some incorrect_parameter))) ;;
  io_ret (go_main_menu m' None).

Definition not_cylindrical : text :=
  [Text "The RSSA contains a non cylindrical surface, not implemented yet..."].

Definition command_plot (env : Env) (m : Menu) : io Menu :=
  if len (rssa_list m) =? 0
  then io_ret (go_main_menu m (Some no_files))
  else
    idx <~ select_rssa_index env m ;;
    rssa <~ chosen m idx ;;
    match @rssa_type float (env_arith env) rssa with
    | cyl =>
      particle <~ input "Enter the particle type (n, p): " ;;
      z_int <~ input "Enter amount of z ints: " ;;
      theta_int <~ input "Enter amount of theta ints: " ;;
      source_intensity <~ input "Enter source intensity: " ;;
      try_plot m (call_plot env rssa particle z_int theta_int source_intensity
                            None None None)
    | _ => io_ret (go_main_menu m (Some not_cylindrical))
    end.

(** [s.split(',')] *)
Fixpoint split_comma (s : string) : list string :=
  match s with
  | EmptyString => [EmptyString]
  | String c rest =>
    if Ascii.eqb c (Ascii.ascii_of_nat 44) (* the comma *)
    then EmptyString :: split_comma rest
    else match split_comma rest with
         | h :: t => String c h :: t
         | [] => [String c EmptyString]
         end
  end.

(** [float(s.split(',')[0]), float(s.split(',')[1])], or nothing where a
    [ValueError] or an [IndexError] is raised. *)
Definition parse_range (env : Env) (s : string) : option (float * float) :=
  match split_comma s with
  | a :: rest =>
    match env_float env a with
    | None => None
    | Some va =>
      match rest with
      | b :: _ =>
        match env_float env b with
        | None => None
        | Some vb => Some (va, vb)
        end
      | [] => None
      end
    end
  | [] => None
  end.

Definition ask_range (env : Env) (prompt none_selected : string)
  : io (option (float * float)) :=
  s <~ input prompt ;;
  match parse_range env s with
  | Some r => io_ret (Some r)
  | None => _ <~ print [Text none_selected] ;; io_ret None
  end.

Definition command_custom_plot (env : Env) (m : Menu) : io Menu :=
  if len (rssa_list m) =? 0
  then io_ret (go_main_menu m (Some no_files))
  else
    idx <~ select_rssa_index env m ;;
    rssa <~ chosen m idx ;;
    match @rssa_type float (env_arith env) rssa with
    | cyl =>
      particle <~ input "Enter the particle type (n, p): " ;;
      z_int <~ input "Enter amount of z ints: " ;;
      theta_int <~ input "Enter amount of theta ints: " ;;
      source_intensity <~ input "Enter source intensity: " ;;
      value_range <~ ask_range env
        "[Optional - leave blank] Enter value range (e.g.: 1e2, 1e8): "
        "No value range selected" ;;
      x_range <~ ask_range env
        "[Optional - leave blank] Enter X axis range (e.g.: -200, 600): "
        "No x range selected" ;;
      z_range <~ ask_range env
        "[Optional - leave blank] Enter Z axis range (e.g.: -200, 600): "
        "No z range selected" ;;
      m' <~ try_plot m (call_plot env rssa particle z_int theta_int source_intensity
                                  value_range x_range z_range) ;;
      io_ret (go_main_menu m' None)
    | _ => io_ret (go_main_menu m (Some not_cylindrical))
    end.

Definition command_end : io unit :=
  print [Text "Thanks for using rssa_analyzer, see you soon!"].

(** One turn of the loop, for a command other than [END]. *)
Definition turn (env : Env) (m : Menu) : io Menu :=
  match command m with
  | RUN => command_run m
  | OPEN => command_open env m
  | INFO => command_info env m
  | PLOT => command_plot env m
  | CUSTOM_PLOT => command_custom_plot env m
  | END => io_ret m
  end.

(** [loop], for at most [fuel] turns: nothing when the turns run out. *)
Fixpoint loop (env : Env) (fuel : nat) (m : Menu) (w : world)
  : option (res Menu * world) :=
  match fuel with
  | O => None
  | S fuel' =>
    match command m with
    | END =>
      match command_end w with
      | (Ret _, w') => Some (Ret m, w')
      | (Exc e, w') => Some (Exc e, w')
      end
    | _ =>
      match turn env m w with
      | (Ret m', w') => loop env fuel' m' w'
      | (Exc e, w') => Some (Exc e, w')
      end
    end
  end.

(** [Menu()]: the menu as it starts. *)
Definition Menu_init : Menu := {| rssa_list := []; command := RUN; subtext := [] |}.

(** Turns enough for the lines that are left: a command other than [RUN]
    is followed by [RUN], which reads a line. *)
Definition turns (w : world) : nat := (2 * length (stdin w) + 2)%nat.

(** What holds of the result of a computation when it returns. *)
Definition returns {A} (c : io A) (Q : A -> Prop) : Prop :=
  forall w a w', c w = (Ret a, w') -> Q a.

(** A computation leaves no more lines than it finds. *)
Definition reads {A} (c : io A) : Prop :=
  forall w r w', c w = (r, w') -> (length (stdin w') <= length (stdin w))%nat.

(** The menu is back at the main menu, with the files it had. *)
Definition back (m : Menu) (m' : Menu) : Prop :=
  rssa_list m' = rssa_list m /\ command m' = RUN.

(** The last line the menu prints. *)
Definition goodbye : out_item :=
  Printed [Text "Thanks for using rssa_analyzer, see you soon!"].

(** An environment for examples: one file that loads, one whose first
    record is not text, a few numbers that parse, figures that are drawn
    without an error. *)
Definition env_demo : Env := {|
  env_atan2 := atan2_axes;
  env_ddot := ddot_rounded;
  env_files := fun name =>
    if String.eqb name "one.w" then Contents file_one_track
    else if String.eqb name "bad.w" then Contents file_bad_text
    else Missing;
  env_int := fun s =>
    if String.eqb s "0" then Some 0
    else if String.eqb s "1" then Some 1
    else if String.eqb s "2" then Some 2
    else None;
  env_float := fun s => if String.eqb s "10" then Some 10%float else None;
  env_draw := fun _ _ => None;
  env_show := fun _ _ => None
|}.

(** A menu with two tables loaded, about to show the information of one. *)
Definition menu_two : Menu :=
  {| rssa_list := [table_one; table_three]; command := INFO; subtext := [] |}.

(** * Properties of the reader *)

(** ** The result monad *)

Lemma bind_Ok_inv {A B} (r : result A) (k : A -> result B) (b : B) :
  bind r k = Ok b -> exists a, r = Ok a /\ k a = Ok b.
Proof. destruct r as [a|e]; simpl; intros H; [eauto | discriminate]. Qed.

Lemma bind_Raise_inv {A B} (r : result A) (k : A -> result B) (e : exn) :
  bind r k = Raise e -> r = Raise e \/ exists a, r = Ok a /\ k a = Raise e.
Proof. destruct r as [a|e']; simpl; intros H; [right; eauto | left; congruence]. Qed.

(** ** Lists cut into items *)

Lemma firstn_plus {A} (a b : nat) (l : list A) :
  firstn (a + b) l = firstn a l ++ firstn b (skipn a l).
Proof.
  revert l; induction a as [|a IH]; intros l; simpl; [reflexivity|].
  destruct l as [|x l]; simpl.
  - now rewrite firstn_nil.
  - now rewrite IH.
Qed.

Lemma skipn_plus {A} (a b : nat) (l : list A) :
  skipn (a + b) l = skipn b (skipn a l).
Proof.
  revert l; induction a as [|a IH]; intros l; simpl; [reflexivity|].
  destruct l as [|x l]; simpl.
  - now rewrite skipn_nil.
  - apply IH.
Qed.

Lemma chunks_length {A} (w n : nat) (l : list A) : length (chunks w n l) = n.
Proof. revert l; induction n as [|n IH]; intros l; simpl; [reflexivity | now rewrite IH]. Qed.

Lemma concat_chunks {A} (w n : nat) (l : list A) :
  concat (chunks w n l) = firstn (n * w) l.
Proof.
  revert l; induction n as [|n IH]; intros l; simpl; [reflexivity|].
  now rewrite IH, firstn_plus.
Qed.

Lemma chunks_Forall {A} (w n : nat) (l : list A) :
  (n * w <= length l)%nat -> Forall (fun c => length c = w) (chunks w n l).
Proof.
  revert l; induction n as [|n IH]; intros l H; simpl; constructor.
  - rewrite length_firstn. simpl in H. lia.
  - apply IH. rewrite length_skipn. simpl in H. lia.
Qed.

Lemma concat_length_Forall {A} (w : nat) (rows : list (list A)) :
  Forall (fun c => length c = w) rows -> length (concat rows) = (length rows * w)%nat.
Proof.
  induction 1 as [|r rows Hr _ IH]; simpl; [reflexivity|].
  rewrite length_app, IH, Hr. reflexivity.
Qed.

(** ** read_int and read_fortran_record *)

Lemma read_int_short (f : stream) :
  (length f < 4)%nat -> read_int f = Raise IndexError.
Proof.
  intros H. unfold read_int, np_fromfile, INT.
  rewrite (Nat.div_small (length f) 4 H). reflexivity.
Qed.

Lemma read_int_long (f : stream) :
  (4 <= length f)%nat ->
  read_int f = Ok (int32_of_bytes (firstn 4 f), skipn 4 f).
Proof.
  intros H. unfold read_int, np_fromfile, INT.
  assert (Hd : (1 <= length f / 4)%nat)
    by (apply Nat.div_le_lower_bound; lia).
  change (1 <? 0) with false. cbv iota.
  change (Z.to_nat 1) with 1%nat.
  rewrite (Nat.min_l 1 (length f / 4)) by exact Hd.
  reflexivity.
Qed.

Lemma read_int_app (pre rest : stream) :
  length pre = 4%nat -> read_int (pre ++ rest) = Ok (int32_of_bytes pre, rest).
Proof.
  intros H. rewrite read_int_long by (rewrite length_app; lia).
  destruct pre as [|a [|b [|c [|d [|x pre]]]]]; try discriminate H.
  reflexivity.
Qed.

Lemma read_fortran_record_eq (f : stream) :
  read_fortran_record f =
  ('(count_1, f1) <- read_int f ;;
   let n := payload_size count_1 f1 in
   '(count_2, f3) <- read_int (skipn n f1) ;;
   if negb (count_1 =? count_2) then Raise (ValueError FrameMismatch)
   else Ok (firstn n f1, f3)).
Proof.
  unfold read_fortran_record.
  destruct (read_int f) as [[count_1 f1]|e]; [|reflexivity].
  unfold bind at 1 3. unfold np_fromfile, payload_size, BYTE.
  rewrite Nat.div_1_r, concat_chunks, !Nat.mul_1_r.
  reflexivity.
Qed.

Lemma read_fortran_record_Raise (f : stream) (e : exn) :
  read_fortran_record f = Raise e ->
  e = IndexError \/ (e = ValueError FrameMismatch /\ frame_mismatch f).
Proof.
  rewrite read_fortran_record_eq.
  destruct (le_lt_dec 4 (length f)) as [Hf|Hf];
    [|rewrite read_int_short by exact Hf; simpl; intros H; left; congruence].
  rewrite read_int_long by exact Hf. cbn [bind].
  set (n1 := int32_of_bytes (firstn 4 f)).
  set (f1 := skipn 4 f).
  set (n := payload_size n1 f1).
  destruct (le_lt_dec 4 (length (skipn n f1))) as [Hs|Hs];
    [|rewrite read_int_short by exact Hs; simpl; intros H; left; congruence].
  rewrite read_int_long by exact Hs. cbn [bind].
  set (n2 := int32_of_bytes (firstn 4 (skipn n f1))).
  destruct (Z.eqb_spec n1 n2) as [E|E]; simpl; [discriminate|].
  intros H; right; split; [congruence|].
  exists (firstn 4 f), (firstn n f1), (firstn 4 (skipn n f1)), (skipn 4 (skipn n f1)).
  rewrite length_skipn in Hs.
  assert (Hn : n = Z.to_nat n1 /\ 0 <= n1).
  { unfold n, payload_size in *. destruct (Z.ltb_spec n1 0); lia. }
  destruct Hn as [Hn Hpos].
  repeat split.
  - unfold f1. now rewrite ?firstn_skipn.
  - rewrite length_firstn. lia.
  - rewrite length_firstn, length_skipn. lia.
  - unfold len. rewrite length_firstn. fold n1. lia.
  - exact E.
Qed.

Lemma frame_mismatch_Raise (f : stream) :
  frame_mismatch f -> read_fortran_record f = Raise (ValueError FrameMismatch).
Proof.
  intros (pre & data & suf & rest & -> & Hpre & Hsuf & Hlen & Hne).
  rewrite read_fortran_record_eq, read_int_app by exact Hpre. cbn [bind].
  assert (Hn : payload_size (int32_of_bytes pre) (data ++ suf ++ rest) = length data).
  { unfold payload_size, len in *. rewrite <- Hlen.
    destruct (Z.ltb_spec (Z.of_nat (length data)) 0); [lia|].
    rewrite Nat2Z.id, length_app. lia. }
  rewrite Hn, skipn_app, skipn_all, Nat.sub_diag, firstn_app, firstn_all, Nat.sub_diag.
  cbn [skipn firstn app]. rewrite app_nil_r.
  rewrite read_int_app by exact Hsuf. cbn [bind].
  destruct (Z.eqb_spec (int32_of_bytes pre) (int32_of_bytes suf)); [contradiction|reflexivity].
Qed.

Lemma buffer_exn_decode_exn (e : exn) : is_buffer_exn e = true -> is_decode_exn e = true.
Proof. unfold is_decode_exn. intros ->. reflexivity. Qed.

Lemma read_fortran_record_decode_exn (f : stream) (e : exn) :
  read_fortran_record f = Raise e -> is_decode_exn e = true.
Proof.
  intros H. apply read_fortran_record_Raise in H as [->|[-> _]]; reflexivity.
Qed.

(** ** np.frombuffer *)

Lemma np_frombuffer_Raise (data : list byte) (sz : nat) (count offset : Z) (e : exn) :
  np_frombuffer data sz count offset = Raise e ->
  exists w, e = ValueError w /\ frombuffer_error w.
Proof.
  unfold np_frombuffer, frombuffer_error.
  repeat match goal with |- context [if ?b then _ else _] => destruct b end;
    intros H; inversion H; eauto.
Qed.

Lemma frombuffer_error_buffer_exn (w : value_error) :
  frombuffer_error w <-> is_buffer_exn (ValueError w) = true.
Proof.
  unfold frombuffer_error. split.
  - intros [->|[->| ->]]; reflexivity.
  - destruct w; simpl; intros H; try discriminate H; auto.
Qed.

Lemma np_frombuffer_buffer_exn (data : list byte) (sz : nat) (count offset : Z) (e : exn) :
  np_frombuffer data sz count offset = Raise e -> is_buffer_exn e = true.
Proof.
  intros H. apply np_frombuffer_Raise in H as (w & -> & Hw).
  now apply frombuffer_error_buffer_exn.
Qed.

Lemma item0_buffer_exn {A} (a : list A) (e : exn) :
  item0 a = Raise e -> is_buffer_exn e = true.
Proof. destruct a; simpl; intros H; inversion H; reflexivity. Qed.

Lemma int32_at_buffer_exn (data : list byte) (offset : Z) (e : exn) :
  int32_at data offset = Raise e -> is_buffer_exn e = true.
Proof.
  unfold int32_at. intros H.
  apply bind_Raise_inv in H as [H|(a & _ & H)]; [eapply np_frombuffer_buffer_exn; eauto|].
  apply bind_Raise_inv in H as [H|(x & _ & H)]; [eapply item0_buffer_exn; eauto|discriminate].
Qed.

Lemma int64_at_buffer_exn (data : list byte) (offset : Z) (e : exn) :
  int64_at data offset = Raise e -> is_buffer_exn e = true.
Proof.
  unfold int64_at. intros H.
  apply bind_Raise_inv in H as [H|(a & _ & H)]; [eapply np_frombuffer_buffer_exn; eauto|].
  apply bind_Raise_inv in H as [H|(x & _ & H)]; [eapply item0_buffer_exn; eauto|discriminate].
Qed.

(** ** The stages of read_header *)

(** Case analysis on the first computation of a chain of binds. *)
Ltac dbind :=
  match goal with
  | |- context [bind ?r _] =>
    let E := fresh "E" in
    destruct r as [?|?] eqn:E; cbn [bind];
    repeat match goal with p : (_ * _)%type |- _ => destruct p end;
    cbn beta iota zeta
  end.

(** The error of a failing call, classified by the lemma of that call. *)
Ltac buffer_exn_tac :=
  intros;
  repeat match goal with
  | H : Raise _ = Raise _ |- _ => injection H as <-
  | H : Ok _ = Raise _ |- _ => discriminate H
  | H : int32_at _ _ = Raise _ |- _ => exact (int32_at_buffer_exn _ _ _ H)
  | H : int64_at _ _ = Raise _ |- _ => exact (int64_at_buffer_exn _ _ _ H)
  | H : np_frombuffer _ _ _ _ = Raise _ |- _ =>
    exact (np_frombuffer_buffer_exn _ _ _ _ _ H)
  end.

Lemma decode_utf8_buffer_exn (data : list byte) (e : exn) :
  decode_utf8 data = Raise e -> is_buffer_exn e = true.
Proof.
  unfold decode_utf8. destruct (utf8_decode data); intros H; inversion H; reflexivity.
Qed.

Lemma flags_of_buffer_exn (data : list byte) (e : exn) :
  flags_of data = Raise e -> is_buffer_exn e = true.
Proof.
  unfold flags_of. dbind; [|buffer_exn_tac].
  destruct (map int32_of_bytes _) as [|x [|y [|z [|? ?]]]];
    intros H; inversion H; reflexivity.
Qed.

Lemma decode_surface_buffer_exn (kjaq : Z) (data : list byte) (e : exn) :
  decode_surface kjaq data = Raise e -> is_buffer_exn e = true.
Proof.
  unfold decode_surface. dbind; [|buffer_exn_tac].
  dbind; [|destruct (kjaq =? 1); buffer_exn_tac].
  repeat (dbind; [|buffer_exn_tac]). discriminate.
Qed.

Lemma read_fortran_record_suffix (f : stream) (data rest : list byte) :
  read_fortran_record f = Ok (data, rest) -> suffix rest f.
Proof.
  rewrite read_fortran_record_eq.
  destruct (le_lt_dec 4 (length f)) as [Hf|Hf];
    [rewrite read_int_long by exact Hf | rewrite read_int_short by exact Hf; discriminate].
  cbn [bind]. set (n := payload_size _ _).
  destruct (le_lt_dec 4 (length (skipn n (skipn 4 f)))) as [Hg|Hg];
    [rewrite read_int_long by exact Hg | rewrite read_int_short by exact Hg; discriminate].
  cbn [bind]. destruct (negb _); [discriminate|].
  intros H; injection H as _ <-.
  exists (firstn (4 + (n + 4)) f).
  rewrite <- (firstn_skipn (4 + (n + 4)) f) at 1. f_equal.
  rewrite 2!skipn_plus. reflexivity.
Qed.

(** A stage reads one record and decodes its payload: it leaves a suffix
    of the file, and its errors are those of the record reader and of the
    decoder. *)
Section Stage.
Context {A : Type} (decode : list byte -> result A).
Hypothesis decode_exn : forall data e, decode data = Raise e -> is_buffer_exn e = true.

Lemma stage_Raise (f : stream) (e : exn) :
  stage decode f = Raise e ->
  is_buffer_exn e = true \/ (e = ValueError FrameMismatch /\ frame_mismatch f).
Proof.
  unfold stage. dbind.
  - dbind; [discriminate|]. intros H; injection H as <-. left. eauto.
  - intros H; injection H as <-.
    apply read_fortran_record_Raise in E as [->|E]; auto.
Qed.

Lemma stage_suffix (f : stream) (a : A) (rest : stream) :
  stage decode f = Ok (a, rest) -> suffix rest f.
Proof.
  unfold stage. dbind; [|discriminate]. dbind; [|discriminate].
  intros H; injection H as _ <-. eapply read_fortran_record_suffix; eauto.
Qed.

Lemma stage_decode_exn (f : stream) (e : exn) :
  stage decode f = Raise e -> is_decode_exn e = true.
Proof.
  intros H. apply stage_Raise in H as [H|[-> _]];
    [now apply buffer_exn_decode_exn | reflexivity].
Qed.
End Stage.

Lemma read_counts_stage (f : stream) : read_counts f = stage decode_counts f.
Proof.
  unfold read_counts, stage, decode_counts.
  destruct (read_fortran_record f) as [[data f2]|e]; cbn [bind]; [|reflexivity].
  repeat (dbind; [|reflexivity]). reflexivity.
Qed.

Lemma decode_counts_buffer_exn (data : list byte) (e : exn) :
  decode_counts data = Raise e -> is_buffer_exn e = true.
Proof.
  unfold decode_counts. repeat (dbind; [|buffer_exn_tac]). discriminate.
Qed.

Lemma read_flags_stage (f : stream) :
  read_flags f = '(x, f3) <- stage flags_of f ;; let '(niwr, mipts, kjaq) := x in
                 Ok (niwr, mipts, kjaq, f3).
Proof.
  unfold read_flags, stage.
  destruct (read_fortran_record f) as [[data f3]|e]; cbn [bind]; [|reflexivity].
  destruct (flags_of data) as [[[niwr mipts] kjaq]|e]; reflexivity.
Qed.

Lemma read_id_decode_exn (f : stream) (e : exn) :
  read_id f = Raise e -> is_decode_exn e = true.
Proof. apply stage_decode_exn, decode_utf8_buffer_exn. Qed.

Lemma read_counts_decode_exn (f : stream) (e : exn) :
  read_counts f = Raise e -> is_decode_exn e = true.
Proof. rewrite read_counts_stage. apply stage_decode_exn, decode_counts_buffer_exn. Qed.

Lemma read_flags_decode_exn (f : stream) (e : exn) :
  read_flags f = Raise e -> is_decode_exn e = true.
Proof.
  rewrite read_flags_stage. dbind.
  - discriminate.
  - intros H; injection H as <-.
    eapply stage_decode_exn; [apply flags_of_buffer_exn | eauto].
Qed.

Lemma read_surface_decode_exn (kjaq : Z) (f : stream) (e : exn) :
  read_surface kjaq f = Raise e -> is_decode_exn e = true.
Proof. apply stage_decode_exn, decode_surface_buffer_exn. Qed.

Lemma read_surfaces_decode_exn (n : nat) (kjaq : Z) (f : stream) (e : exn) :
  read_surfaces n kjaq f = Raise e -> is_decode_exn e = true.
Proof.
  revert f; induction n as [|n IH]; intros f; simpl; [discriminate|].
  dbind; [|intros H; injection H as <-; eapply read_surface_decode_exn; eauto].
  dbind; [discriminate|]. intros H; injection H as <-. eapply IH; eauto.
Qed.

Lemma read_header_stages (f : stream) :
  read_header f =
  ('(s, f1) <- read_id f ;;
   if negb (str_in d1suned s) then Raise (NotImplementedError UnknownGenerator)
   else
   '(c, f2) <- read_counts f1 ;;
   if negb (c_nrcd c =? 11) then Raise (NotImplementedError BadRecordWidth)
   else if negb (c_np1 c <? 0) then Raise (NotImplementedError NonNegativeHistories)
   else
   '(niwr, mipts, kjaq, f3) <- read_flags f2 ;;
   '(surfaces, f4) <- read_surfaces (Z.to_nat (c_njsw c)) kjaq f3 ;;
   f5 <- (if c_njsw c <? wrap 32 (c_njsw c + niwr)
          then '(_, _) <- read_fortran_record f4 ;;
               Raise (NotImplementedError ExtensionRecords)
          else Ok f4) ;;
   '(_, f6) <- read_fortran_record f5 ;;
   Ok ({| np1 := c_np1 c; nrss := c_nrss c; nrcd := c_nrcd c; njsw := c_njsw c;
          niss := c_niss c; niwr := niwr; mipts := mipts; kjaq := kjaq;
          surfaces := surfaces |}, f6)).
Proof.
  unfold read_header, read_id, read_counts, read_flags.
  destruct (read_fortran_record f) as [[data f1]|e]; cbn [bind]; [|reflexivity].
  destruct (decode_utf8 data) as [s|e]; cbn [bind]; [|reflexivity].
  destruct (negb (str_in d1suned s)); [reflexivity|].
  destruct (read_fortran_record f1) as [[data2 f2]|e]; cbn [bind]; [|reflexivity].
  destruct (int64_at data2 0) as [v1|e]; cbn [bind]; [|reflexivity].
  destruct (int64_at data2 8) as [v2|e]; cbn [bind]; [|reflexivity].
  destruct (int32_at data2 16) as [v3|e]; cbn [bind]; [|reflexivity].
  destruct (int32_at data2 20) as [v4|e]; cbn [bind]; [|reflexivity].
  destruct (int64_at data2 24) as [v5|e]; cbn [bind]; [|reflexivity].
  cbn [c_nrcd c_np1 c_njsw c_nrss c_niss].
  destruct (negb (v3 =? 11)); [reflexivity|].
  destruct (negb (v1 <? 0)); [reflexivity|].
  destruct (read_fortran_record f2) as [[data3 f3]|e]; cbn [bind]; [|reflexivity].
  destruct (flags_of data3) as [[[niwr mipts] kjaq]|e]; cbn [bind]; reflexivity.
Qed.

Lemma wrap32_small (x : Z) : - 2 ^ 31 <= x < 2 ^ 31 -> wrap 32 x = x.
Proof.
  intros H. unfold wrap. change (32 - 1) with 31.
  rewrite Z.mod_small; lia.
Qed.

Lemma read_header_unsupported_iff (f : stream) (w : not_implemented) :
  extension_end_fits f ->
  (read_header f = Raise (NotImplementedError w) <-> unsupported f w).
Proof.
  intros Hfit. unfold unsupported. rewrite read_header_stages.
  destruct (read_id f) as [[s f1]|e] eqn:E1; cbn [bind].
  2:{ split.
      - intros H. exfalso. injection H as ->.
        apply read_id_decode_exn in E1. discriminate E1.
      - intros (s & f1 & H & _). discriminate H. }
  destruct (str_in d1suned s) eqn:Es; cbn [negb].
  2:{ split.
      - intros H. injection H as <-. exists s, f1. auto.
      - intros (s' & f1' & H & [[-> _]|[H' _]]); [reflexivity|].
        injection H as <- <-. congruence. }
  destruct (read_counts f1) as [[c f2]|e] eqn:E2; cbn [bind].
  2:{ split.
      - intros H. exfalso. injection H as ->.
        apply read_counts_decode_exn in E2. discriminate E2.
      - intros (s' & f1' & H & [[_ H']|(_ & c & f2 & H' & _)]);
          injection H as <- <-; congruence. }
  destruct (Z.eqb_spec (c_nrcd c) 11) as [Hn|Hn]; cbn [negb].
  2:{ split.
      - intros H. injection H as <-. exists s, f1. split; [reflexivity|].
        right. split; [exact Es|]. exists c, f2. auto.
      - intros (s' & f1' & H & [[_ H']|(_ & c' & f2' & H' & Hc)]);
          injection H as <- <-; [congruence|].
        rewrite E2 in H'. injection H' as <- <-.
        destruct Hc as [[-> _]|[(_ & Hc & _)|(_ & Hc & _)]];
          [reflexivity|contradiction|contradiction]. }
  destruct (Z.ltb_spec (c_np1 c) 0) as [Hp|Hp]; cbn [negb].
  2:{ split.
      - intros H. injection H as <-. exists s, f1. split; [reflexivity|].
        right. split; [exact Es|]. exists c, f2. split; [exact E2|].
        right; left. auto.
      - intros (s' & f1' & H & [[_ H']|(_ & c' & f2' & H' & Hc)]);
          injection H as <- <-; [congruence|].
        rewrite E2 in H'. injection H' as <- <-.
        destruct Hc as [[_ Hc]|[(-> & _)|(_ & _ & Hc & _)]];
          [contradiction|reflexivity|lia]. }
  destruct (read_flags f2) as [[[[niwr mipts] kjaq] f3]|e] eqn:E3; cbn [bind].
  2:{ split.
      - intros H. exfalso. injection H as ->.
        apply read_flags_decode_exn in E3. discriminate E3.
      - intros (s' & f1' & H & [[_ H']|(_ & c' & f2' & H' & Hc)]);
          injection H as <- <-; [congruence|].
        rewrite E2 in H'. injection H' as <- <-.
        destruct Hc as [[_ Hc]|[(_ & _ & Hc)|(_ & _ & _ & Hc)]];
          [contradiction|lia|].
        destruct Hc as (? & ? & ? & ? & ? & ? & ? & ? & Hc & _).
        rewrite E3 in Hc. discriminate Hc. }
  cbn beta iota zeta.
  specialize (Hfit s f1 c f2 niwr mipts kjaq f3 E1 E2 E3).
  rewrite (wrap32_small _ Hfit).
  destruct (read_surfaces (Z.to_nat (c_njsw c)) kjaq f3) as [[surfs f4]|e] eqn:E4;
    cbn [bind].
  2:{ split.
      - intros H. exfalso. injection H as ->.
        apply read_surfaces_decode_exn in E4. discriminate E4.
      - intros (s' & f1' & H & [[_ H']|(_ & c' & f2' & H' & Hc)]);
          injection H as <- <-; [congruence|].
        rewrite E2 in H'. injection H' as <- <-.
        destruct Hc as [[_ Hc]|[(_ & _ & Hc)|(_ & _ & _ & Hc)]];
          [contradiction|lia|].
        destruct Hc as (? & ? & ? & ? & ? & ? & ? & ? & Hc & Hc' & _).
        rewrite E3 in Hc. injection Hc as <- <- <- <-.
        rewrite E4 in Hc'. discriminate Hc'. }
  cbn beta iota zeta.
  assert (Hsum : forall (P : Prop),
             (exists s' f1', Ok (s, f1) = Ok (s', f1') /\
               ((w = UnknownGenerator /\ str_in d1suned s' = false) \/
                (str_in d1suned s' = true /\
                 exists c' f2', read_counts f1' = Ok (c', f2') /\
                  ((w = BadRecordWidth /\ c_nrcd c' <> 11) \/
                   (w = NonNegativeHistories /\ c_nrcd c' = 11 /\ 0 <= c_np1 c') \/
                   (w = ExtensionRecords /\ c_nrcd c' = 11 /\ c_np1 c' < 0 /\
                    exists niwr' mipts' kjaq' f3' surfaces f4' ext f5,
                      read_flags f2' = Ok (niwr', mipts', kjaq', f3') /\
                      read_surfaces (Z.to_nat (c_njsw c')) kjaq' f3' = Ok (surfaces, f4') /\
                      0 < niwr' /\
                      read_fortran_record f4' = Ok (ext, f5)))))) ->
             (w = ExtensionRecords ->
              0 < niwr ->
              forall ext f5, read_fortran_record f4 = Ok (ext, f5) -> P) -> P).
  { intros P (s' & f1' & H & [[_ H']|(_ & c' & f2' & H' & Hc)]) K;
      injection H as <- <-; [congruence|].
    rewrite E2 in H'. injection H' as <- <-.
    destruct Hc as [[_ Hc]|[(_ & _ & Hc)|(Hw & _ & _ & Hc)]];
      [contradiction|lia|].
    destruct Hc as (? & ? & ? & ? & ? & ? & ext & f5 & Hc & Hc' & Hpos & Hr).
    rewrite E3 in Hc. injection Hc as <- <- <- <-.
    rewrite E4 in Hc'. injection Hc' as <- <-.
    eapply K; eauto. }
  destruct (Z.ltb_spec (c_njsw c) (c_njsw c + niwr)) as [Hr|Hr]; cbn [bind].
  - destruct (read_fortran_record f4) as [[ext f5]|e] eqn:E5; cbn [bind].
    + cbn beta iota zeta. cbn [bind]. split.
      * intros H. injection H as <-. exists s, f1. split; [reflexivity|].
        right. split; [exact Es|]. exists c, f2. split; [exact E2|].
        right; right. repeat split; try assumption.
        exists niwr, mipts, kjaq, f3, surfs, f4, ext, f5.
        repeat split; try assumption. lia.
      * intros H. apply (Hsum _ H). intros -> _ _ _ _. reflexivity.
    + split.
      * intros H. exfalso. injection H as ->.
        apply read_fortran_record_decode_exn in E5. discriminate E5.
      * intros H. apply (Hsum _ H). intros _ _ ext f5 Hc. discriminate Hc.
  - split.
    + intros H. exfalso.
      destruct (read_fortran_record f4) as [[d6 f6]|e] eqn:E6; cbn [bind] in H;
        [discriminate H|].
      injection H as ->. apply read_fortran_record_decode_exn in E6. discriminate E6.
    + intros H. apply (Hsum _ H). intros _ Hpos _ _ _. lia.
Qed.

(** ** What an accepted header went through *)

Lemma read_header_Ok (f : stream) (p : Parameters) (rest : stream) :
  read_header f = Ok (p, rest) ->
  exists s f1 c f2 niwr mipts kjaq f3 surfs f4 summary,
    read_id f = Ok (s, f1) /\ str_in d1suned s = true /\
    read_counts f1 = Ok (c, f2) /\ c_nrcd c = 11 /\ c_np1 c < 0 /\
    read_flags f2 = Ok (niwr, mipts, kjaq, f3) /\
    read_surfaces (Z.to_nat (c_njsw c)) kjaq f3 = Ok (surfs, f4) /\
    wrap 32 (c_njsw c + niwr) <= c_njsw c /\
    read_fortran_record f4 = Ok (summary, rest) /\
    p = {| np1 := c_np1 c; nrss := c_nrss c; nrcd := c_nrcd c; njsw := c_njsw c;
           niss := c_niss c; niwr := niwr; mipts := mipts; kjaq := kjaq;
           surfaces := surfs |}.
Proof.
  rewrite read_header_stages.
  destruct (read_id f) as [[s f1]|e] eqn:E1; cbn [bind]; [|discriminate].
  destruct (str_in d1suned s) eqn:Es; cbn [negb]; [|discriminate].
  destruct (read_counts f1) as [[c f2]|e] eqn:E2; cbn [bind]; [|discriminate].
  destruct (Z.eqb_spec (c_nrcd c) 11) as [Hn|Hn]; cbn [negb]; [|discriminate].
  destruct (Z.ltb_spec (c_np1 c) 0) as [Hp|Hp]; cbn [negb]; [|discriminate].
  destruct (read_flags f2) as [[[[niwr mipts] kjaq] f3]|e] eqn:E3; cbn [bind];
    [|discriminate].
  cbn beta iota zeta.
  destruct (read_surfaces (Z.to_nat (c_njsw c)) kjaq f3) as [[surfs f4]|e] eqn:E4;
    cbn [bind]; [|discriminate].
  cbn beta iota zeta.
  destruct (Z.ltb_spec (c_njsw c) (wrap 32 (c_njsw c + niwr))) as [Hr|Hr].
  - destruct (read_fortran_record f4) as [[? ?]|?]; cbn [bind]; discriminate.
  - cbn [bind].
    destruct (read_fortran_record f4) as [[summary f6]|e] eqn:E6; cbn [bind];
      [|discriminate].
    intros H; injection H as <- <-.
    exists s, f1, c, f2, niwr, mipts, kjaq, f3, surfs, f4, summary.
    repeat split; assumption.
Qed.

Lemma read_header_Raise (f : stream) (e : exn) :
  read_header f = Raise e ->
  is_decode_exn e = true \/ exists w, e = NotImplementedError w.
Proof.
  rewrite read_header_stages.
  destruct (read_id f) as [[s f1]|e1] eqn:E1; cbn [bind];
    [|intros H; injection H as <-; left; eapply read_id_decode_exn; eauto].
  destruct (negb (str_in d1suned s)); [intros H; injection H as <-; eauto|].
  destruct (read_counts f1) as [[c f2]|e2] eqn:E2; cbn [bind];
    [|intros H; injection H as <-; left; eapply read_counts_decode_exn; eauto].
  destruct (negb (c_nrcd c =? 11)); [intros H; injection H as <-; eauto|].
  destruct (negb (c_np1 c <? 0)); [intros H; injection H as <-; eauto|].
  destruct (read_flags f2) as [[[[niwr mipts] kjaq] f3]|e3] eqn:E3; cbn [bind];
    [|intros H; injection H as <-; left; eapply read_flags_decode_exn; eauto].
  cbn beta iota zeta.
  destruct (read_surfaces (Z.to_nat (c_njsw c)) kjaq f3) as [[surfs f4]|e4] eqn:E4;
    cbn [bind];
    [|intros H; injection H as <-; left; eapply read_surfaces_decode_exn; eauto].
  cbn beta iota zeta.
  destruct (c_njsw c <? wrap 32 (c_njsw c + niwr)); cbn [bind].
  - destruct (read_fortran_record f4) as [[? ?]|e5] eqn:E5; cbn [bind];
      intros H; injection H as <-; eauto.
    left; eapply read_fortran_record_decode_exn; eauto.
  - destruct (read_fortran_record f4) as [[? ?]|e5] eqn:E5; cbn [bind];
      [discriminate|].
    intros H; injection H as <-. left; eapply read_fortran_record_decode_exn; eauto.
Qed.

(** ** Frame mismatches come from the file *)

Lemma suffix_refl (f : stream) : suffix f f.
Proof. now exists []. Qed.

Lemma suffix_trans (h g f : stream) : suffix h g -> suffix g f -> suffix h f.
Proof.
  intros [p ->] [q ->]. exists (q ++ p). now rewrite app_assoc.
Qed.

Lemma stage_mismatch {A} (decode : list byte -> result A) (f : stream) :
  (forall data e, decode data = Raise e -> is_buffer_exn e = true) ->
  stage decode f = Raise (ValueError FrameMismatch) -> frame_mismatch f.
Proof.
  intros Hd H. apply (stage_Raise decode Hd) in H as [H|[_ H]];
    [discriminate H | exact H].
Qed.

Lemma read_surfaces_suffix (n : nat) (kjaq : Z) (f : stream)
      (l : list Surface) (rest : stream) :
  read_surfaces n kjaq f = Ok (l, rest) -> suffix rest f.
Proof.
  revert f l rest; induction n as [|n IH]; intros f l rest; simpl.
  - intros H; injection H as _ <-. apply suffix_refl.
  - dbind; [|discriminate]. dbind; [|discriminate].
    intros H; injection H as _ <-.
    eapply suffix_trans; [eapply IH; eauto|].
    eapply (stage_suffix (decode_surface kjaq)); eauto.
Qed.

Lemma read_surfaces_mismatch (n : nat) (kjaq : Z) (f : stream) :
  read_surfaces n kjaq f = Raise (ValueError FrameMismatch) ->
  exists g, suffix g f /\ frame_mismatch g.
Proof.
  revert f; induction n as [|n IH]; intros f; simpl; [discriminate|].
  dbind.
  - dbind; [discriminate|]. intros H; injection H as ->.
    destruct (IH _ E0) as (g & Hg & Hm). exists g. split; [|exact Hm].
    eapply suffix_trans; [exact Hg|].
    eapply (stage_suffix (decode_surface kjaq)); eauto.
  - intros H; injection H as ->. exists f. split; [apply suffix_refl|].
    eapply stage_mismatch; [apply decode_surface_buffer_exn | exact E].
Qed.

Lemma read_header_mismatch (f : stream) :
  read_header f = Raise (ValueError FrameMismatch) ->
  exists g, suffix g f /\ frame_mismatch g.
Proof.
  rewrite read_header_stages.
  destruct (read_id f) as [[s f1]|e] eqn:E1; cbn [bind].
  2:{ intros H; injection H as ->. exists f. split; [apply suffix_refl|].
      eapply stage_mismatch; [apply decode_utf8_buffer_exn | exact E1]. }
  assert (S1 : suffix f1 f) by (eapply (stage_suffix decode_utf8); eauto).
  destruct (negb (str_in d1suned s)); [discriminate|].
  destruct (read_counts f1) as [[c f2]|e] eqn:E2; cbn [bind];
    rewrite read_counts_stage in E2.
  2:{ intros H; injection H as ->. exists f1. split; [exact S1|].
      eapply stage_mismatch; [apply decode_counts_buffer_exn | exact E2]. }
  assert (S2 : suffix f2 f)
    by (eapply suffix_trans; [eapply (stage_suffix decode_counts); eauto | exact S1]).
  destruct (negb (c_nrcd c =? 11)); [discriminate|].
  destruct (negb (c_np1 c <? 0)); [discriminate|].
  destruct (read_flags f2) as [[[[niwr mipts] kjaq] f3]|e] eqn:E3; cbn [bind];
    rewrite read_flags_stage in E3;
    destruct (stage flags_of f2) as [[[[a b] d] f3']|e'] eqn:E3'; cbn [bind] in E3;
    try discriminate E3.
  2:{ injection E3 as ->. intros H; injection H as ->. exists f2. split; [exact S2|].
      eapply stage_mismatch; [apply flags_of_buffer_exn | exact E3']. }
  injection E3 as -> -> -> ->.
  assert (S3 : suffix f3 f)
    by (eapply suffix_trans; [eapply (stage_suffix flags_of); eauto | exact S2]).
  cbn beta iota zeta.
  destruct (read_surfaces (Z.to_nat (c_njsw c)) kjaq f3) as [[surfs f4]|e] eqn:E4;
    cbn [bind].
  2:{ intros H; injection H as ->.
      destruct (read_surfaces_mismatch _ _ _ E4) as (g & Hg & Hm).
      exists g. split; [eapply suffix_trans; eauto | exact Hm]. }
  assert (S4 : suffix f4 f)
    by (eapply suffix_trans; [eapply read_surfaces_suffix; eauto | exact S3]).
  cbn beta iota zeta.
  assert (K : forall g, suffix g f ->
            forall e, read_fortran_record g = Raise e ->
            Raise (A := Parameters * stream) e = Raise (ValueError FrameMismatch) ->
            exists g, suffix g f /\ frame_mismatch g).
  { intros g Hg e E H. injection H as ->.
    apply read_fortran_record_Raise in E as [E|[_ E]]; [discriminate E|]. eauto. }
  destruct (c_njsw c <? wrap 32 (c_njsw c + niwr)); cbn [bind].
  - destruct (read_fortran_record f4) as [[? ?]|e] eqn:E5; cbn [bind];
      [discriminate | apply (K f4 S4 e E5)].
  - destruct (read_fortran_record f4) as [[? ?]|e] eqn:E5; cbn [bind];
      [discriminate | apply (K f4 S4 e E5)].
Qed.

(** ** read_tracks *)

Lemma len_mod_exact {A} (w : nat) (a : list A) :
  (0 < w)%nat -> len a mod Z.of_nat w = 0 ->
  length a = (length a / w * w)%nat.
Proof.
  intros Hw H. unfold len in H.
  rewrite <- Nat2Z.inj_mod in H.
  assert (Hm : (length a mod w = 0)%nat) by lia.
  pose proof (Nat.div_mod_eq (length a) w). lia.
Qed.

Lemma np_reshape_Ok {A} (w : nat) (a : list A) :
  (0 < w)%nat -> len a mod Z.of_nat w = 0 ->
  exists rows, np_reshape w a = Ok rows /\
               length a = (length rows * w)%nat /\
               Forall (fun r => length r = w) rows.
Proof.
  intros Hw H. unfold np_reshape. rewrite H. cbn [Z.eqb negb].
  eexists. split; [reflexivity|].
  pose proof (len_mod_exact w a Hw H) as E.
  rewrite chunks_length. split; [exact E|].
  apply chunks_Forall. lia.
Qed.

Lemma np_reshape_Raise {A} (w : nat) (a : list A) :
  len a mod Z.of_nat w <> 0 -> np_reshape w a = Raise (ValueError ReshapeSize).
Proof.
  intros H. unfold np_reshape.
  destruct (Z.eqb_spec (len a mod Z.of_nat w) 0); [contradiction|reflexivity].
Qed.

Lemma np_fromfile_rest (f : stream) :
  concat (fst (np_fromfile BYTE (-1) f)) = f.
Proof.
  unfold np_fromfile, BYTE. cbn [Z.ltb Z.compare fst].
  rewrite Nat.div_1_r, concat_chunks, Nat.mul_1_r. apply firstn_all.
Qed.

Lemma strip4_length {A} (row : list A) :
  length row = 96%nat -> length (strip4 row) = 88%nat.
Proof.
  intros H. unfold strip4. rewrite length_firstn, length_skipn, H. reflexivity.
Qed.

Lemma read_tracks_eq (f : stream) :
  read_tracks f =
  (data <- np_reshape 96 f ;;
   data <- np_frombuffer (concat (map strip4 data)) FLOAT (-1) 0 ;;
   np_reshape 11 (map float_of_bytes data)).
Proof.
  unfold read_tracks. pose proof (np_fromfile_rest f) as H.
  destruct (np_fromfile BYTE (-1) f) as [a r]. cbn [fst] in H. now rewrite H.
Qed.

Lemma read_tracks_Raise (f : stream) :
  len f mod 96 <> 0 -> read_tracks f = Raise (ValueError ReshapeSize).
Proof.
  intros H. rewrite read_tracks_eq, np_reshape_Raise by exact H. reflexivity.
Qed.

Lemma read_tracks_Ok (f : stream) :
  len f mod 96 = 0 ->
  exists t, read_tracks f = Ok t /\ len f = 96 * len t /\
            Forall (fun row => len row = 11) t.
Proof.
  intros H. rewrite read_tracks_eq.
  destruct (np_reshape_Ok 96 f) as (rows & -> & Hlen & Hrows); [lia|exact H|].
  cbn [bind].
  assert (Hs : Forall (fun r => length r = 88%nat) (map strip4 rows)).
  { apply Forall_map. revert Hrows. apply Forall_impl. intros a. apply strip4_length. }
  apply concat_length_Forall in Hs. rewrite length_map in Hs.
  unfold np_frombuffer. cbn [Z.ltb Z.compare orb].
  destruct (Z.ltb_spec (len (concat (map strip4 rows))) 0) as [Hneg|_];
    [unfold len in Hneg; lia|].
  assert (Els : len (concat (map strip4 rows)) - 0 = 8 * (11 * len rows))
    by (unfold len; rewrite Hs; lia).
  rewrite Els. unfold FLOAT. change (Z.of_nat 8) with 8.
  rewrite Z.mul_comm, Z.mod_mul by lia. cbn [Z.eqb negb].
  rewrite Z.div_mul by lia. cbn [bind skipn Z.to_nat].
  set (items := chunks 8 _ _).
  assert (Hitems : length items = (length rows * 11)%nat).
  { unfold items. rewrite chunks_length. unfold len. lia. }
  destruct (np_reshape_Ok 11 (map float_of_bytes items)) as (t & -> & Ht & Hrow).
  - lia.
  - unfold len. rewrite length_map, Hitems.
    rewrite Nat2Z.inj_mul. apply Z.mod_mul. lia.
  - exists t. split; [reflexivity|].
    rewrite length_map, Hitems in Ht.
    split.
    + unfold len. lia.
    + revert Hrow. apply Forall_impl. intros a Ha. unfold len. lia.
Qed.

Lemma read_tracks_cases (f : stream) :
  (len f mod 96 <> 0 /\ read_tracks f = Raise (ValueError ReshapeSize)) \/
  (len f mod 96 = 0 /\ exists t, read_tracks f = Ok t /\ len f = 96 * len t /\
                                 Forall (fun row => len row = 11) t).
Proof.
  destruct (Z.eq_dec (len f mod 96) 0) as [H|H].
  - right. split; [exact H | now apply read_tracks_Ok].
  - left. split; [exact H | now apply read_tracks_Raise].
Qed.

(** ** Surface descriptors *)

Lemma frombuffer_rest_length (data : list byte) (a : list (list byte)) :
  np_frombuffer data INT (-1) 16 = Ok a -> len data = 16 + 4 * len a.
Proof.
  unfold np_frombuffer, INT. cbn [Z.ltb Z.compare orb].
  destruct (Z.ltb_spec (len data) 16) as [|Hlen]; [discriminate|].
  change (Z.of_nat 4) with 4.
  destruct (Z.eqb_spec ((len data - 16) mod 4) 0) as [Hm|]; [|discriminate].
  cbn [negb]. intros H; injection H as <-.
  unfold len at 2. rewrite chunks_length, Z2Nat.id by (apply Z.div_pos; lia).
  pose proof (Z.div_mod (len data - 16) 4). lia.
Qed.

Lemma decode_surface_params (kjaq : Z) (data : list byte) (s : Surface) :
  decode_surface kjaq data = Ok s -> len data = 16 + 4 * len (params s).
Proof.
  unfold decode_surface. repeat (dbind; [|discriminate]).
  intros H; injection H as <-. cbn [params].
  unfold len at 2. rewrite length_map. now apply frombuffer_rest_length.
Qed.

Lemma read_surfaces_Ok (n : nat) (kjaq : Z) (f : stream)
      (l : list Surface) (rest : stream) :
  read_surfaces n kjaq f = Ok (l, rest) ->
  length l = n /\
  Forall (fun s => exists data, decode_surface kjaq data = Ok s /\
                                len data = 16 + 4 * len (params s)) l.
Proof.
  revert f l rest; induction n as [|n IH]; intros f l rest; simpl.
  - intros H; injection H as <- _. split; [reflexivity|constructor].
  - dbind; [|discriminate]. dbind; [|discriminate].
    intros H; injection H as <- _.
    destruct (IH _ _ _ E0) as [Hl Hf]. split; [simpl; now rewrite Hl|].
    constructor; [|exact Hf].
    unfold read_surface in E.
    destruct (read_fortran_record f) as [[data f1]|]; cbn [bind] in E; [|discriminate E].
    destruct (decode_surface kjaq data) as [s'|] eqn:Ed; cbn [bind] in E;
      [|discriminate E].
    injection E as -> _.
    exists data. split; [exact Ed|]. eapply decode_surface_params; eauto.
Qed.

(** The parameters of a descriptor are the int32 that the payload of its
    record holds after the 16 bytes of the four fixed fields, all of
    them. *)
Lemma decode_surface_items (kjaq : Z) (data : list byte) (s : Surface) :
  decode_surface kjaq data = Ok s ->
  len data = 16 + 4 * len (params s) /\
  exists items,
    skipn 16 data = concat items /\
    Forall (fun item => length item = 4%nat) items /\
    params s = map int32_of_bytes items.
Proof.
  intros H. split; [exact (decode_surface_params _ _ _ H)|].
  revert H. unfold decode_surface. repeat (dbind; [|discriminate]).
  intros H; injection H as <-. cbn [params].
  match goal with Hb : np_frombuffer data INT (-1) 16 = Ok ?a |- _ =>
    exists a; pose proof (frombuffer_rest_length _ _ Hb) as Hlen; revert Hb end.
  unfold np_frombuffer, INT. cbn [Z.ltb Z.compare orb].
  destruct (Z.ltb_spec (len data) 16) as [|Hge]; [discriminate|].
  change (Z.of_nat 4) with 4.
  destruct (Z.eqb_spec ((len data - 16) mod 4) 0) as [Hm|]; [|discriminate].
  cbn [negb]. intros Hb; injection Hb as <-.
  change (Z.to_nat 16) with 16%nat.
  assert (Hk : (Z.to_nat ((len data - 16) / 4) * 4)%nat = length (skipn 16 data)).
  { rewrite length_skipn. unfold len in *.
    assert (Hq : Z.of_nat (length data) - 16
                 = 4 * ((Z.of_nat (length data) - 16) / 4)).
    { rewrite (Z.div_mod (Z.of_nat (length data) - 16) 4) at 1 by lia.
      rewrite Hm. lia. }
    assert (0 <= (Z.of_nat (length data) - 16) / 4) by (apply Z.div_pos; lia).
    lia. }
  split; [|split; [|reflexivity]].
  - unfold len in *. rewrite concat_chunks, Hk. symmetry. apply firstn_all.
  - apply chunks_Forall. exact (Nat.eq_le_incl _ _ Hk).
Qed.

(** The surface records are read one after the other, and each descriptor
    is decoded from the payload of its own record. *)
Lemma read_surfaces_records (n : nat) (kjaq : Z) (f : stream)
      (l : list Surface) (rest : stream) :
  read_surfaces n kjaq f = Ok (l, rest) ->
  length l = n /\
  exists datas,
    records_from f datas rest /\
    Forall2 (fun data s => decode_surface kjaq data = Ok s) datas l.
Proof.
  revert f l rest; induction n as [|n IH]; intros f l rest; simpl.
  - intros H; injection H as <- <-. split; [reflexivity|].
    exists []. split; constructor.
  - dbind; [|discriminate]. dbind; [|discriminate].
    intros H; injection H as <- <-.
    destruct (IH _ _ _ E0) as (Hl & datas & Hrec & Hdec).
    split; [simpl; now rewrite Hl|].
    unfold read_surface in E.
    destruct (read_fortran_record f) as [[data f1]|] eqn:Er; cbn [bind] in E;
      [|discriminate E].
    destruct (decode_surface kjaq data) as [s'|] eqn:Ed; cbn [bind] in E;
      [|discriminate E].
    injection E as -> ->.
    exists (data :: datas). split; [econstructor; eauto|constructor; assumption].
Qed.

(** ** Where a UnicodeDecodeError comes from *)

Lemma int32_at_text (data : list byte) (offset : Z) (e : exn) :
  int32_at data offset = Raise e -> e <> UnicodeDecodeError.
Proof.
  unfold int32_at. intros H.
  apply bind_Raise_inv in H as [H|(a & _ & H)];
    [apply np_frombuffer_Raise in H as (w & -> & _); discriminate|].
  apply bind_Raise_inv in H as [H|(x & _ & H)]; [|discriminate].
  destruct a; simpl in H; inversion H. discriminate.
Qed.

Lemma int64_at_text (data : list byte) (offset : Z) (e : exn) :
  int64_at data offset = Raise e -> e <> UnicodeDecodeError.
Proof.
  unfold int64_at. intros H.
  apply bind_Raise_inv in H as [H|(a & _ & H)];
    [apply np_frombuffer_Raise in H as (w & -> & _); discriminate|].
  apply bind_Raise_inv in H as [H|(x & _ & H)]; [|discriminate].
  destruct a; simpl in H; inversion H. discriminate.
Qed.

(** The error of a failing call is no UnicodeDecodeError. *)
Ltac text_tac :=
  intros;
  repeat match goal with
  | H : Raise _ = Raise _ |- _ => injection H as <-
  | H : Ok _ = Raise _ |- _ => discriminate H
  | H : int32_at _ _ = Raise _ |- _ => exact (int32_at_text _ _ _ H)
  | H : int64_at _ _ = Raise _ |- _ => exact (int64_at_text _ _ _ H)
  | H : np_frombuffer _ _ _ _ = Raise _ |- _ =>
    apply np_frombuffer_Raise in H as (? & -> & _); discriminate
  end.

Lemma read_fortran_record_text (f : stream) (e : exn) :
  read_fortran_record f = Raise e -> e <> UnicodeDecodeError.
Proof.
  intros H. apply read_fortran_record_Raise in H as [->|[-> _]]; discriminate.
Qed.

Lemma read_counts_text (f : stream) (e : exn) :
  read_counts f = Raise e -> e <> UnicodeDecodeError.
Proof.
  unfold read_counts.
  dbind; [|intros H; injection H as <-; eapply read_fortran_record_text; eauto].
  repeat (dbind; [|text_tac]). discriminate.
Qed.

Lemma flags_of_text (data : list byte) (e : exn) :
  flags_of data = Raise e -> e <> UnicodeDecodeError.
Proof.
  unfold flags_of. dbind; [|text_tac].
  destruct (map int32_of_bytes _) as [|x [|y [|z [|? ?]]]];
    intros H; inversion H; discriminate.
Qed.

Lemma read_flags_text (f : stream) (e : exn) :
  read_flags f = Raise e -> e <> UnicodeDecodeError.
Proof.
  unfold read_flags.
  dbind; [|intros H; injection H as <-; eapply read_fortran_record_text; eauto].
  dbind; [discriminate|].
  intros H; injection H as <-. eapply flags_of_text; eauto.
Qed.

Lemma decode_surface_text (kjaq : Z) (data : list byte) (e : exn) :
  decode_surface kjaq data = Raise e -> e <> UnicodeDecodeError.
Proof.
  unfold decode_surface. dbind; [|text_tac].
  dbind; [|destruct (kjaq =? 1); text_tac].
  repeat (dbind; [|text_tac]). discriminate.
Qed.

Lemma read_surfaces_text (n : nat) (kjaq : Z) (f : stream) (e : exn) :
  read_surfaces n kjaq f = Raise e -> e <> UnicodeDecodeError.
Proof.
  revert f; induction n as [|n IH]; intros f; simpl; [discriminate|].
  dbind.
  - dbind; [discriminate|]. intros H; injection H as <-. eapply IH; eauto.
  - intros H; injection H as <-. revert E. unfold read_surface.
    dbind; [|intros H; injection H as <-; eapply read_fortran_record_text; eauto].
    dbind; [discriminate|].
    intros H; injection H as <-. eapply decode_surface_text; eauto.
Qed.

(** The header decoder raises a UnicodeDecodeError exactly when the first
    record is read and its payload is not UTF-8 text. *)
Lemma read_header_unicode (f : stream) :
  read_header f = Raise UnicodeDecodeError <->
  exists data f1, read_fortran_record f = Ok (data, f1) /\ utf8_decode data = None.
Proof.
  split.
  - rewrite read_header_stages. unfold read_id, decode_utf8.
    destruct (read_fortran_record f) as [[data f1]|e] eqn:E1; cbn [bind].
    2:{ intros H; injection H as ->.
        now apply read_fortran_record_text in E1. }
    destruct (utf8_decode data) as [s|] eqn:Eu; cbn [bind]; [|eauto].
    destruct (negb (str_in d1suned s)); [discriminate|].
    destruct (read_counts f1) as [[c f2]|e2] eqn:E2; cbn [bind];
      [|intros H; injection H as ->; now apply read_counts_text in E2].
    destruct (negb (c_nrcd c =? 11)); [discriminate|].
    destruct (negb (c_np1 c <? 0)); [discriminate|].
    destruct (read_flags f2) as [[[[niwr mipts] kjaq] f3]|e3] eqn:E3; cbn [bind];
      [|intros H; injection H as ->; now apply read_flags_text in E3].
    cbn beta iota zeta.
    destruct (read_surfaces (Z.to_nat (c_njsw c)) kjaq f3) as [[surfs f4]|e4] eqn:E4;
      cbn [bind];
      [|intros H; injection H as ->; now apply read_surfaces_text in E4].
    cbn beta iota zeta.
    destruct (c_njsw c <? wrap 32 (c_njsw c + niwr)); cbn [bind].
    + destruct (read_fortran_record f4) as [[? ?]|e5] eqn:E5; cbn [bind];
        [discriminate|].
      intros H; injection H as ->. now apply read_fortran_record_text in E5.
    + destruct (read_fortran_record f4) as [[? ?]|e5] eqn:E5; cbn [bind];
        [discriminate|].
      intros H; injection H as ->. now apply read_fortran_record_text in E5.
  - intros (data & f1 & E1 & Eu). unfold read_header, decode_utf8.
    rewrite E1. cbn [bind]. rewrite Eu. reflexivity.
Qed.

(** * The reader: the properties of the specification *)

(** C1, as stated, fails: the number of rows of the track table is not
    tied to the header.  A file whose header records [nrss = 3] and which
    stores one track record loads, with a table of one row. *)
Lemma read_rssa_rows_not_nrss :
  exists p, read_rssa file_fewer_tracks = Ok (p, [repeat 1%float 11]) /\
            nrss p = 3 /\ len [repeat 1%float 11] <> nrss p.
Proof.
  eexists. split; [vm_compute; reflexivity|]. split; [reflexivity|discriminate].
Qed.

(** C1, amended: for every successfully loaded file, every row of the track
    table has exactly 11 fields and the table has one row for each 96 bytes
    that follow the header; the count [nrss] of the header is not compared
    with it. *)
Theorem read_rssa_shape (f : stream) (p : Parameters) (t : list (list float)) :
  read_rssa f = Ok (p, t) ->
  Forall (fun row => len row = 11) t /\
  exists tail, read_header f = Ok (p, tail) /\ len tail = 96 * len t.
Proof.
  unfold read_rssa.
  destruct (read_header f) as [[p' tail]|e]; cbn [bind]; [|discriminate].
  destruct (read_tracks_cases tail) as [[_ E]|[_ (t' & E & Hlen & Hrows)]];
    rewrite E; cbn [bind]; [discriminate|].
  intros H; injection H as <- <-.
  split; [exact Hrows|]. exists tail. split; [reflexivity|exact Hlen].
Qed.

(** [read_rssa_shape] on a file with one track. *)
Lemma read_rssa_shape_witness :
  Forall (fun row => len row = 11) [repeat 1%float 11] /\
  exists tail, read_header file_one_track = Ok (fst (plain_parameters 1), tail) /\
               len tail = 96 * len [repeat 1%float 11].
Proof.
  apply (read_rssa_shape file_one_track). vm_compute. reflexivity.
Defined.

(** C4, as stated, fails: a surface record that declares [num_params = 2]
    and stores one parameter is decoded into a descriptor with one
    parameter. *)
Lemma surface_params_not_num_params :
  exists p s, read_header file_short_params = Ok (p, []) /\
              surfaces p = [s] /\ num_params s = 2 /\ params s = [5] /\
              len (params s) <> num_params s.
Proof.
  do 2 eexists. split; [vm_compute; reflexivity|].
  repeat split. discriminate.
Qed.

(** C4, amended: for every successfully decoded header, the descriptor
    list has [max(njsw, 0)] entries, one for each of the records that
    follow the record of [niwr, mipts, kjaq] in the file, in their order
    and up to the summary record; a descriptor is decoded from the payload
    of its record, and its parameter list holds every int32 of that payload
    after the 16 bytes of fixed fields, [(payload length - 16) / 4] of
    them; [num_params] is stored and not compared with that length. *)
Theorem read_header_surfaces (f : stream) (p : Parameters) (rest : stream) :
  read_header f = Ok (p, rest) ->
  len (surfaces p) = Z.max 0 (njsw p) /\
  exists s f1 c f2 f3 datas f4 summary,
    read_id f = Ok (s, f1) /\ read_counts f1 = Ok (c, f2) /\
    read_flags f2 = Ok (niwr p, mipts p, kjaq p, f3) /\
    records_from f3 datas f4 /\
    read_fortran_record f4 = Ok (summary, rest) /\
    Forall2 (fun data surface =>
               decode_surface (kjaq p) data = Ok surface /\
               len data = 16 + 4 * len (params surface) /\
               exists items,
                 skipn 16 data = concat items /\
                 Forall (fun item => length item = 4%nat) items /\
                 params surface = map int32_of_bytes items)
            datas (surfaces p).
Proof.
  intros H. apply read_header_Ok in H
    as (s & f1 & c & f2 & w & m & k & f3 & surfs & f4 & summary
        & Hid & _ & Hc & _ & _ & Hfl & Hs & _ & Hsum & ->).
  cbn [surfaces njsw kjaq niwr mipts].
  apply read_surfaces_records in Hs as (Hl & datas & Hrec & Hdec).
  split; [unfold len; rewrite Hl; lia|].
  exists s, f1, c, f2, f3, datas, f4, summary.
  repeat (split; [assumption|]).
  clear - Hdec.
  induction Hdec as [|data surface datas surfs Hd _ IH];
    [constructor|constructor; [|exact IH]].
  split; [exact Hd|]. exact (decode_surface_items _ _ _ Hd).
Qed.

(** [read_header_surfaces] on the header of [file_short_params]. *)
Lemma read_header_surfaces_witness :
  len (surfaces short_params_parameters) = Z.max 0 (njsw short_params_parameters) /\
  exists s f1 c f2 f3 datas f4 summary,
    read_id file_short_params = Ok (s, f1) /\ read_counts f1 = Ok (c, f2) /\
    read_flags f2 = Ok (niwr short_params_parameters, mipts short_params_parameters,
                        kjaq short_params_parameters, f3) /\
    records_from f3 datas f4 /\
    read_fortran_record f4 = Ok (summary, []) /\
    Forall2 (fun data surface =>
               decode_surface (kjaq short_params_parameters) data = Ok surface /\
               len data = 16 + 4 * len (params surface) /\
               exists items,
                 skipn 16 data = concat items /\
                 Forall (fun item => length item = 4%nat) items /\
                 params surface = map int32_of_bytes items)
            datas (surfaces short_params_parameters).
Proof.
  apply (read_header_surfaces file_short_params short_params_parameters []).
  vm_compute. reflexivity.
Defined.

(** C6, as stated, fails: a file whose two records both have matching
    length markers, the second too short for the counts it should hold,
    makes the load fail with a [ValueError] (numpy's, from [frombuffer])
    before any track is looked at. *)
Lemma load_fails_on_short_record :
  read_fortran_record (id_record ++ frame [x00])
    = Ok (ascii_bytes d1suned, frame [x00]) /\
  read_fortran_record (frame [x00]) = Ok ([x00], []) /\
  read_rssa (id_record ++ frame [x00]) = Raise (ValueError BufferTooSmall).
Proof. repeat split; vm_compute; reflexivity. Qed.

(** C6, amended: the [ValueError]s of the load, [UnicodeDecodeError]
    (a [ValueError] for Python) among them, are those of the header and the
    reshape error, raised exactly when the header decodes and the bytes
    after it are not a multiple of 96.  A [ValueError] of the header is the
    frame error, which [read_fortran_record] raises exactly when both length
    markers of the record are there and differ; or one of numpy's
    [frombuffer] errors for a record too short (or not a whole number of
    int32) for its fields; or the [UnicodeDecodeError], raised exactly when
    the first record is read and is not UTF-8 text.  A failed load yields
    no table. *)
Theorem read_rssa_value_error (f : stream) (e : exn) :
  is_ValueError (Known e) = true ->
  (read_rssa f = Raise e <->
     read_header f = Raise e \/
     (e = ValueError ReshapeSize /\
      exists p tail, read_header f = Ok (p, tail) /\ len tail mod 96 <> 0)) /\
  (read_header f = Raise e ->
     (e = ValueError FrameMismatch /\ exists g, suffix g f /\ frame_mismatch g) \/
     (exists w, e = ValueError w /\ frombuffer_error w) \/
     e = UnicodeDecodeError) /\
  (read_header f = Raise UnicodeDecodeError <->
     exists data f1, read_fortran_record f = Ok (data, f1) /\
                     utf8_decode data = None) /\
  (forall g, read_fortran_record g = Raise e <->
             e = ValueError FrameMismatch /\ frame_mismatch g) /\
  (forall e', read_rssa f = Raise e' -> forall r, read_rssa f <> Ok r).
Proof.
  intros He. split; [split|split; [|split; [|split]]].
  - unfold read_rssa.
    destruct (read_header f) as [[p tail]|e0]; cbn [bind];
      [|intros H; injection H as ->; now left].
    destruct (read_tracks_cases tail) as [[Hm E]|[_ (t & E & _)]];
      rewrite E; cbn [bind]; [|discriminate].
    intros H; injection H as <-. right. split; [reflexivity|]. eauto.
  - unfold read_rssa. intros [H|(-> & p & tail & H & Hm)]; rewrite H; cbn [bind].
    + reflexivity.
    + now rewrite read_tracks_Raise.
  - intros H. pose proof (read_header_Raise _ _ H) as [Hd|[w' Hd]];
      [|subst e; discriminate He].
    destruct e as [w| | | |]; try discriminate He; [|now right; right].
    destruct w; try discriminate Hd;
      try (right; left; eexists; split; [reflexivity|];
           unfold frombuffer_error; auto; fail).
    left. split; [reflexivity|]. now apply read_header_mismatch.
  - apply read_header_unicode.
  - intros g. split.
    + intros H. apply read_fortran_record_Raise in H as [H|[H Hm]];
        [subst e; discriminate He | split; [congruence | exact Hm]].
    + intros [-> H]. now apply frame_mismatch_Raise.
  - intros e' H r. rewrite H. discriminate.
Qed.

(** [read_rssa_value_error] on a file whose first record is not text. *)
Lemma read_rssa_value_error_witness :
  read_rssa file_bad_text = Raise UnicodeDecodeError /\
  exists data f1, read_fortran_record file_bad_text = Ok (data, f1) /\
                  utf8_decode data = None.
Proof.
  destruct (read_rssa_value_error file_bad_text UnicodeDecodeError eq_refl)
    as (Hload & _ & Hunicode & _).
  assert (H : read_header file_bad_text = Raise UnicodeDecodeError)
    by (vm_compute; reflexivity).
  split; [apply Hload; now left|]. apply Hunicode, H.
Defined.

(** C7, as stated, fails: the header decoder reads and decodes a record
    before it tests it, and any error of that takes precedence.  With
    [niwr = 1] and no record left the error is an [IndexError]; an
    identification record that is not UTF-8 (and so holds no signature)
    gives a [UnicodeDecodeError]; a count record with [nrcd = 12] that
    stops before [niss] gives numpy's [ValueError]. *)
Lemma unsupported_not_reported :
  (exists s f1 c f2 f3,
     read_id file_extension_missing = Ok (s, f1) /\
     read_counts f1 = Ok (c, f2) /\
     read_flags f2 = Ok (1, 0, 0, f3) /\
     read_header file_extension_missing = Raise IndexError) /\
  (utf8_decode [xff] = None /\
   read_header file_bad_text = Raise UnicodeDecodeError) /\
  (int32_at (i64 (-1000) ++ i64 0 ++ i32 12) 16 = Ok 12 /\
   read_header file_short_counts = Raise (ValueError BufferTooSmall)).
Proof.
  split; [|split; split; vm_compute; reflexivity].
  do 5 eexists. repeat split; vm_compute; reflexivity.
Qed.

(** C7, amended: as long as [njsw + niwr] is an int32, the header decoder
    fails with [NotImplementedError] exactly when every record up to the
    failing test is read and decoded and either the identification text
    lacks the signature, or [nrcd != 11], or [np1 >= 0], or [niwr > 0] and
    one more record can be read; no header is produced then. *)
Theorem read_header_unsupported (f : stream) (w : not_implemented) :
  extension_end_fits f ->
  (read_header f = Raise (NotImplementedError w) <-> unsupported f w) /\
  (unsupported f w -> forall r, read_header f <> Ok r).
Proof.
  intros Hfit. pose proof (read_header_unsupported_iff f w Hfit) as Hiff.
  split; [exact Hiff|].
  intros Hu r. apply Hiff in Hu. rewrite Hu. discriminate.
Qed.

(** [read_header_unsupported] on a file with one extension record. *)
Lemma read_header_unsupported_witness :
  extension_end_fits file_extension /\
  (read_header file_extension = Raise (NotImplementedError ExtensionRecords) <->
   unsupported file_extension ExtensionRecords) /\
  (unsupported file_extension ExtensionRecords ->
   forall r, read_header file_extension <> Ok r).
Proof.
  assert (Hfit : extension_end_fits file_extension).
  { intros s f1 c f2 niwr mipts kjaq f3 H1 H2 H3.
    vm_compute in H1. injection H1 as <- <-.
    vm_compute in H2. injection H2 as <- <-.
    vm_compute in H3. injection H3 as <- _ _ _.
    cbn [c_njsw]. lia. }
  split; [exact Hfit|].
  exact (read_header_unsupported file_extension ExtensionRecords Hfit).
Defined.

(** The int32 sum [njsw + niwr] can wrap: with [njsw = 1] and
    [niwr = 2^31 - 1] the range of extension records is empty and the
    header is accepted. *)
Example read_header_extension_wraps :
  exists p, read_header file_extension_wraps = Ok (p, []) /\ niwr p = 2147483647.
Proof. eexists. split; vm_compute; reflexivity. Qed.

(** * The binner: indexing, axes and the steps of a figure *)

Section Binner.
Context {F : Type} {arith : Arith F}.
Variable rssa : RSSA F.

(** ** Indexing *)

Lemma getitem_Raise {A} (a : list A) (i : Z) (e : exn) :
  getitem a i = Raise e -> e = IndexError.
Proof.
  unfold getitem.
  destruct ((_ <? 0) || (_ <=? _)); [congruence|].
  destruct (nth_error a _); congruence.
Qed.

Lemma getitem_Ok_len {A} (a : list A) (i : Z) (v : A) :
  getitem a i = Ok v -> - len a <= i < len a.
Proof.
  unfold getitem. destruct (Z.ltb_spec i 0);
    match goal with |- context [(?j <? 0) || (?n <=? ?j)] =>
      destruct (Z.ltb_spec j 0); destruct (Z.leb_spec n j) end;
    cbn [orb]; try discriminate; intros _; unfold len in *; lia.
Qed.

Lemma getitem_nth {A} (a : list A) (i : Z) (d : A) :
  0 <= i < len a -> getitem a i = Ok (nth (Z.to_nat i) a d).
Proof.
  intros H. unfold getitem.
  destruct (Z.ltb_spec i 0); [lia|].
  destruct (Z.ltb_spec i 0); [lia|]. destruct (Z.leb_spec (len a) i); [lia|].
  cbn [orb].
  destruct (nth_error a (Z.to_nat i)) as [v|] eqn:E.
  - now rewrite (nth_error_nth _ _ d E).
  - apply nth_error_None in E. unfold len in H. lia.
Qed.

Lemma getitem_head {A} (v : A) (t : list A) : getitem (v :: t) 0 = Ok v.
Proof.
  rewrite (getitem_nth (v :: t) 0 v); [reflexivity|].
  unfold len. cbn [length]. lia.
Qed.

(** ** np.linspace and closest *)

Lemma set_last_length {A} (l : list A) (v : A) : length (set_last l v) = length l.
Proof.
  induction l as [|a [|b t] IH]; try reflexivity.
  change (set_last (a :: b :: t) v) with (a :: set_last (b :: t) v).
  cbn [length] in *. now rewrite IH.
Qed.

Lemma getitem_last {A} (l : list A) (v d : A) :
  l <> [] -> getitem (set_last l v) (-1) = Ok v.
Proof.
  intros Hne. unfold getitem, len. rewrite set_last_length.
  assert (Hpos : (0 < length l)%nat) by (destruct l; [contradiction|simpl; lia]).
  cbn [Z.ltb Z.compare].
  destruct (Z.ltb_spec (-1 + Z.of_nat (length l)) 0); [lia|].
  destruct (Z.leb_spec (Z.of_nat (length l)) (-1 + Z.of_nat (length l))); [lia|].
  cbn [orb].
  replace (Z.to_nat (-1 + Z.of_nat (length l))) with (length l - 1)%nat by lia.
  clear - Hne. induction l as [|a [|b t] IH]; [contradiction|reflexivity|].
  change (set_last (a :: b :: t) v) with (a :: set_last (b :: t) v).
  cbn [length Nat.sub nth_error] in *. rewrite Nat.sub_0_r in IH.
  apply IH. discriminate.
Qed.

Lemma arange_length (n : Z) : length (arange n) = Z.to_nat n.
Proof. unfold arange. now rewrite length_map, length_seq. Qed.

Lemma np_linspace_length (start stop : F) (num : Z) (axis : list F) :
  np_linspace start stop num = Ok axis -> 0 <= num /\ len axis = num.
Proof.
  unfold np_linspace. destruct (Z.ltb_spec num 0); [discriminate|].
  intros H0; injection H0 as <-. split; [assumption|].
  assert (L : forall l : list F, length l = Z.to_nat num ->
              len (if 1 <? num then set_last l stop else l) = num).
  { intros l Hl. unfold len. destruct (1 <? num);
      rewrite ?set_last_length, Hl; lia. }
  apply L. rewrite length_map.
  destruct (0 <? num - 1); [destruct (feq _ _)|];
    now rewrite length_map, length_map, arange_length.
Qed.

Lemma closest_Ok (axis values : list F) (idx : list Z) :
  closest axis values = Ok idx ->
  2 <= len axis /\
  exists l0 a1, getitem axis 0 = Ok l0 /\ getitem axis 1 = Ok a1 /\
                idx = map (bin_index (len axis) l0 a1) values.
Proof.
  unfold closest. intros H.
  apply bind_Ok_inv in H as (l0 & H0 & H).
  apply bind_Ok_inv in H as (a1 & H1 & H).
  injection H as <-. split.
  - apply getitem_Ok_len in H1. lia.
  - exists l0, a1. repeat split; try assumption.
    rewrite !map_map. reflexivity.
Qed.

(** ** What a returned figure went through *)

Lemma generate_figures_Ok (particle : string) (z_int theta_int : Z)
      (source_intensity : F) (value_range : option (F * F))
      (mask : option index_array) (out : Figures F) :
  generate_figures_current_cyl rssa particle z_int theta_int source_intensity
                               value_range mask = Ok out ->
  exists sel z_axis theta_axis g0 e0 zs z_idx xs ys theta_idx ws g eg
         x0 y0 t0 tl z0 zl t1 z1,
    select_rows rssa particle mask = Ok sel /\
    calculate_grid_axes_cyl rssa z_int theta_int (Some sel) = Ok (z_axis, theta_axis) /\
    np_zeros z_int theta_int = Ok g0 /\
    np_zeros z_int theta_int = Ok e0 /\
    take_idx (z rssa) sel = Ok zs /\
    closest z_axis zs = Ok z_idx /\
    take_idx (x rssa) sel = Ok xs /\
    take_idx (y rssa) sel = Ok ys /\
    closest theta_axis (map2 np_angle xs ys) = Ok theta_idx /\
    take_idx (wgt rssa) sel = Ok ws /\
    np_add_at g0 z_idx theta_idx ws = Ok g /\
    np_add_at e0 z_idx theta_idx (map (fun _ => fone) z_idx) = Ok eg /\
    getitem (x rssa) 0 = Ok x0 /\
    getitem (y rssa) 0 = Ok y0 /\
    getitem theta_axis 0 = Ok t0 /\
    getitem theta_axis (-1) = Ok tl /\
    getitem z_axis 0 = Ok z0 /\
    getitem z_axis (-1) = Ok zl /\
    getitem theta_axis 1 = Ok t1 /\
    getitem z_axis 1 = Ok z1 /\
    let radius := np_linalg_norm2 x0 y0 in
    let a := fabs (fmul (fmul radius (fsub t1 t0)) (fsub z1 z0)) in
    let nps := of_int (wrap 64 (Z.abs (np1 (parameters rssa)))) in
    out = {| grid_values :=
               map (map (fun v => fmul v source_intensity))
                 (map (map (fun v => fdiv v nps))
                    (map (map (fun v => fdiv v a)) g));
             error_grid :=
               map (map (fun c => fdiv fone (fsqrt c)))
                 (map (map (fun c => if feq c fzero then fone else c)) eg);
             extent := [fmul radius t0; fmul radius tl; z0; zl];
             area := a;
             resolution := (fmul radius (fsub t1 t0), fsub z1 z0) |}.
Proof.
  unfold generate_figures_current_cyl. intros H.
  apply bind_Ok_inv in H as (sel & Hsel & H).
  apply bind_Ok_inv in H as ([z_axis theta_axis] & Hax & H).
  cbn beta iota zeta in H.
  apply bind_Ok_inv in H as (g0 & Hg0 & H).
  apply bind_Ok_inv in H as (e0 & He0 & H).
  apply bind_Ok_inv in H as (zs & Hzs & H).
  apply bind_Ok_inv in H as (z_idx & Hzi & H).
  apply bind_Ok_inv in H as (xs & Hxs & H).
  apply bind_Ok_inv in H as (ys & Hys & H).
  apply bind_Ok_inv in H as (theta_idx & Hti & H).
  apply bind_Ok_inv in H as (ws & Hws & H).
  apply bind_Ok_inv in H as (g & Hg & H).
  apply bind_Ok_inv in H as (eg & Heg & H).
  apply bind_Ok_inv in H as (x0 & Hx0 & H).
  apply bind_Ok_inv in H as (y0 & Hy0 & H).
  apply bind_Ok_inv in H as (t0 & Ht0 & H).
  apply bind_Ok_inv in H as (tl & Htl & H).
  apply bind_Ok_inv in H as (z0 & Hz0 & H).
  apply bind_Ok_inv in H as (zl & Hzl & H).
  apply bind_Ok_inv in H as (t1 & Ht1 & H).
  apply bind_Ok_inv in H as (z1 & Hz1 & H).
  injection H as <-.
  exists sel, z_axis, theta_axis, g0, e0, zs, z_idx, xs, ys, theta_idx, ws, g, eg,
         x0, y0, t0, tl, z0, zl, t1, z1.
  repeat (split; [assumption|]). reflexivity.
Qed.

Lemma calculate_grid_axes_Ok (z_int theta_int : Z) (sel : index_array)
      (z_axis theta_axis : list F) :
  calculate_grid_axes_cyl rssa z_int theta_int (Some sel) = Ok (z_axis, theta_axis) ->
  exists zs xs ys z_min z_max theta_min theta_max,
    take_idx (z rssa) sel = Ok zs /\
    np_min zs = Ok z_min /\ np_max zs = Ok z_max /\
    take_idx (x rssa) sel = Ok xs /\ take_idx (y rssa) sel = Ok ys /\
    np_min (map2 np_angle xs ys) = Ok theta_min /\
    np_max (map2 np_angle xs ys) = Ok theta_max /\
    np_linspace z_min z_max (z_int + 1) = Ok z_axis /\
    np_linspace theta_min theta_max (theta_int + 1) = Ok theta_axis.
Proof.
  unfold calculate_grid_axes_cyl. intros H.
  apply bind_Ok_inv in H as (zs & Hzs & H).
  apply bind_Ok_inv in H as (z_min & Hzmin & H).
  apply bind_Ok_inv in H as (z_max & Hzmax & H).
  apply bind_Ok_inv in H as (xs & Hxs & H).
  apply bind_Ok_inv in H as (ys & Hys & H).
  apply bind_Ok_inv in H as (tmin & Htmin & H).
  apply bind_Ok_inv in H as (tmax & Htmax & H).
  apply bind_Ok_inv in H as (za & Hza & H).
  apply bind_Ok_inv in H as (ta & Hta & H).
  injection H as <- <-.
  exists zs, xs, ys, z_min, z_max, tmin, tmax.
  repeat (split; [assumption|]). assumption.
Qed.

(** A returned figure has at least one bin along each axis. *)
Lemma generate_figures_bins (particle : string) (z_int theta_int : Z)
      (source_intensity : F) (value_range : option (F * F))
      (mask : option index_array) (out : Figures F) :
  generate_figures_current_cyl rssa particle z_int theta_int source_intensity
                               value_range mask = Ok out ->
  1 <= z_int /\ 1 <= theta_int.
Proof.
  intros H. apply generate_figures_Ok in H
    as (sel & z_axis & theta_axis & g0 & e0 & zs & z_idx & xs & ys & theta_idx
        & ws & g & eg & x0 & y0 & t0 & tl & z0 & zl & t1 & z1
        & _ & Hax & _ & _ & _ & Hzi & _ & _ & Hti & _).
  apply calculate_grid_axes_Ok in Hax
    as (? & ? & ? & ? & ? & ? & ? & _ & _ & _ & _ & _ & _ & _ & Hza & Hta).
  apply np_linspace_length in Hza as [_ Hza].
  apply np_linspace_length in Hta as [_ Hta].
  apply closest_Ok in Hzi as [Hz _]. apply closest_Ok in Hti as [Ht _].
  lia.
Qed.
End Binner.

(** * The binner: the properties that hold in any arithmetic *)

Section BinnerClaims.
Context {F : Type} {arith : Arith F}.
Variable rssa : RSSA F.

(** ** Empty selections *)

Lemma calculate_grid_axes_empty (z_int theta_int : Z) (sel : index_array) :
  as_objects sel = [] ->
  calculate_grid_axes_cyl rssa z_int theta_int (Some sel) =
  Raise (match sel with
         | IntArray _ => ValueError ZeroSizeReduction
         | ObjArray _ => IndexError
         end).
Proof.
  intros H. unfold calculate_grid_axes_cyl. destruct sel as [l|l]; [|reflexivity].
  destruct l; [reflexivity|discriminate H].
Qed.

(** C3, amended: for every binning call whose selection is empty, the
    binner fails and returns no grid; nothing guards the computation of the
    axes, and the error is the one numpy raises there: the [ValueError] of
    the minimum of an empty array (an [IndexError] when the selection is an
    array of objects). *)
Theorem empty_selection_fails (particle : string) (z_int theta_int : Z)
        (source_intensity : F) (value_range : option (F * F))
        (mask : option index_array) (sel : index_array) :
  select_rows rssa particle mask = Ok sel ->
  as_objects sel = [] ->
  generate_figures_current_cyl rssa particle z_int theta_int source_intensity
                               value_range mask =
  Raise (match sel with
         | IntArray _ => ValueError ZeroSizeReduction
         | ObjArray _ => IndexError
         end) /\
  calculate_grid_axes_cyl rssa z_int theta_int (Some sel) =
  Raise (match sel with
         | IntArray _ => ValueError ZeroSizeReduction
         | ObjArray _ => IndexError
         end).
Proof.
  intros Hsel Hempty. pose proof (calculate_grid_axes_empty z_int theta_int sel Hempty) as E.
  split; [|exact E].
  unfold generate_figures_current_cyl. rewrite Hsel. cbn [bind]. rewrite E. reflexivity.
Qed.

(** ** Arguments that are not checked *)

Lemma get_particle_mask_unknown (particle : string) :
  particle <> "n"%string -> particle <> "p"%string ->
  get_particle_mask rssa particle = Raise (ValueError ParticleKind).
Proof.
  intros Hn Hp. unfold get_particle_mask.
  destruct (String.eqb_spec particle "n"); [contradiction|].
  destruct (String.eqb_spec particle "p"); [contradiction|reflexivity].
Qed.

(** C5, amended: for every particle-kind selector other than ['n'] and
    ['p'] the binner fails with the [ValueError] of [get_particle_mask]
    before anything else is computed.  The bin counts are not checked: with
    a count that is not positive the binner still returns no grid, but it
    fails in the course of the computation, with whatever error numpy
    raises there. *)
Theorem invalid_arguments_fail (particle : string) (z_int theta_int : Z)
        (source_intensity : F) (value_range : option (F * F))
        (mask : option index_array) :
  (particle <> "n"%string -> particle <> "p"%string ->
   generate_figures_current_cyl rssa particle z_int theta_int source_intensity
                                value_range mask = Raise (ValueError ParticleKind)) /\
  (z_int <= 0 \/ theta_int <= 0 ->
   exists e, generate_figures_current_cyl rssa particle z_int theta_int
               source_intensity value_range mask = Raise e).
Proof.
  split.
  - intros Hn Hp. unfold generate_figures_current_cyl, select_rows.
    now rewrite get_particle_mask_unknown.
  - intros Hbins.
    destruct (generate_figures_current_cyl rssa particle z_int theta_int
                source_intensity value_range mask) as [out|e] eqn:E; [|eauto].
    apply generate_figures_bins in E. lia.
Qed.
End BinnerClaims.

(** C3, as stated, fails: asked for photons, the table of one neutron
    gives an empty selection, and the binner goes on to compute the axes;
    the error it ends with is the one the minimum of an empty array
    raises. *)
Lemma empty_selection_not_guarded :
  @select_rows float B64 table_one "p" None = Ok (IntArray []) /\
  @calculate_grid_axes_cyl float B64 table_one 10 10 (Some (IntArray []))
    = Raise (ValueError ZeroSizeReduction) /\
  @np_min float B64 [] = Raise (ValueError ZeroSizeReduction) /\
  @generate_figures_current_cyl float B64 table_one "p" 10 10 1%float None None
    = Raise (ValueError ZeroSizeReduction).
Proof. repeat split; vm_compute; reflexivity. Qed.

(** [empty_selection_fails] on the photons of [table_three], asked for
    neutrons. *)
Lemma empty_selection_fails_witness :
  @select_rows float B64 table_three "n" None = Ok (IntArray []) /\
  as_objects (IntArray []) = [] /\
  @generate_figures_current_cyl float B64 table_three "n" 10 10 1%float None None
    = Raise (ValueError ZeroSizeReduction) /\
  @calculate_grid_axes_cyl float B64 table_three 10 10 (Some (IntArray []))
    = Raise (ValueError ZeroSizeReduction).
Proof.
  split; [vm_compute; reflexivity|]. split; [reflexivity|].
  apply (@empty_selection_fails float B64 table_three "n" 10 10 1%float None None
           (IntArray [])); vm_compute; reflexivity.
Defined.

(** C5, as stated, fails: with [z_bins = 0] and three selected rows the
    axes are computed, and the binner then fails with an [IndexError]. *)
Lemma zero_bins_not_reported_up_front :
  @calculate_grid_axes_cyl float B64 table_three 0 2 (Some (IntArray [0; 1; 2]))
    = Ok ([0%float], [0%float; 0x1.921fb54442d18p-1%float; 0x1.921fb54442d18p+0%float]) /\
  @generate_figures_current_cyl float B64 table_three "p" 0 2 1000%float None None
    = Raise IndexError.
Proof. split; vm_compute; reflexivity. Qed.

(** ** The geometry filter *)

Lemma sort_objects_Raise (l : list (option Z)) (e : exn) :
  sort_objects l = Raise e -> e = TypeError.
Proof.
  unfold sort_objects. destruct l as [|a [|b t]]; try discriminate.
  destruct (all_ints _); [discriminate|congruence].
Qed.

Lemma np_unique_Raise (a : index_array) (e : exn) :
  np_unique a = Raise e -> e = TypeError.
Proof.
  destruct a as [l|l]; simpl; [discriminate|].
  destruct (sort_objects l) eqn:E; cbn [bind]; [discriminate|].
  intros H; injection H as <-. eapply sort_objects_Raise; eauto.
Qed.

Lemma np_unique_objects (a r : index_array) :
  np_unique a = Ok r -> is_objects r = is_objects a.
Proof.
  destruct a as [l|l]; simpl.
  - intros H; injection H as <-. reflexivity.
  - destruct (sort_objects l); cbn [bind]; [|discriminate].
    intros H; injection H as <-. reflexivity.
Qed.

Lemma np_concatenate_objects (a b : index_array) :
  is_objects (np_concatenate a b) = is_objects a || is_objects b.
Proof. destruct a, b; reflexivity. Qed.

Lemma np_intersect1d_Raise (a b : pyobj) (e : exn) :
  np_intersect1d a b = Raise e -> e = TypeError.
Proof.
  unfold np_intersect1d. intros H.
  apply bind_Raise_inv in H as [H|(u1 & _ & H)]; [eapply np_unique_Raise; eauto|].
  apply bind_Raise_inv in H as [H|(u2 & _ & H)]; [eapply np_unique_Raise; eauto|].
  destruct (np_concatenate u1 u2) as [aux|aux]; [discriminate|].
  apply bind_Raise_inv in H as [H|(s & _ & H)]; [eapply sort_objects_Raise; eauto|].
  discriminate.
Qed.

Lemma np_intersect1d_objects (a b : pyobj) (r : index_array) :
  np_intersect1d a b = Ok r ->
  is_objects r = is_objects (asanyarray a) || is_objects (asanyarray b).
Proof.
  unfold np_intersect1d. intros H.
  apply bind_Ok_inv in H as (u1 & H1 & H).
  apply bind_Ok_inv in H as (u2 & H2 & H).
  apply np_unique_objects in H1. apply np_unique_objects in H2.
  rewrite <- H1, <- H2, <- np_concatenate_objects.
  destruct (np_concatenate u1 u2) as [aux|aux].
  - injection H as <-. reflexivity.
  - apply bind_Ok_inv in H as (s & _ & H). injection H as <-. reflexivity.
Qed.

(** [np.intersect1d(None, mask1)] with a [mask1] that is not empty. *)
Lemma np_intersect1d_None (i : Z) (l : list Z) :
  np_intersect1d PyNone (PyWhere (i :: l)) = Raise TypeError.
Proof.
  unfold np_intersect1d. cbn [asanyarray np_unique sort_objects bind dedup_obj
                                run_heads_obj].
  assert (H : exists j m, dedup (sort (i :: l)) = j :: m).
  { assert (Hs : exists j m, sort (i :: l) = j :: m).
    { cbn [sort]. generalize (sort l). intros s. destruct s as [|a s]; simpl; eauto.
      destruct (i <=? a); eauto. }
    destruct Hs as (j & m & ->). simpl. eauto. }
  destruct H as (j & m & ->). reflexivity.
Qed.

Section PerimeterFilter.
Context {F : Type} {arith : Arith F}.
Variable rssa : RSSA F.

Lemma get_particle_mask_Raise (particle : string) (e : exn) :
  get_particle_mask rssa particle = Raise e -> e = ValueError ParticleKind.
Proof.
  unfold get_particle_mask.
  destruct (String.eqb particle "n"); [discriminate|].
  destruct (String.eqb particle "p"); [discriminate|congruence].
Qed.

Lemma location_mask_perimeter_only (lo hi : F) :
  (forall e, location_mask rssa (Some (lo, hi)) None = Raise e ->
             e = IndexError \/ e = TypeError) /\
  (forall m, location_mask rssa (Some (lo, hi)) None = Ok m ->
             exists l, m = PyArray (ObjArray l)).
Proof.
  unfold location_mask, axial_mask, perimeter_mask. cbn [bind]. split.
  - intros e H.
    apply bind_Raise_inv in H as [H|(x0 & _ & H)];
      [left; eapply getitem_Raise; eauto|].
    apply bind_Raise_inv in H as [H|(y0 & _ & H)];
      [left; eapply getitem_Raise; eauto|].
    apply bind_Raise_inv in H as [H|(m1 & _ & H)];
      [right; eapply np_intersect1d_Raise; eauto|].
    apply bind_Raise_inv in H as [H|(m2 & _ & H)];
      [right; eapply np_intersect1d_Raise; eauto|].
    discriminate.
  - intros m H.
    apply bind_Ok_inv in H as (x0 & _ & H).
    apply bind_Ok_inv in H as (y0 & _ & H).
    apply bind_Ok_inv in H as (m1 & H1 & H).
    apply bind_Ok_inv in H as (m2 & H2 & H).
    injection H as <-.
    apply np_intersect1d_objects in H1. cbn [asanyarray is_objects orb] in H1.
    apply np_intersect1d_objects in H2. cbn [asanyarray] in H2.
    rewrite H1 in H2. cbn [orb] in H2.
    destruct m2 as [l|l]; [discriminate H2|]. eauto.
Qed.

Lemma generate_figures_objects_mask (particle : string) (z_int theta_int : Z)
      (source_intensity : F) (value_range : option (F * F)) (l : list (option Z)) :
  exists e, generate_figures_current_cyl rssa particle z_int theta_int
              source_intensity value_range (Some (ObjArray l)) = Raise e /\
            (e = TypeError \/ e = IndexError \/ e = ValueError ParticleKind).
Proof.
  unfold generate_figures_current_cyl, select_rows.
  destruct (get_particle_mask rssa particle) as [pm|e] eqn:Epm; cbn [bind].
  2:{ exists e. split; [reflexivity|]. right; right.
      eapply get_particle_mask_Raise; eauto. }
  destruct (np_intersect1d (PyArray (IntArray pm)) (PyArray (ObjArray l)))
    as [sel|e] eqn:Ei; cbn [bind].
  2:{ exists e. split; [reflexivity|]. left. eapply np_intersect1d_Raise; eauto. }
  apply np_intersect1d_objects in Ei. cbn [asanyarray is_objects orb] in Ei.
  destruct sel as [s|s]; [discriminate Ei|].
  exists IndexError. split; [reflexivity|]. auto.
Qed.

(** C9 does not hold of the code: a call with the perimeter range and
    without the axial range never bins anything.  [mask] is still [None]
    when it is met with the perimeter masks, [np.intersect1d] then works on
    objects, and the call ends with a [TypeError] (as soon as one track
    lies above the lower bound), an [IndexError] or the [ValueError] of the
    particle kind. *)
Theorem perimeter_filter_alone_fails (particle : string) (z_int theta_int : Z)
        (source_intensity : F) (value_range : option (F * F)) (lo hi : F) :
  exists e, plot_current_cyl rssa particle z_int theta_int source_intensity
              value_range (Some (lo, hi)) None = Raise e /\
            (e = TypeError \/ e = IndexError \/ e = ValueError ParticleKind).
Proof.
  unfold plot_current_cyl.
  destruct (location_mask_perimeter_only lo hi) as [HR HO].
  destruct (location_mask rssa (Some (lo, hi)) None) as [m|e] eqn:E; cbn [bind].
  - destruct (HO m eq_refl) as (l & ->). apply generate_figures_objects_mask.
  - exists e. split; [reflexivity|]. destruct (HR e eq_refl) as [->| ->]; auto.
Qed.
End PerimeterFilter.

(** The three photons of [table_three], filtered to the perimeter range
    [(-1, 5)] only: all three lie inside, and the call fails. *)
Example perimeter_filter_alone_TypeError :
  @plot_current_cyl float B64 table_three "p" 2 2 1000%float None
     (Some ((-1)%float, 5%float)) None = Raise TypeError /\
  is_ok (@plot_current_cyl float B64 table_three "p" 2 2 1000%float None
           (Some ((-1)%float, 5%float)) (Some ((-1)%float, 11%float))) = true.
Proof. split; vm_compute; reflexivity. Qed.

(** ** The radius of the cylinder *)

Section Radius.
Context {F : Type} {arith : Arith F}.
Variable rssa : RSSA F.
Variables (r0 : list F) (rest : list (list F)).
Hypothesis first_track : tracks rssa = r0 :: rest.

(** The position [(x, y)] of the first track of the table, and its norm:
    the root of the dot product of the position with itself, that is of
    [x[0]^2 + y[0]^2]. *)
Let v0 : list F := [nth 5 r0 fzero; nth 6 r0 fzero].
Let R : F := fsqrt (fdot v0 v0).

Lemma x_first : getitem (x rssa) 0 = Ok (nth 5 r0 fzero).
Proof. unfold x, column. rewrite first_track. apply getitem_head. Qed.

Lemma y_first : getitem (y rssa) 0 = Ok (nth 6 r0 fzero).
Proof. unfold y, column. rewrite first_track. apply getitem_head. Qed.

Lemma surface_lines_no_number (l : list Surface) (v : F) :
  ~ In (Fixed2 v)
       (flat_map (fun surface : Surface =>
                    [Text "  Surface id: "; Int (id surface); Text "\n"]) l).
Proof.
  intros H. apply in_flat_map in H as (s & _ & H).
  simpl in H. intuition discriminate.
Qed.

(** C10: wherever a radius is needed, it is the one number [R], the root
    of the dot product of the position [(x[0], y[0])] of row 0 of the whole
    table with itself: in the extent, the cell area and the resolution of
    every figure the binner gets to, whatever the particle kind and the
    geometry filter; in the perimeter filter; and in the text of [get_info]
    for a cylinder. *)
Theorem radius_from_first_track :
  (forall particle z_int theta_int source_intensity value_range mask out,
     generate_figures_current_cyl rssa particle z_int theta_int source_intensity
                                  value_range mask = Ok out ->
     exists sel z_axis theta_axis t0 tl z0 zl t1 z1,
       select_rows rssa particle mask = Ok sel /\
       calculate_grid_axes_cyl rssa z_int theta_int (Some sel)
         = Ok (z_axis, theta_axis) /\
       getitem theta_axis 0 = Ok t0 /\ getitem theta_axis (-1) = Ok tl /\
       getitem z_axis 0 = Ok z0 /\ getitem z_axis (-1) = Ok zl /\
       getitem theta_axis 1 = Ok t1 /\ getitem z_axis 1 = Ok z1 /\
       extent out = [fmul R t0; fmul R tl; z0; zl] /\
       area out = fabs (fmul (fmul R (fsub t1 t0)) (fsub z1 z0)) /\
       resolution out = (fmul R (fsub t1 t0), fsub z1 z0)) /\
  (forall lo hi z_range,
     location_mask rssa (Some (lo, hi)) z_range =
     (mask <- axial_mask rssa z_range ;; perimeter_mask rssa R mask lo hi)) /\
  (rssa_type rssa = cyl ->
   exists info, get_info rssa = Ok info /\
                In (Fixed2 R) info /\
                forall v, In (Fixed2 v) info -> v = R).
Proof.
  split; [|split].
  - intros particle z_int theta_int source_intensity value_range mask out H.
    apply generate_figures_Ok in H
      as (sel & z_axis & theta_axis & g0 & e0 & zs & z_idx & xs & ys & theta_idx
          & ws & g & eg & x0 & y0 & t0 & tl & z0 & zl & t1 & z1
          & Hsel & Hax & _ & _ & _ & _ & _ & _ & _ & _ & _ & _
          & Hx0 & Hy0 & Ht0 & Htl & Hz0 & Hzl & Ht1 & Hz1 & Hout).
    rewrite x_first in Hx0. injection Hx0 as <-.
    rewrite y_first in Hy0. injection Hy0 as <-.
    exists sel, z_axis, theta_axis, t0, tl, z0, zl, t1, z1.
    cbv zeta in Hout. subst out. cbn [extent area resolution].
    repeat (split; [assumption|]). repeat split.
  - intros lo hi z_range. unfold location_mask.
    destruct (axial_mask rssa z_range) as [mask|e]; cbn [bind]; [|reflexivity].
    rewrite x_first, y_first. reflexivity.
  - intros Hcyl. unfold get_info. rewrite Hcyl, x_first, y_first. cbn [bind].
    eexists. split; [reflexivity|]. split.
    + apply in_app_iff. left. apply in_app_iff. right. simpl. auto.
    + intros v Hv.
      apply in_app_iff in Hv as [Hv|Hv].
      * apply in_app_iff in Hv as [Hv|Hv].
        -- apply in_app_iff in Hv as [Hv|Hv].
           ++ simpl in Hv. intuition discriminate.
           ++ now apply surface_lines_no_number in Hv.
        -- simpl in Hv. destruct Hv as [Hv|[Hv|[Hv|[]]]]; try discriminate Hv.
           now injection Hv.
      * simpl in Hv. intuition discriminate.
Qed.
End Radius.

(** [radius_from_first_track] on [table_three], of radius 1. *)
Lemma radius_from_first_track_witness :
  tracks table_three = track 9e8 0.5 1 0 0
                       :: [track 9e8 0.25 0 1 5; track 9e8 0.125 1 0 10] /\
  (@rssa_type float B64 table_three = cyl ->
   exists info, @get_info float B64 table_three = Ok info /\
                In (Fixed2 1%float) info /\
                forall v, In (Fixed2 v) info -> v = 1%float).
Proof.
  split; [reflexivity|].
  exact (proj2 (proj2 (@radius_from_first_track float B64 table_three _ _ eq_refl))).
Defined.

(** * Index arrays *)

Lemma In_insert (x a : Z) (l : list Z) : In x (insert a l) <-> x = a \/ In x l.
Proof.
  induction l as [|b l IH]; simpl.
  - intuition.
  - destruct (a <=? b); simpl; rewrite ?IH; intuition.
Qed.

Lemma In_sort (x : Z) (l : list Z) : In x (sort l) <-> In x l.
Proof.
  induction l as [|a l IH]; simpl; [reflexivity|].
  rewrite In_insert, IH. intuition.
Qed.

Lemma count_insert (x a : Z) (l : list Z) :
  count_occ Z.eq_dec (insert a l) x = count_occ Z.eq_dec (a :: l) x.
Proof.
  induction l as [|b l IH]; [reflexivity|].
  cbn [insert]. destruct (a <=? b); [reflexivity|].
  cbn [count_occ] in *. rewrite IH.
  destruct (Z.eq_dec b x), (Z.eq_dec a x); reflexivity.
Qed.

Lemma count_sort (x : Z) (l : list Z) :
  count_occ Z.eq_dec (sort l) x = count_occ Z.eq_dec l x.
Proof.
  induction l as [|a l IH]; [reflexivity|].
  cbn [sort]. rewrite count_insert. cbn [count_occ]. now rewrite IH.
Qed.

Lemma insert_sorted (a : Z) (l : list Z) :
  StronglySorted Z.le l -> StronglySorted Z.le (insert a l).
Proof.
  induction 1 as [|b l Hl IH Hb]; simpl.
  - repeat constructor.
  - destruct (Z.leb_spec a b).
    + constructor; [now constructor|].
      constructor; [assumption|].
      revert Hb. apply Forall_impl. intros; lia.
    + constructor; [assumption|].
      apply Forall_forall. intros y Hy. apply In_insert in Hy as [->|Hy]; [lia|].
      rewrite Forall_forall in Hb. now apply Hb.
Qed.

Lemma sort_sorted (l : list Z) : StronglySorted Z.le (sort l).
Proof.
  induction l as [|a l IH]; simpl; [constructor | now apply insert_sorted].
Qed.

Lemma run_heads_increasing (prev : Z) (l : list Z) :
  StronglySorted Z.le l -> Forall (fun y => prev <= y) l ->
  StronglySorted Z.lt (run_heads prev l) /\
  Forall (fun y => prev < y) (run_heads prev l).
Proof.
  intros Hs. revert prev. induction Hs as [|a l Hl IH Ha]; intros prev Hp; simpl.
  - split; constructor.
  - inversion Hp as [|? ? Hpa Hpl]; subst.
    destruct (Z.eqb_spec a prev) as [->|Hne].
    + now apply IH.
    + destruct (IH a Ha) as [Hs' Hf']. split.
      * now constructor.
      * constructor; [lia|]. revert Hf'. apply Forall_impl. intros; lia.
Qed.

Lemma dedup_increasing (l : list Z) :
  StronglySorted Z.le l -> StronglySorted Z.lt (dedup l).
Proof.
  intros Hs. destruct l as [|a l]; [constructor|].
  inversion Hs as [|? ? Hl Ha]; subst. simpl.
  destruct (run_heads_increasing a l Hl Ha). now constructor.
Qed.

Lemma increasing_NoDup (l : list Z) : StronglySorted Z.lt l -> NoDup l.
Proof.
  induction 1 as [|a l Hl IH Ha]; constructor; [|assumption].
  intros Hin. rewrite Forall_forall in Ha. specialize (Ha a Hin). lia.
Qed.

Lemma In_run_heads (y prev : Z) (l : list Z) : In y (run_heads prev l) -> In y l.
Proof.
  revert prev; induction l as [|a l IH]; intros prev; simpl; [tauto|].
  destruct (a =? prev); simpl; intros H; [right; eauto|].
  destruct H as [H|H]; [now left | right; eauto].
Qed.

Lemma In_dedup (y : Z) (l : list Z) : In y (dedup l) -> In y l.
Proof.
  destruct l as [|a l]; simpl; [tauto|].
  intros [H|H]; [now left | right; eapply In_run_heads; eauto].
Qed.

Lemma repeated_count (x : Z) (l : list Z) :
  In x (repeated l) -> (2 <= count_occ Z.eq_dec l x)%nat.
Proof.
  induction l as [|a l IH]; [simpl; tauto|].
  destruct l as [|b t]; [simpl; tauto|].
  change (repeated (a :: b :: t))
    with (if a =? b then a :: repeated (b :: t) else repeated (b :: t)).
  intros H.
  assert (K : In x (repeated (b :: t)) ->
              (2 <= count_occ Z.eq_dec (a :: b :: t) x)%nat).
  { intros H'. specialize (IH H'). cbn [count_occ] in *.
    destruct (Z.eq_dec a x); lia. }
  destruct (Z.eqb_spec a b) as [->|Hne]; [|now apply K].
  destruct H as [->|H]; [|now apply K].
  cbn [count_occ]. destruct (Z.eq_dec x x); [lia|contradiction].
Qed.

(** What [np.intersect1d] keeps of two integer arrays is in both. *)
Lemma intersect_In (x : Z) (a b : list Z) :
  In x (repeated (sort (dedup (sort a) ++ dedup (sort b)))) -> In x a /\ In x b.
Proof.
  intros H. apply repeated_count in H. rewrite count_sort, count_occ_app in H.
  assert (Ha : NoDup (dedup (sort a)))
    by apply increasing_NoDup, dedup_increasing, sort_sorted.
  assert (Hb : NoDup (dedup (sort b)))
    by apply increasing_NoDup, dedup_increasing, sort_sorted.
  rewrite (NoDup_count_occ Z.eq_dec) in Ha, Hb.
  specialize (Ha x). specialize (Hb x).
  split; apply In_sort, In_dedup, (count_occ_In Z.eq_dec); lia.
Qed.

Lemma np_intersect1d_ints (a b : list Z) :
  np_intersect1d (PyArray (IntArray a)) (PyArray (IntArray b)) =
  Ok (IntArray (repeated (sort (dedup (sort a) ++ dedup (sort b))))).
Proof. reflexivity. Qed.

Lemma where_from_range (i : Z) (c : list bool) :
  Forall (fun k => i <= k < i + len c) (where_from i c).
Proof.
  revert i; induction c as [|b c IH]; intros i; simpl; [constructor|].
  assert (H : Forall (fun k => i <= k < i + len (b :: c)) (where_from (i + 1) c)).
  { specialize (IH (i + 1)). revert IH. apply Forall_impl.
    intros k. unfold len. cbn [length]. lia. }
  destruct b; [constructor|]; try assumption.
  unfold len. cbn [length]. lia.
Qed.

Lemma np_where_range (c : list bool) :
  Forall (fun k => 0 <= k < len c) (np_where c).
Proof. apply (where_from_range 0 c). Qed.

Section Selection.
Context {F : Type} {arith : Arith F}.
Variable rssa : RSSA F.

Lemma column_length (k : nat) : len (column rssa k) = len (tracks rssa).
Proof. unfold column, len. now rewrite length_map. Qed.

Lemma particle_mask_range (particle : string) (pm : list Z) :
  get_particle_mask rssa particle = Ok pm ->
  Forall (fun i => 0 <= i < len (tracks rssa)) pm.
Proof.
  unfold get_particle_mask, mask_neutron_tracks, mask_photon_tracks.
  assert (K : forall f : F -> bool,
             Forall (fun i => 0 <= i < len (tracks rssa))
                    (np_where (map f (map fabs (column rssa 1))))).
  { intros f. pose proof (np_where_range (map f (map fabs (column rssa 1)))) as H.
    unfold len in H. rewrite !length_map in H. fold (len (column rssa 1)) in H.
    now rewrite column_length in H. }
  destruct (String.eqb particle "n"); [intros H; injection H as <-; apply K|].
  destruct (String.eqb particle "p"); [intros H; injection H as <-; apply K|].
  discriminate.
Qed.

(** The selected rows are rows of the table. *)
Lemma select_rows_range (particle : string) (mask : option index_array)
      (sel : list Z) :
  select_rows rssa particle mask = Ok (IntArray sel) ->
  Forall (fun i => 0 <= i < len (tracks rssa)) sel.
Proof.
  unfold select_rows. intros H.
  apply bind_Ok_inv in H as (pm & Hpm & H).
  apply particle_mask_range in Hpm.
  destruct mask as [[m|m]|].
  - rewrite np_intersect1d_ints in H. injection H as <-.
    apply Forall_forall. intros i Hi. apply intersect_In in Hi as [Hi _].
    rewrite Forall_forall in Hpm. now apply Hpm.
  - apply np_intersect1d_objects in H. discriminate H.
  - now injection H as <-.
Qed.

Lemma take_pick (a : list F) (idx : list Z) :
  Forall (fun i => 0 <= i < len a) idx -> take a idx = Ok (pick a idx).
Proof.
  unfold take, pick. induction 1 as [|i idx Hi _ IH]; [reflexivity|].
  cbn [mapM map]. rewrite (getitem_nth a i fzero Hi). cbn [bind].
  rewrite IH. reflexivity.
Qed.

Lemma take_column (k : nat) (sel : list Z) :
  Forall (fun i => 0 <= i < len (tracks rssa)) sel ->
  take (column rssa k) sel = Ok (pick (column rssa k) sel).
Proof.
  intros H. apply take_pick. revert H. apply Forall_impl. intros i.
  now rewrite column_length.
Qed.

Lemma pick_length (a : list F) (idx : list Z) : length (pick a idx) = length idx.
Proof. unfold pick. apply length_map. Qed.

Lemma map2_length {A B C} (f : A -> B -> C) (l : list A) (m : list B) :
  length l = length m -> length (map2 f l m) = length l.
Proof.
  revert m; induction l as [|a l IH]; intros [|b m]; simpl; try discriminate;
    auto.
Qed.
End Selection.

(** * Grids *)

Section Grids.
Context {F : Type} {arith : Arith F}.

Lemma np_zeros_Ok (rows cols : Z) :
  0 <= rows -> 0 <= cols ->
  np_zeros rows cols = Ok (repeat (repeat fzero (Z.to_nat cols)) (Z.to_nat rows)).
Proof.
  intros Hr Hc. unfold np_zeros.
  destruct (Z.ltb_spec rows 0); [lia|]. destruct (Z.ltb_spec cols 0); [lia|].
  reflexivity.
Qed.

Lemma zeros_shape (rows cols : nat) :
  grid_shape rows cols (repeat (repeat fzero cols) rows).
Proof.
  split; [apply repeat_length|].
  apply Forall_forall. intros row Hrow. apply repeat_spec in Hrow as ->.
  apply repeat_length.
Qed.

Lemma update_length {A} (l : list A) (k : nat) (f : A -> A) :
  length (update l k f) = length l.
Proof.
  revert k; induction l as [|a l IH]; intros [|k]; simpl; auto.
Qed.

Lemma update_Forall {A} (P : A -> Prop) (l : list A) (k : nat) (f : A -> A) :
  (forall a, P a -> P (f a)) -> Forall P l -> Forall P (update l k f).
Proof.
  intros Hf H. revert k. induction H as [|a l Ha Hl IH]; intros [|k]; simpl;
    constructor; auto.
Qed.

Lemma norm_index_Ok (n i : Z) : 0 <= i < n -> norm_index n i = Ok (Z.to_nat i).
Proof.
  intros H. unfold norm_index. destruct (Z.ltb_spec i 0); [lia|].
  destruct (Z.ltb_spec i 0); [lia|]. destruct (Z.leb_spec n i); [lia|]. reflexivity.
Qed.

Lemma shape_row (rows cols : nat) (grid : list (list F)) (r : nat) :
  grid_shape rows cols grid -> (r < rows)%nat -> length (nth r grid []) = cols.
Proof.
  intros [Hl Hf] Hr. rewrite Forall_forall in Hf. apply Hf, nth_In. lia.
Qed.

Lemma add_cell_Ok (rows cols : nat) (grid : list (list F)) (i j : Z) (v : F) :
  grid_shape rows cols grid ->
  0 <= i < Z.of_nat rows -> 0 <= j < Z.of_nat cols ->
  add_cell grid i j v =
    Ok (update grid (Z.to_nat i)
               (fun row => update row (Z.to_nat j) (fun old => fadd old v))) /\
  grid_shape rows cols
    (update grid (Z.to_nat i)
            (fun row => update row (Z.to_nat j) (fun old => fadd old v))).
Proof.
  intros Hs Hi Hj. pose proof Hs as [Hl Hf]. split.
  - unfold add_cell. rewrite norm_index_Ok by (unfold len; lia). cbn [bind].
    rewrite norm_index_Ok; [reflexivity|].
    unfold len. rewrite (shape_row rows cols) by (assumption || lia). lia.
  - split; [now rewrite update_length|].
    apply update_Forall; [|assumption].
    intros row Hrow. now rewrite update_length.
Qed.
End Grids.

(** * The reader: what a record is, and what a truncated one gives *)

Lemma read_fortran_record_Ok_iff (f : stream) (data rest : list byte) :
  read_fortran_record f = Ok (data, rest) <->
  exists pre suf,
    f = pre ++ data ++ suf ++ rest /\
    length pre = 4%nat /\ length suf = 4%nat /\
    int32_of_bytes pre = len data /\ int32_of_bytes suf = len data.
Proof.
  split.
  - rewrite read_fortran_record_eq.
    destruct (le_lt_dec 4 (length f)) as [Hf|Hf];
      [|rewrite read_int_short by exact Hf; discriminate].
    rewrite read_int_long by exact Hf. cbn [bind].
    set (n1 := int32_of_bytes (firstn 4 f)).
    set (f1 := skipn 4 f).
    set (n := payload_size n1 f1).
    destruct (le_lt_dec 4 (length (skipn n f1))) as [Hs|Hs];
      [|rewrite read_int_short by exact Hs; discriminate].
    rewrite read_int_long by exact Hs. cbn [bind].
    set (n2 := int32_of_bytes (firstn 4 (skipn n f1))).
    destruct (Z.eqb_spec n1 n2) as [E|E]; simpl; [|discriminate].
    intros H. injection H as <- <-.
    exists (firstn 4 f), (firstn 4 (skipn n f1)).
    rewrite length_skipn in Hs.
    assert (Hn : n = Z.to_nat n1 /\ 0 <= n1).
    { unfold n, payload_size in *. destruct (Z.ltb_spec n1 0); lia. }
    destruct Hn as [Hn Hpos].
    split; [unfold f1; now rewrite ?firstn_skipn|].
    split; [rewrite length_firstn; lia|].
    split; [rewrite length_firstn, length_skipn; lia|].
    assert (Hl : len (firstn n f1) = n1)
      by (unfold len; rewrite length_firstn; lia).
    split; [now rewrite Hl|]. rewrite Hl. fold n2. now symmetry.
  - intros (pre & suf & -> & Hpre & Hsuf & Hlen & Hlen2).
    rewrite read_fortran_record_eq, read_int_app by exact Hpre. cbn [bind].
    assert (Hn : payload_size (int32_of_bytes pre) (data ++ suf ++ rest) = length data).
    { unfold payload_size, len in *. rewrite Hlen.
      destruct (Z.ltb_spec (Z.of_nat (length data)) 0); [lia|].
      rewrite Nat2Z.id, length_app. lia. }
    rewrite Hn, skipn_app, skipn_all, Nat.sub_diag, firstn_app, firstn_all, Nat.sub_diag.
    cbn [skipn firstn app]. rewrite app_nil_r.
    rewrite read_int_app by exact Hsuf. cbn [bind].
    rewrite Hlen, Hlen2, Z.eqb_refl. reflexivity.
Qed.


(** ** Integers written and read back *)

Lemma zb_byte_of_Z (v : Z) : zb (byte_of_Z v) = v mod 256.
Proof.
  unfold byte_of_Z, zb.
  pose proof (Z.mod_pos_bound v 256 ltac:(lia)) as Hb.
  destruct (Byte.of_N (Z.to_N (v mod 256))) as [b|] eqn:E.
  - apply Byte.to_of_N in E. rewrite E. apply Z2N.id. lia.
  - apply Byte.of_N_None_iff in E. lia.
Qed.

Lemma length_le_bytes (n : nat) (v : Z) : length (le_bytes n v) = n.
Proof. revert v. induction n as [|n IH]; intros v; simpl; [|rewrite IH]; reflexivity. Qed.

Lemma le_uint_le_bytes (n : nat) (v : Z) :
  le_uint (le_bytes n v) = v mod 256 ^ Z.of_nat n.
Proof.
  revert v. induction n as [|n IH]; intros v.
  - simpl. now rewrite Z.mod_1_r.
  - cbn [le_bytes le_uint]. rewrite zb_byte_of_Z, IH.
    rewrite Nat2Z.inj_succ, Z.pow_succ_r by lia.
    rewrite Z.rem_mul_r by lia. reflexivity.
Qed.

Lemma wrap_range (w v : Z) : 0 < w -> - 2 ^ (w - 1) <= wrap w v < 2 ^ (w - 1).
Proof.
  intros Hw. unfold wrap.
  assert (H2 : 2 ^ w = 2 * 2 ^ (w - 1)).
  { replace w with (Z.succ (w - 1)) at 1 by lia. apply Z.pow_succ_r. lia. }
  assert (Hp : 0 < 2 ^ (w - 1)) by (apply Z.pow_pos_nonneg; lia).
  pose proof (Z.mod_pos_bound (v + 2 ^ (w - 1)) (2 ^ w) ltac:(lia)). lia.
Qed.

Lemma wrap_mod_small (w v : Z) :
  0 < w -> - 2 ^ (w - 1) <= v < 2 ^ (w - 1) -> wrap w (v mod 2 ^ w) = v.
Proof.
  intros Hw Hv. unfold wrap.
  assert (H2 : 2 ^ w = 2 * 2 ^ (w - 1)).
  { replace w with (Z.succ (w - 1)) at 1 by lia. apply Z.pow_succ_r. lia. }
  rewrite Zplus_mod_idemp_l. rewrite Z.mod_small by lia. lia.
Qed.

Lemma int32_of_bytes_i32 (v : Z) : int32 v -> int32_of_bytes (i32 v) = v.
Proof.
  intros H. unfold int32_of_bytes, i32. rewrite le_uint_le_bytes.
  change (256 ^ Z.of_nat 4) with (2 ^ 32). apply wrap_mod_small; [lia|exact H].
Qed.

Lemma int64_of_bytes_i64 (v : Z) : int64 v -> int64_of_bytes (i64 v) = v.
Proof.
  intros H. unfold int64_of_bytes, i64. rewrite le_uint_le_bytes.
  change (256 ^ Z.of_nat 8) with (2 ^ 64). apply wrap_mod_small; [lia|exact H].
Qed.

Lemma int32_of_bytes_range (bs : list byte) : int32 (int32_of_bytes bs).
Proof. apply (wrap_range 32). lia. Qed.

Lemma int64_of_bytes_range (bs : list byte) : int64 (int64_of_bytes bs).
Proof. apply (wrap_range 64). lia. Qed.

Lemma length_i32 (v : Z) : length (i32 v) = 4%nat.
Proof. apply length_le_bytes. Qed.

Lemma length_i64 (v : Z) : length (i64 v) = 8%nat.
Proof. apply length_le_bytes. Qed.

(** A record written between its markers is read back, and the file is
    left at the byte after it. *)
Lemma read_fortran_record_frame (payload rest : list byte) :
  len payload < 2 ^ 31 ->
  read_fortran_record (frame payload ++ rest) = Ok (payload, rest).
Proof.
  intros H. apply read_fortran_record_Ok_iff.
  exists (i32 (len payload)), (i32 (len payload)).
  assert (Hi : int32 (len payload)) by (unfold int32, len in *; lia).
  unfold frame. rewrite <- !app_assoc.
  repeat split; auto using length_i32, int32_of_bytes_i32.
Qed.

(** ** Fields at fixed offsets *)

Lemma chunks_one {A} (w : nat) (x post : list A) :
  length x = w -> chunks w 1 (x ++ post) = [x].
Proof.
  intros H. cbn [chunks]. rewrite firstn_app, H, Nat.sub_diag, firstn_all2 by lia.
  cbn [firstn]. now rewrite app_nil_r.
Qed.

Lemma np_frombuffer_one (pre x post : list byte) (w : nat) (offset : Z) :
  len pre = offset -> length x = w ->
  np_frombuffer (pre ++ x ++ post) w 1 offset = Ok [x].
Proof.
  intros Hpre Hx. unfold np_frombuffer, len in *.
  rewrite !length_app. subst offset.
  destruct (Z.ltb_spec (Z.of_nat (length pre)) 0); [lia|].
  destruct (Z.ltb_spec (Z.of_nat (length pre + (length x + length post)))
                       (Z.of_nat (length pre))); [lia|].
  cbn [orb]. change (1 <? 0) with false. cbv iota.
  destruct (Z.ltb_spec (Z.of_nat (length pre + (length x + length post))
                        - Z.of_nat (length pre)) (1 * Z.of_nat w)); [lia|].
  rewrite Nat2Z.id, skipn_app, skipn_all, Nat.sub_diag. cbn [skipn app].
  change (Z.to_nat 1) with 1%nat. now rewrite chunks_one.
Qed.

Lemma int32_at_app (pre x post : list byte) (offset : Z) :
  len pre = offset -> length x = 4%nat ->
  int32_at (pre ++ x ++ post) offset = Ok (int32_of_bytes x).
Proof.
  intros Hpre Hx. unfold int32_at, INT.
  rewrite (np_frombuffer_one pre x post 4 offset Hpre Hx). reflexivity.
Qed.

Lemma int64_at_app (pre x post : list byte) (offset : Z) :
  len pre = offset -> length x = 8%nat ->
  int64_at (pre ++ x ++ post) offset = Ok (int64_of_bytes x).
Proof.
  intros Hpre Hx. unfold int64_at, LONG.
  rewrite (np_frombuffer_one pre x post 8 offset Hpre Hx). reflexivity.
Qed.

Lemma chunks_concat {A} (w : nat) (l : list (list A)) (post : list A) :
  Forall (fun c => length c = w) l ->
  chunks w (length l) (concat l ++ post) = l.
Proof.
  induction 1 as [|c l Hc _ IH]; [reflexivity|].
  cbn [length chunks concat]. rewrite <- app_assoc.
  rewrite firstn_app, Hc, Nat.sub_diag, firstn_all2 by lia.
  cbn [firstn]. rewrite app_nil_r.
  rewrite skipn_app, Hc, Nat.sub_diag, skipn_all2 by lia.
  cbn [skipn app]. now rewrite IH.
Qed.

Lemma np_frombuffer_items (pre : list byte) (l : list (list byte)) (w : nat)
      (count offset : Z) :
  (0 < w)%nat -> len pre = offset -> Forall (fun c => length c = w) l ->
  count < 0 \/ count = len l ->
  np_frombuffer (pre ++ concat l) w count offset = Ok l.
Proof.
  intros Hw Hpre Hl Hc. unfold np_frombuffer, len in *.
  rewrite length_app, (concat_length_Forall w l Hl). subst offset.
  destruct (Z.ltb_spec (Z.of_nat (length pre)) 0); [lia|].
  destruct (Z.ltb_spec (Z.of_nat (length pre + length l * w))
                       (Z.of_nat (length pre))); [lia|].
  cbn [orb].
  rewrite Nat2Z.id, skipn_app, skipn_all, Nat.sub_diag. cbn [skipn app].
  replace (Z.of_nat (length pre + length l * w) - Z.of_nat (length pre))
    with (Z.of_nat (length l) * Z.of_nat w) by lia.
  rewrite <- (app_nil_r (concat l)).
  destruct (Z.ltb_spec count 0) as [Hn|Hn].
  - rewrite Z.mod_mul by lia. cbn [Z.eqb negb].
    rewrite Z.div_mul by lia. rewrite Nat2Z.id. now rewrite chunks_concat.
  - destruct Hc as [Hc|Hc]; [lia|]. subst count.
    destruct (Z.ltb_spec (Z.of_nat (length l) * Z.of_nat w)
                         (Z.of_nat (length l) * Z.of_nat w)); [lia|].
    rewrite Nat2Z.id. now rewrite chunks_concat.
Qed.

Ltac regroup := rewrite <- ?app_assoc, ?app_nil_r; reflexivity.

Lemma len_app {A} (l m : list A) : len (l ++ m) = len l + len m.
Proof. unfold len. rewrite length_app. lia. Qed.

Lemma len_i32 (v : Z) : len (i32 v) = 4.
Proof. unfold len. now rewrite length_i32. Qed.

Lemma len_i64 (v : Z) : len (i64 v) = 8.
Proof. unfold len. now rewrite length_i64. Qed.

Lemma counts_fields (a b c d e : Z) :
  int64 a -> int64 b -> int32 c -> int32 d -> int64 e ->
  let data := i64 a ++ i64 b ++ i32 c ++ i32 d ++ i64 e in
  int64_at data 0 = Ok a /\ int64_at data 8 = Ok b /\ int32_at data 16 = Ok c /\
  int32_at data 20 = Ok d /\ int64_at data 24 = Ok e /\ len data = 32.
Proof.
  intros Ha Hb Hc Hd He data. unfold data.
  split; [|split; [|split; [|split; [|split]]]].
  - rewrite <- (int64_of_bytes_i64 a Ha) at 2.
    apply (int64_at_app [] (i64 a)); [reflexivity|apply length_i64].
  - rewrite <- (int64_of_bytes_i64 b Hb) at 2.
    apply (int64_at_app (i64 a) (i64 b)); [apply len_i64|apply length_i64].
  - rewrite <- (int32_of_bytes_i32 c Hc) at 2.
    replace (i64 a ++ i64 b ++ i32 c ++ i32 d ++ i64 e)
      with ((i64 a ++ i64 b) ++ i32 c ++ (i32 d ++ i64 e)) by regroup.
    apply int32_at_app; [rewrite len_app, !len_i64; reflexivity|apply length_i32].
  - rewrite <- (int32_of_bytes_i32 d Hd) at 2.
    replace (i64 a ++ i64 b ++ i32 c ++ i32 d ++ i64 e)
      with ((i64 a ++ i64 b ++ i32 c) ++ i32 d ++ i64 e) by regroup.
    apply int32_at_app;
      [rewrite !len_app, !len_i64, len_i32; reflexivity|apply length_i32].
  - rewrite <- (int64_of_bytes_i64 e He) at 2.
    replace (i64 a ++ i64 b ++ i32 c ++ i32 d ++ i64 e)
      with ((i64 a ++ i64 b ++ i32 c ++ i32 d) ++ i64 e ++ []) by regroup.
    apply int64_at_app;
      [rewrite !len_app, !len_i64, !len_i32; reflexivity|apply length_i64].
  - rewrite !len_app, !len_i64, !len_i32. reflexivity.
Qed.

Lemma flags_of_encode (a b c : Z) :
  int32 a -> int32 b -> int32 c ->
  flags_of (i32 a ++ i32 b ++ i32 c) = Ok (a, b, c).
Proof.
  intros Ha Hb Hc. unfold flags_of, INT.
  replace (i32 a ++ i32 b ++ i32 c) with ([] ++ concat [i32 a; i32 b; i32 c])
    by (cbn [concat app]; regroup).
  rewrite (np_frombuffer_items [] [i32 a; i32 b; i32 c] 4 3 0);
    [|lia|reflexivity|repeat constructor; apply length_i32|right; reflexivity].
  cbn [bind map]. now rewrite !int32_of_bytes_i32.
Qed.

Lemma map_int32_of_bytes_i32 (l : list Z) :
  Forall int32 l -> map int32_of_bytes (map i32 l) = l.
Proof.
  induction 1 as [|v l Hv _ IH]; [reflexivity|].
  cbn [map]. now rewrite int32_of_bytes_i32, IH.
Qed.

Lemma Forall_length_i32 (l : list Z) : Forall (fun c => length c = 4%nat) (map i32 l).
Proof. apply Forall_map, Forall_forall. intros; apply length_i32. Qed.

Lemma Forall_length_i64 (l : list Z) : Forall (fun c => length c = 8%nat) (map i64 l).
Proof. apply Forall_map, Forall_forall. intros; apply length_i64. Qed.

Lemma surface_payload_len (a b c d : Z) (l : list Z) :
  len (i32 a ++ i32 b ++ i32 c ++ i32 d ++ concat (map i32 l)) = 16 + 4 * len l.
Proof.
  rewrite !len_app, !len_i32. unfold len.
  rewrite (concat_length_Forall 4 _ (Forall_length_i32 l)), length_map. lia.
Qed.

Lemma decode_surface_encode (k : Z) (s : Surface) :
  surface_ok k s ->
  decode_surface k (i32 (id s) ++ i32 (info s) ++ i32 (type s) ++ i32 (num_params s)
                    ++ concat (map i32 (params s))) = Ok s.
Proof.
  intros (Hid & Hty & Hnum & Hinfo & Hpar & _).
  destruct s as [sid sinfo stype snum sparams]. cbn [id info type num_params params] in *.
  unfold decode_surface.
  set (data := i32 sid ++ i32 sinfo ++ i32 stype ++ i32 snum ++ concat (map i32 sparams)).
  assert (H0 : int32_at data 0 = Ok sid).
  { rewrite <- (int32_of_bytes_i32 sid Hid).
    apply (int32_at_app [] (i32 sid)); [reflexivity|apply length_i32]. }
  assert (H4 : (if k =? 1 then int32_at data 4 else Ok (-1)) = Ok sinfo).
  { destruct (k =? 1); [|now subst sinfo].
    rewrite <- (int32_of_bytes_i32 sinfo Hinfo).
    apply (int32_at_app (i32 sid) (i32 sinfo)); [apply len_i32|apply length_i32]. }
  assert (H8 : int32_at data 8 = Ok stype).
  { rewrite <- (int32_of_bytes_i32 stype Hty). unfold data.
    replace (i32 sid ++ i32 sinfo ++ i32 stype ++ i32 snum ++ concat (map i32 sparams))
      with ((i32 sid ++ i32 sinfo) ++ i32 stype ++ (i32 snum ++ concat (map i32 sparams)))
      by regroup.
    apply int32_at_app; [rewrite len_app, !len_i32; reflexivity|apply length_i32]. }
  assert (H12 : int32_at data 12 = Ok snum).
  { rewrite <- (int32_of_bytes_i32 snum Hnum). unfold data.
    replace (i32 sid ++ i32 sinfo ++ i32 stype ++ i32 snum ++ concat (map i32 sparams))
      with ((i32 sid ++ i32 sinfo ++ i32 stype) ++ i32 snum ++ concat (map i32 sparams))
      by regroup.
    apply int32_at_app; [rewrite !len_app, !len_i32; reflexivity|apply length_i32]. }
  assert (H16 : np_frombuffer data INT (-1) 16 = Ok (map i32 sparams)).
  { unfold data.
    replace (i32 sid ++ i32 sinfo ++ i32 stype ++ i32 snum ++ concat (map i32 sparams))
      with ((i32 sid ++ i32 sinfo ++ i32 stype ++ i32 snum) ++ concat (map i32 sparams))
      by regroup.
    apply np_frombuffer_items;
      [unfold INT; lia|rewrite !len_app, !len_i32; reflexivity
       |apply Forall_length_i32|left; lia]. }
  rewrite H0. cbn [bind]. rewrite H4. cbn [bind]. rewrite H8. cbn [bind].
  rewrite H12. cbn [bind]. rewrite H16. cbn [bind].
  now rewrite map_int32_of_bytes_i32.
Qed.

Lemma read_surface_encode (k : Z) (s : Surface) (rest : list byte) :
  surface_ok k s ->
  read_surface k (encode_surface s ++ rest) = Ok (s, rest).
Proof.
  intros Hs. unfold read_surface, encode_surface, surface_record.
  rewrite read_fortran_record_frame
    by (rewrite surface_payload_len; apply Hs).
  cbn [bind]. now rewrite decode_surface_encode.
Qed.

Lemma read_surfaces_encode (k : Z) (l : list Surface) (rest : list byte) :
  Forall (surface_ok k) l ->
  read_surfaces (length l) k (concat (map encode_surface l) ++ rest) = Ok (l, rest).
Proof.
  induction 1 as [|s l Hs _ IH]; [reflexivity|].
  cbn [length read_surfaces map concat]. rewrite <- app_assoc.
  rewrite read_surface_encode by exact Hs. cbn [bind]. rewrite IH. reflexivity.
Qed.

Lemma read_header_encode (text summary : list byte) (p : Parameters) (rest : list byte) :
  text_ok text -> header_ok p -> len summary < 2 ^ 31 ->
  read_header (encode_header text p summary ++ rest) = Ok (p, rest).
Proof.
  intros (Htl & s & Hs & Hin)
         (Hnp & Hneg & Hnr & Hcd & Hjs & Hjs32 & Hni & Hiw & Hiw0 & Hmi & Hkj & Hsurf) Hsum.
  destruct p as [pnp1 pnrss pnrcd pnjsw pniss pniwr pmipts pkjaq psurfaces].
  cbn [np1 nrss nrcd njsw niss niwr mipts kjaq surfaces] in *.
  assert (H11 : int32 pnrcd) by (subst pnrcd; unfold int32; lia).
  destruct (counts_fields pnp1 pnrss pnrcd pnjsw pniss Hnp Hnr H11 Hjs32 Hni)
    as (C0 & C8 & C16 & C20 & C24 & Clen).
  unfold encode_header, count_record, flags_record, read_header.
  cbn [np1 nrss nrcd njsw niss niwr mipts kjaq surfaces].
  rewrite <- !app_assoc.
  rewrite read_fortran_record_frame by exact Htl. cbn [bind].
  unfold decode_utf8. rewrite Hs. cbn [bind]. rewrite Hin. cbn [negb].
  rewrite read_fortran_record_frame by (rewrite Clen; lia). cbn [bind].
  rewrite C0. cbn [bind]. rewrite C8. cbn [bind]. rewrite C16. cbn [bind].
  rewrite C20. cbn [bind]. rewrite C24. cbn [bind].
  subst pnrcd. cbn [Z.eqb Pos.eqb negb].
  destruct (Z.ltb_spec pnp1 0) as [_|]; [|lia]. cbn [negb].
  rewrite read_fortran_record_frame
    by (rewrite !len_app, !len_i32; lia).
  cbn [bind]. rewrite flags_of_encode by assumption. cbn [bind].
  assert (Hn : Z.to_nat pnjsw = length psurfaces) by (subst pnjsw; apply Nat2Z.id).
  rewrite Hn, read_surfaces_encode by exact Hsurf. cbn [bind].
  assert (Hw : wrap 32 (pnjsw + pniwr) = pnjsw + pniwr).
  { apply wrap32_small. unfold int32, len in *. lia. }
  rewrite Hw. destruct (Z.ltb_spec pnjsw (pnjsw + pniwr)); [lia|]. cbn [bind].
  rewrite <- (app_nil_l rest) at 1. rewrite app_nil_l.
  rewrite read_fortran_record_frame by exact Hsum. reflexivity.
Qed.

(** ** Tracks written and read back *)

Lemma np_reshape_concat {A} (w : nat) (l : list (list A)) :
  (0 < w)%nat -> Forall (fun c => length c = w) l ->
  np_reshape w (concat l) = Ok l.
Proof.
  intros Hw Hl. unfold np_reshape, len.
  rewrite (concat_length_Forall w l Hl).
  rewrite Nat2Z.inj_mul, Z.mod_mul by lia. cbn [Z.eqb negb].
  rewrite Nat.div_mul by lia.
  rewrite <- (app_nil_r (concat l)). now rewrite chunks_concat.
Qed.

Lemma length_fields (fields : list Z) :
  length (concat (map i64 fields)) = (length fields * 8)%nat.
Proof.
  rewrite (concat_length_Forall 8 _ (Forall_length_i64 fields)). now rewrite length_map.
Qed.

Lemma encode_track_length (r : list byte * list Z * list byte) :
  track_ok r -> length (encode_track r) = 96%nat.
Proof.
  destruct r as [[pre fields] post]. intros (Hpre & Hf & Hpost).
  unfold encode_track. rewrite !length_app, length_fields. lia.
Qed.

Lemma strip4_encode_track (r : list byte * list Z * list byte) :
  track_ok r -> strip4 (encode_track r) = concat (map i64 (snd (fst r))).
Proof.
  destruct r as [[pre fields] post]. intros (Hpre & Hf & Hpost).
  cbn [fst snd]. unfold strip4, encode_track.
  rewrite !length_app, length_fields, Hpre, Hpost, Hf.
  rewrite skipn_app, Hpre, Nat.sub_diag, skipn_all2 by lia.
  cbn [skipn app].
  rewrite firstn_app, length_fields, Hf.
  change (4 + (11 * 8 + 4) - 8 - 11 * 8)%nat with 0%nat.
  rewrite firstn_all2 by (rewrite length_fields; lia).
  cbn [firstn]. apply app_nil_r.
Qed.

Lemma float_of_bytes_i64 (v : Z) : float_of_bytes (i64 v) = float_of_bits (v mod 2 ^ 64).
Proof. unfold float_of_bytes, i64. now rewrite le_uint_le_bytes. Qed.

Lemma concat_map_concat {A} (l : list (list (list A))) :
  concat (map (@concat A) l) = concat (concat l).
Proof.
  induction l as [|x l IH]; [reflexivity|].
  cbn [map concat]. now rewrite concat_app, IH.
Qed.

Lemma read_tracks_encode (recs : list (list byte * list Z * list byte)) :
  Forall track_ok recs ->
  read_tracks (concat (map encode_track recs)) = Ok (map track_row recs).
Proof.
  intros Hr. rewrite read_tracks_eq.
  rewrite np_reshape_concat;
    [|lia|apply Forall_map; revert Hr; apply Forall_impl; apply encode_track_length].
  cbn [bind]. rewrite map_map.
  assert (Hs : map (fun r => strip4 (encode_track r)) recs
               = map (fun r => concat (map i64 (snd (fst r)))) recs).
  { apply map_ext_Forall. revert Hr. apply Forall_impl. apply strip4_encode_track. }
  rewrite Hs.
  assert (Hc : concat (map (fun r => concat (map i64 (snd (fst r)))) recs)
               = [] ++ concat (concat (map (fun r => map i64 (snd (fst r))) recs))).
  { cbn [app]. rewrite <- concat_map_concat, map_map. reflexivity. }
  rewrite Hc, np_frombuffer_items; [|unfold FLOAT; lia|reflexivity| |left; lia].
  2:{ apply Forall_concat, Forall_map, Forall_forall. intros r _.
      apply Forall_length_i64. }
  cbn [bind].
  assert (Hm : map float_of_bytes (concat (map (fun r => map i64 (snd (fst r))) recs))
               = concat (map track_row recs)).
  { rewrite concat_map, map_map. f_equal. apply map_ext. intros [[pre fields] post].
    cbn [fst snd track_row]. rewrite map_map. apply map_ext. intros v.
    apply float_of_bytes_i64. }
  rewrite Hm. apply np_reshape_concat; [lia|].
  apply Forall_map. revert Hr. apply Forall_impl. intros [[pre fields] post] (_ & Hf & _).
  cbn [track_row]. now rewrite length_map.
Qed.

(** ** The header depends on the bytes it reads only *)

Lemma read_fortran_record_prefix (f : stream) (data rest : list byte) :
  read_fortran_record f = Ok (data, rest) ->
  exists pre, f = pre ++ rest /\
              forall g, read_fortran_record (pre ++ g) = Ok (data, g).
Proof.
  intros H. apply read_fortran_record_Ok_iff in H
    as (pre & suf & -> & Hpre & Hsuf & Hl1 & Hl2).
  exists (pre ++ data ++ suf). split; [regroup|].
  intros g. apply read_fortran_record_Ok_iff. exists pre, suf.
  split; [regroup|]. auto.
Qed.

Lemma stage_prefix {A} (decode : list byte -> result A) (f : stream) (a : A)
      (rest : stream) :
  stage decode f = Ok (a, rest) ->
  exists pre, f = pre ++ rest /\ forall g, stage decode (pre ++ g) = Ok (a, g).
Proof.
  unfold stage. intros H.
  apply bind_Ok_inv in H as ([data f1] & Hr & H).
  apply bind_Ok_inv in H as (a' & Hd & H). injection H as -> ->.
  destruct (read_fortran_record_prefix _ _ _ Hr) as (pre & -> & Hg).
  exists pre. split; [reflexivity|]. intros g. rewrite Hg. cbn [bind].
  rewrite Hd. reflexivity.
Qed.

Lemma read_flags_prefix (f : stream) (a b c : Z) (rest : stream) :
  read_flags f = Ok (a, b, c, rest) ->
  exists pre, f = pre ++ rest /\ forall g, read_flags (pre ++ g) = Ok (a, b, c, g).
Proof.
  rewrite read_flags_stage. intros H.
  apply bind_Ok_inv in H as ([[[a' b'] c'] f3] & Hs & H). injection H as -> -> -> ->.
  destruct (stage_prefix _ _ _ _ Hs) as (pre & -> & Hg).
  exists pre. split; [reflexivity|]. intros g.
  rewrite read_flags_stage, Hg. reflexivity.
Qed.

Lemma read_surfaces_prefix (n : nat) (k : Z) (f : stream) (l : list Surface)
      (rest : stream) :
  read_surfaces n k f = Ok (l, rest) ->
  exists pre, f = pre ++ rest /\ forall g, read_surfaces n k (pre ++ g) = Ok (l, g).
Proof.
  revert f l. induction n as [|n IH]; intros f l H.
  - injection H as <- <-. exists []. split; reflexivity.
  - cbn [read_surfaces] in H.
    apply bind_Ok_inv in H as ([s f1] & Hs & H).
    apply bind_Ok_inv in H as ([l' f2] & Hl & H). injection H as <- <-.
    destruct (stage_prefix (decode_surface k) _ _ _ Hs) as (pre1 & -> & Hg1).
    destruct (IH _ _ Hl) as (pre2 & -> & Hg2).
    exists (pre1 ++ pre2). split; [regroup|]. intros g.
    cbn [read_surfaces]. rewrite <- app_assoc.
    change (read_surface k (pre1 ++ pre2 ++ g))
      with (stage (decode_surface k) (pre1 ++ pre2 ++ g)).
    rewrite Hg1. cbn [bind]. rewrite Hg2. reflexivity.
Qed.

Lemma read_header_prefix (f : stream) (p : Parameters) (rest : stream) :
  read_header f = Ok (p, rest) ->
  exists pre, f = pre ++ rest /\ forall g, read_header (pre ++ g) = Ok (p, g).
Proof.
  intros H.
  apply read_header_Ok in H
    as (s & f1 & c & f2 & w0 & m0 & k0 & f3 & surfs & f4 & summary
        & Hid & Hin & Hc & Hcd & Hnp & Hfl & Hsu & Hw & Hsm & ->).
  destruct (stage_prefix decode_utf8 _ _ _ Hid) as (pre1 & -> & Hg1).
  rewrite read_counts_stage in Hc.
  destruct (stage_prefix _ _ _ _ Hc) as (pre2 & -> & Hg2).
  destruct (read_flags_prefix _ _ _ _ _ Hfl) as (pre3 & -> & Hg3).
  destruct (read_surfaces_prefix _ _ _ _ _ Hsu) as (pre4 & -> & Hg4).
  destruct (read_fortran_record_prefix _ _ _ Hsm) as (pre5 & -> & Hg5).
  exists (pre1 ++ pre2 ++ pre3 ++ pre4 ++ pre5). split; [regroup|].
  intros g. rewrite read_header_stages. rewrite <- !app_assoc.
  change (read_id (pre1 ++ pre2 ++ pre3 ++ pre4 ++ pre5 ++ g))
    with (stage decode_utf8 (pre1 ++ pre2 ++ pre3 ++ pre4 ++ pre5 ++ g)).
  rewrite Hg1. cbn [bind]. rewrite Hin. cbn [negb].
  rewrite read_counts_stage, Hg2. cbn [bind].
  rewrite Hcd. cbn [Z.eqb Pos.eqb negb].
  destruct (Z.ltb_spec (c_np1 c) 0); [|lia]. cbn [negb].
  rewrite Hg3. cbn [bind]. rewrite Hg4. cbn [bind].
  destruct (Z.ltb_spec (c_njsw c) (wrap 32 (c_njsw c + w0))); [lia|].
  cbn [bind]. rewrite Hg5. reflexivity.
Qed.

(** ** What a decoded header holds *)

Lemma int32_at_range (data : list byte) (offset v : Z) :
  int32_at data offset = Ok v -> int32 v.
Proof.
  unfold int32_at. intros H.
  apply bind_Ok_inv in H as (a & _ & H). apply bind_Ok_inv in H as (x & _ & H).
  injection H as <-. apply int32_of_bytes_range.
Qed.

Lemma int64_at_range (data : list byte) (offset v : Z) :
  int64_at data offset = Ok v -> int64 v.
Proof.
  unfold int64_at. intros H.
  apply bind_Ok_inv in H as (a & _ & H). apply bind_Ok_inv in H as (x & _ & H).
  injection H as <-. apply int64_of_bytes_range.
Qed.

Lemma read_counts_range (f : stream) (c : Counts) (rest : stream) :
  read_counts f = Ok (c, rest) ->
  int64 (c_np1 c) /\ int64 (c_nrss c) /\ int32 (c_nrcd c) /\ int32 (c_njsw c) /\
  int64 (c_niss c).
Proof.
  unfold read_counts. intros H.
  apply bind_Ok_inv in H as ([data f2] & _ & H).
  apply bind_Ok_inv in H as (a & Ha & H). apply bind_Ok_inv in H as (b & Hb & H).
  apply bind_Ok_inv in H as (c' & Hc & H). apply bind_Ok_inv in H as (d & Hd & H).
  apply bind_Ok_inv in H as (e & He & H). injection H as <- <-.
  cbn [c_np1 c_nrss c_nrcd c_njsw c_niss].
  eauto 10 using int32_at_range, int64_at_range.
Qed.

Lemma flags_of_range (data : list byte) (a b c : Z) :
  flags_of data = Ok (a, b, c) -> int32 a /\ int32 b /\ int32 c.
Proof.
  unfold flags_of. intros H. apply bind_Ok_inv in H as (l & _ & H).
  destruct l as [|x [|y [|z [|? ?]]]]; try discriminate H.
  injection H as <- <- <-. auto using int32_of_bytes_range.
Qed.

Lemma read_flags_range (f : stream) (a b c : Z) (rest : stream) :
  read_flags f = Ok (a, b, c, rest) -> int32 a /\ int32 b /\ int32 c.
Proof.
  unfold read_flags. intros H.
  apply bind_Ok_inv in H as ([data f3] & _ & H).
  apply bind_Ok_inv in H as ([[a' b'] c'] & Hf & H). injection H as <- <- <- <-.
  exact (flags_of_range _ _ _ _ Hf).
Qed.

Lemma read_fortran_record_len (f : stream) (data rest : list byte) :
  read_fortran_record f = Ok (data, rest) -> len data < 2 ^ 31.
Proof.
  intros H. apply read_fortran_record_Ok_iff in H as (pre & suf & _ & _ & _ & <- & _).
  apply int32_of_bytes_range.
Qed.

Lemma decode_surface_ok (k : Z) (data : list byte) (s : Surface) :
  len data < 2 ^ 31 -> decode_surface k data = Ok s -> surface_ok k s.
Proof.
  intros Hl H. pose proof (decode_surface_params _ _ _ H) as Hp.
  unfold decode_surface in H.
  apply bind_Ok_inv in H as (a & Ha & H). apply bind_Ok_inv in H as (b & Hb & H).
  apply bind_Ok_inv in H as (c & Hc & H). apply bind_Ok_inv in H as (d & Hd & H).
  apply bind_Ok_inv in H as (l & _ & H). injection H as <-.
  cbn [params] in Hp. unfold surface_ok. cbn [id info type num_params params].
  split; [exact (int32_at_range _ _ _ Ha)|].
  split; [exact (int32_at_range _ _ _ Hc)|].
  split; [exact (int32_at_range _ _ _ Hd)|].
  split; [destruct (k =? 1); [exact (int32_at_range _ _ _ Hb)|congruence]|].
  split; [|lia].
  apply Forall_map, Forall_forall. intros; apply int32_of_bytes_range.
Qed.

Lemma read_surfaces_ok (n : nat) (k : Z) (f : stream) (l : list Surface)
      (rest : stream) :
  read_surfaces n k f = Ok (l, rest) -> Forall (surface_ok k) l.
Proof.
  revert f l. induction n as [|n IH]; intros f l H.
  - injection H as <- <-. constructor.
  - cbn [read_surfaces] in H.
    apply bind_Ok_inv in H as ([s f1] & Hs & H).
    apply bind_Ok_inv in H as ([l' f2] & Hl & H). injection H as <- <-.
    constructor; [|exact (IH _ _ Hl)].
    unfold read_surface in Hs.
    apply bind_Ok_inv in Hs as ([data f1'] & Hr & Hs).
    apply bind_Ok_inv in Hs as (s' & Hd & Hs). injection Hs as -> ->.
    exact (decode_surface_ok _ _ _ (read_fortran_record_len _ _ _ Hr) Hd).
Qed.


(** * Index arrays: what np.where and np.intersect1d return *)

Lemma In_run_heads_conv (x prev : Z) (l : list Z) :
  In x l -> x = prev \/ In x (run_heads prev l).
Proof.
  revert prev. induction l as [|y l IH]; intros prev; [contradiction|].
  intros [->|H]; cbn [run_heads].
  - destruct (Z.eqb_spec x prev); [now left|right; now left].
  - destruct (IH y H) as [->|H'];
      destruct (Z.eqb_spec y prev); subst; auto; right; cbn [In]; auto.
Qed.

Lemma In_dedup_iff (x : Z) (l : list Z) : In x (dedup l) <-> In x l.
Proof.
  split; [apply In_dedup|].
  destruct l as [|y l]; [contradiction|].
  intros [->|H]; [now left|]. cbn [dedup].
  destruct (In_run_heads_conv x y l H); [left; congruence|now right].
Qed.

Lemma repeated_In (x : Z) (l : list Z) : In x (repeated l) -> In x l.
Proof.
  induction l as [|y l IH]; [contradiction|].
  cbn [repeated]. destruct l as [|z l]; [contradiction|].
  destruct (Z.eqb_spec y z); [intros [->|H]|intros H]; [now left|right; auto..].
Qed.

Lemma repeated_sorted (x : Z) (l : list Z) :
  StronglySorted Z.le l -> (2 <= count_occ Z.eq_dec l x)%nat -> In x (repeated l).
Proof.
  induction l as [|y l IH]; intros Hs Hc; [cbn in Hc; lia|].
  inversion Hs as [|? ? Hs' Hle]; subst.
  cbn [count_occ] in Hc. cbn [repeated].
  destruct l as [|z l]; [destruct (Z.eq_dec y x); cbn in Hc; lia|].
  destruct (Z.eq_dec y x) as [->|Hne].
  - assert (Hin : In x (z :: l)) by (apply (count_occ_In Z.eq_dec); lia).
    assert (Hz : z = x).
    { inversion Hle as [|? ? Hxz _]; subst.
      inversion Hs' as [|? ? _ Hz']; subst.
      destruct Hin as [->|Hin]; [reflexivity|].
      rewrite Forall_forall in Hz'. specialize (Hz' x Hin). lia. }
    subst z. rewrite Z.eqb_refl. now left.
  - specialize (IH Hs' Hc).
    destruct (y =? z); [now right|exact IH].
Qed.

Lemma repeated_count_le (x : Z) (l : list Z) :
  (count_occ Z.eq_dec (repeated l) x <= Nat.pred (count_occ Z.eq_dec l x))%nat.
Proof.
  induction l as [|y l IH]; [cbn; lia|].
  cbn [repeated]. destruct l as [|z l]; [cbn; lia|].
  destruct (Z.eqb_spec y z) as [->|Hne].
  - cbn [count_occ] in *. destruct (Z.eq_dec z x); lia.
  - change (count_occ Z.eq_dec (y :: z :: l) x)
      with (if Z.eq_dec y x then S (count_occ Z.eq_dec (z :: l) x)
            else count_occ Z.eq_dec (z :: l) x).
    destruct (Z.eq_dec y x); lia.
Qed.

Lemma NoDup_count_le (x : Z) (l : list Z) :
  NoDup l -> (count_occ Z.eq_dec l x <= 1)%nat.
Proof. intros H. now apply (NoDup_count_occ Z.eq_dec). Qed.

Lemma NoDup_dedup_sort (l : list Z) : NoDup (dedup (sort l)).
Proof. apply increasing_NoDup, dedup_increasing, sort_sorted. Qed.

(** [np.intersect1d] on two integer arrays: the common elements, each
    once. *)
Lemma np_intersect1d_spec (a b : list Z) :
  exists r, np_intersect1d (PyArray (IntArray a)) (PyArray (IntArray b))
            = Ok (IntArray r) /\
            NoDup r /\ forall x, In x r <-> In x a /\ In x b.
Proof.
  rewrite np_intersect1d_ints. eexists. split; [reflexivity|].
  set (aux := dedup (sort a) ++ dedup (sort b)).
  assert (Hc : forall x, (count_occ Z.eq_dec (sort aux) x <= 2)%nat).
  { intros x. rewrite count_sort. unfold aux. rewrite count_occ_app.
    pose proof (NoDup_count_le x _ (NoDup_dedup_sort a)).
    pose proof (NoDup_count_le x _ (NoDup_dedup_sort b)). lia. }
  split.
  - apply (NoDup_count_occ Z.eq_dec). intros x.
    pose proof (repeated_count_le x (sort aux)). specialize (Hc x). lia.
  - intros x. split; [apply intersect_In|]. intros [Ha Hb].
    apply repeated_sorted; [apply sort_sorted|].
    rewrite count_sort. unfold aux. rewrite count_occ_app.
    assert (Ha' : In x (dedup (sort a))) by now apply In_dedup_iff, In_sort.
    assert (Hb' : In x (dedup (sort b))) by now apply In_dedup_iff, In_sort.
    apply (count_occ_In Z.eq_dec) in Ha', Hb'. lia.
Qed.

Lemma where_from_In (i k : Z) (c : list bool) :
  In k (where_from i c) <->
  i <= k < i + len c /\ nth (Z.to_nat (k - i)) c false = true.
Proof.
  revert i. induction c as [|b c IH]; intros i.
  - cbn [where_from In]. split; [contradiction|].
    intros [_ Hn]. destruct (Z.to_nat (k - i)); discriminate Hn.
  - cbn [where_from].
    assert (Hstep : forall k, i + 1 <= k ->
              Z.to_nat (k - i) = S (Z.to_nat (k - (i + 1)))) by (intros; lia).
    assert (Hlen : len (b :: c) = 1 + len c) by (unfold len; cbn [length]; lia).
    rewrite Hlen.
    assert (Hnn : 0 <= len c) by (unfold len; lia).
    destruct b; cbn [In]; rewrite ?IH; split.
    + intros [<-|[Hr Hn]]; [rewrite Z.sub_diag; split; [lia|reflexivity]|].
      split; [lia|]. rewrite Hstep by lia. exact Hn.
    + intros [Hr Hn]. destruct (Z.eq_dec i k) as [|Hne]; [now left|right].
      split; [lia|]. rewrite Hstep in Hn by lia. exact Hn.
    + intros [Hr Hn]. split; [lia|]. rewrite Hstep by lia. exact Hn.
    + intros [Hr Hn]. destruct (Z.eq_dec i k) as [<-|Hne].
      * rewrite Z.sub_diag in Hn. discriminate Hn.
      * split; [lia|]. rewrite Hstep in Hn by lia. exact Hn.
Qed.

Lemma np_where_In (k : Z) (c : list bool) :
  In k (np_where c) <-> 0 <= k < len c /\ nth (Z.to_nat k) c false = true.
Proof. unfold np_where. rewrite where_from_In, Z.sub_0_r. reflexivity. Qed.

Lemma where_from_increasing (i : Z) (c : list bool) :
  StronglySorted Z.lt (where_from i c).
Proof.
  revert i. induction c as [|b c IH]; intros i; [constructor|].
  cbn [where_from]. destruct b; [|apply IH].
  constructor; [apply IH|].
  apply Forall_forall. intros k Hk. apply where_from_In in Hk. lia.
Qed.

Lemma np_where_NoDup (c : list bool) : NoDup (np_where c).
Proof. apply increasing_NoDup, where_from_increasing. Qed.

Lemma nth_map_bool {A} (f : A -> bool) (l : list A) (d : A) (k : nat) :
  (k < length l)%nat -> nth k (map f l) false = f (nth k l d).
Proof.
  intros H. rewrite (nth_indep _ false (f d)) by (now rewrite length_map).
  apply map_nth.
Qed.

(** * The binner in any arithmetic: shapes, axes and filters *)

Section Shapes.
Context {F : Type} {arith : Arith F}.
Variable rssa : RSSA F.

Lemma np_zeros_shape (rows cols : Z) (g : list (list F)) :
  np_zeros rows cols = Ok g -> grid_shape (Z.to_nat rows) (Z.to_nat cols) g.
Proof.
  unfold np_zeros. destruct ((rows <? 0) || (cols <? 0)); [discriminate|].
  intros H; injection H as <-. apply zeros_shape.
Qed.

Lemma add_cell_shape (rows cols : nat) (grid g' : list (list F)) (i j : Z) (v : F) :
  grid_shape rows cols grid -> add_cell grid i j v = Ok g' -> grid_shape rows cols g'.
Proof.
  intros [Hr Hc] H. unfold add_cell in H.
  apply bind_Ok_inv in H as (r & _ & H). apply bind_Ok_inv in H as (c & _ & H).
  injection H as <-. split; [now rewrite update_length|].
  apply update_Forall; [|exact Hc]. intros row Hrow. now rewrite update_length.
Qed.

Lemma np_add_at_shape (rows cols : nat) (grid g' : list (list F))
      (ri ci : list Z) (vs : list F) :
  grid_shape rows cols grid -> np_add_at grid ri ci vs = Ok g' ->
  grid_shape rows cols g'.
Proof.
  revert grid ci vs. induction ri as [|i ri IH]; intros grid ci vs Hs H.
  - cbn in H. now injection H as <-.
  - destruct ci as [|j ci]; [cbn in H; now injection H as <-|].
    destruct vs as [|v vs]; [cbn in H; now injection H as <-|].
    cbn [np_add_at] in H. apply bind_Ok_inv in H as (g & Hg & H).
    exact (IH _ _ _ (add_cell_shape _ _ _ _ _ _ _ Hs Hg) H).
Qed.

Lemma map_shape (rows cols : nat) (f : F -> F) (g : list (list F)) :
  grid_shape rows cols g -> grid_shape rows cols (map (map f) g).
Proof.
  intros [Hr Hc]. split; [now rewrite length_map|].
  apply Forall_map. revert Hc. apply Forall_impl. intros row. now rewrite length_map.
Qed.

(** ** The axes *)

Lemma np_linspace_last (start stop : F) (num : Z) (axis : list F) :
  np_linspace start stop num = Ok axis -> 2 <= num ->
  getitem axis (-1) = Ok stop.
Proof.
  intros H Hn. pose proof (np_linspace_length _ _ _ _ H) as [_ Hlen].
  unfold np_linspace in H. destruct (Z.ltb_spec num 0); [lia|].
  destruct (Z.ltb_spec 1 num); [|lia]. injection H as <-.
  apply getitem_last; [exact stop|].
  intros E. apply (f_equal (@length F)) in E.
  rewrite !length_map in E.
  match type of E with context [if ?c then _ else _] => destruct c end;
    try destruct (feq _ _); rewrite !length_map, arange_length in E;
    cbn [length] in E; lia.
Qed.

(** ** The contents of the cells *)

Lemma nth_update_same {A} (l : list A) (k : nat) (f : A -> A) (d : A) :
  (k < length l)%nat -> nth k (update l k f) d = f (nth k l d).
Proof.
  revert k. induction l as [|a l IH]; intros [|k] H; simpl in *; try lia.
  - reflexivity.
  - apply IH. lia.
Qed.

Lemma nth_update_other {A} (l : list A) (k j : nat) (f : A -> A) (d : A) :
  k <> j -> nth k (update l j f) d = nth k l d.
Proof.
  revert k j. induction l as [|a l IH]; intros [|k] [|j] H; simpl; auto.
  contradiction.
Qed.

Lemma landed_nil {A} (n m r c : Z) (cols : list Z) (values : list A) :
  landed n m r c [] cols values = [].
Proof. reflexivity. Qed.

Lemma landed_cons {A} (n m r c i j : Z) (rows cols : list Z) (v : A)
      (values : list A) :
  landed n m r c (i :: rows) (j :: cols) (v :: values) =
  if (cell_of n i =? r) && (cell_of m j =? c)
  then v :: landed n m r c rows cols values
  else landed n m r c rows cols values.
Proof.
  unfold landed. cbn [combine filter fst snd].
  destruct ((cell_of n i =? r) && (cell_of m j =? c)); reflexivity.
Qed.

(** Constant values land as their number. *)
Lemma landed_constant {A B C} (n m r c : Z) (rows cols : list Z) (us : list C)
      (vs : list B) (o : A) :
  length us = length vs ->
  landed n m r c rows cols (map (fun _ => o) us) =
  map (fun _ => o) (landed n m r c rows cols vs).
Proof.
  revert cols us vs. induction rows as [|i rows IH]; intros cols us vs L.
  - reflexivity.
  - destruct cols as [|j cols]; [reflexivity|].
    destruct us as [|u us], vs as [|v vs]; try discriminate L.
    + reflexivity.
    + cbn [map]. rewrite !landed_cons.
      destruct ((cell_of n i =? r) && (cell_of m j =? c)); cbn [map]; f_equal;
        apply IH; simpl in L; lia.
Qed.

Lemma cell_map {A B} (f : A -> B) (g : list (list A)) (r c : Z) (d : A) (e : B)
      (rows cols : nat) :
  length g = rows -> Forall (fun row => length row = cols) g ->
  0 <= r < Z.of_nat rows -> 0 <= c < Z.of_nat cols ->
  cell (map (map f) g) r c e = f (cell g r c d).
Proof.
  intros Hl Hf Hr Hc. unfold cell.
  rewrite (nth_indep _ [] (map f [])) by (rewrite length_map; lia).
  rewrite map_nth.
  assert (Hrow : length (nth (Z.to_nat r) g []) = cols).
  { rewrite Forall_forall in Hf. apply Hf, nth_In. lia. }
  rewrite (nth_indep _ e (f d)) by (rewrite length_map; lia).
  apply map_nth.
Qed.

Lemma cell_zeros (rows cols : nat) (r c : Z) :
  cell (repeat (repeat fzero cols) rows) r c fzero = fzero.
Proof.
  unfold cell.
  destruct (Nat.lt_ge_cases (Z.to_nat r) rows) as [Hr|Hr].
  - rewrite (nth_indep _ [] (repeat fzero cols)) by (now rewrite repeat_length).
    rewrite nth_repeat. destruct (Nat.lt_ge_cases (Z.to_nat c) cols) as [Hc|Hc].
    + apply nth_repeat.
    + apply nth_overflow. now rewrite repeat_length.
  - rewrite (nth_overflow (repeat _ rows)) by (now rewrite repeat_length).
    now destruct (Z.to_nat c).
Qed.

(** [grid[i, j] += v] that does not raise names a cell of the grid and
    changes that cell only. *)
Lemma add_cell_inv (n m : Z) (grid g' : list (list F)) (i j : Z) (v : F) :
  grid_shape (Z.to_nat n) (Z.to_nat m) grid -> 0 <= n -> 0 <= m ->
  add_cell grid i j v = Ok g' ->
  0 <= cell_of n i < n /\ 0 <= cell_of m j < m /\
  forall r c, 0 <= r < n -> 0 <= c < m ->
    cell g' r c fzero =
    if (cell_of n i =? r) && (cell_of m j =? c) then fadd (cell grid r c fzero) v
    else cell grid r c fzero.
Proof.
  intros Hs Hn Hm H. unfold add_cell in H.
  apply bind_Ok_inv in H as (r0 & Hr0 & H).
  apply bind_Ok_inv in H as (c0 & Hc0 & H). injection H as <-.
  assert (Hlen : len grid = n) by (destruct Hs as [Hl _]; unfold len; lia).
  rewrite Hlen in Hr0. unfold norm_index in Hr0. fold (cell_of n i) in Hr0.
  destruct (Z.ltb_spec (cell_of n i) 0); [discriminate|].
  destruct (Z.leb_spec n (cell_of n i)); [discriminate|].
  cbn [orb] in Hr0. injection Hr0 as <-.
  assert (Hrow : len (nth (Z.to_nat (cell_of n i)) grid []) = m).
  { unfold len. rewrite (shape_row (Z.to_nat n) (Z.to_nat m)) by (assumption || lia).
    lia. }
  rewrite Hrow in Hc0. unfold norm_index in Hc0. fold (cell_of m j) in Hc0.
  destruct (Z.ltb_spec (cell_of m j) 0); [discriminate|].
  destruct (Z.leb_spec m (cell_of m j)); [discriminate|].
  cbn [orb] in Hc0. injection Hc0 as <-.
  split; [lia|]. split; [lia|]. intros r c Hr Hc. unfold cell.
  destruct (Z.eqb_spec (cell_of n i) r) as [<-|Hir]; cbn [andb].
  - rewrite nth_update_same by (unfold len in Hlen; lia).
    destruct (Z.eqb_spec (cell_of m j) c) as [<-|Hjc].
    + rewrite nth_update_same by (unfold len in Hrow; lia). reflexivity.
    + rewrite nth_update_other by lia. reflexivity.
  - rewrite nth_update_other by lia. reflexivity.
Qed.

(** [np.add.at] that does not raise names cells of the grid only, and adds
    to every cell the values listed for it, one after the other. *)
Lemma np_add_at_cells (n m : Z) (g g' : list (list F)) (ri ci : list Z)
      (vs : list F) :
  grid_shape (Z.to_nat n) (Z.to_nat m) g -> 0 <= n -> 0 <= m ->
  length ri = length vs -> length ci = length vs ->
  np_add_at g ri ci vs = Ok g' ->
  Forall (fun i => 0 <= cell_of n i < n) ri /\
  Forall (fun j => 0 <= cell_of m j < m) ci /\
  forall r c, 0 <= r < n -> 0 <= c < m ->
    cell g' r c fzero = fold_left fadd (landed n m r c ri ci vs) (cell g r c fzero).
Proof.
  intros Hs Hn Hm. revert g ci vs Hs.
  induction ri as [|i ri IH]; intros g ci vs Hs Lr Lc H.
  - cbn [np_add_at] in H. injection H as <-.
    destruct vs; [|discriminate Lr]. destruct ci; [|discriminate Lc].
    split; [constructor|]. split; [constructor|]. reflexivity.
  - destruct vs as [|v vs]; [discriminate Lr|].
    destruct ci as [|j ci]; [discriminate Lc|].
    cbn [np_add_at] in H. apply bind_Ok_inv in H as (g1 & Hg1 & H).
    pose proof (add_cell_shape _ _ _ _ _ _ _ Hs Hg1) as Hs1.
    destruct (add_cell_inv n m g g1 i j v Hs Hn Hm Hg1) as (Hi & Hj & Hc1).
    destruct (IH g1 ci vs Hs1) as (Hri & Hci & Hcells);
      [simpl in Lr; lia | simpl in Lc; lia | exact H |].
    split; [constructor; assumption|]. split; [constructor; assumption|].
    intros r c Hr Hc. rewrite (Hcells r c Hr Hc), (Hc1 r c Hr Hc), landed_cons.
    destruct ((cell_of n i =? r) && (cell_of m j =? c)); reflexivity.
Qed.

(** ** Every value lands in one cell *)







(** ** What a returned figure is made of *)

Lemma generate_figures_grids (particle : string) (z_int theta_int : Z)
      (source_intensity : F) (value_range : option (F * F))
      (mask : option index_array) (out : Figures F) :
  generate_figures_current_cyl rssa particle z_int theta_int source_intensity
                               value_range mask = Ok out ->
  exists sel z_axis theta_axis rows cols g eg,
    select_rows rssa particle mask = Ok (IntArray sel) /\
    calculate_grid_axes_cyl rssa z_int theta_int (Some (IntArray sel))
      = Ok (z_axis, theta_axis) /\
    closest z_axis (pick (z rssa) sel) = Ok rows /\
    closest theta_axis (map2 np_angle (pick (x rssa) sel) (pick (y rssa) sel))
      = Ok cols /\
    length rows = length sel /\ length cols = length sel /\
    (1 <= z_int /\ 1 <= theta_int) /\
    let zeros := repeat (repeat fzero (Z.to_nat theta_int)) (Z.to_nat z_int) in
    np_add_at zeros rows cols (pick (wgt rssa) sel) = Ok g /\
    np_add_at zeros rows cols (map (fun _ => fone) rows) = Ok eg /\
    grid_shape (Z.to_nat z_int) (Z.to_nat theta_int) g /\
    grid_shape (Z.to_nat z_int) (Z.to_nat theta_int) eg /\
    let nps := of_int (wrap 64 (Z.abs (np1 (parameters rssa)))) in
    grid_values out =
      map (map (fun v => fmul v source_intensity))
          (map (map (fun v => fdiv v nps)) (map (map (fun v => fdiv v (area out))) g)) /\
    error_grid out =
      map (map (fun c => fdiv fone (fsqrt c)))
          (map (map (fun c => if feq c fzero then fone else c)) eg).
Proof.
  intros H. pose proof (generate_figures_bins rssa _ _ _ _ _ _ _ H) as Hbins.
  apply generate_figures_Ok in H
    as (sel & z_axis & theta_axis & g0 & e0 & zs & z_idx & xs & ys & theta_idx & ws
        & g & eg & x0 & y0 & t0 & tl & z0 & zl & t1 & z1 & Hsel & Hax & Hg0 & He0
        & Hzs & Hzi & Hxs & Hys & Hti & Hws & Hg & Heg & _ & _ & _ & _ & _ & _ & _ & _
        & Hout).
  destruct sel as [sel|l]; [|discriminate Hzs].
  pose proof (select_rows_range rssa _ _ _ Hsel) as Hrange.
  unfold take_idx, z, x, y, wgt in Hzs, Hxs, Hys, Hws.
  rewrite take_column in Hzs, Hxs, Hys, Hws by exact Hrange.
  injection Hzs as <-. injection Hxs as <-. injection Hys as <-. injection Hws as <-.
  fold (z rssa) in Hzi. fold (x rssa) (y rssa) in Hti. fold (wgt rssa) in Hg.
  assert (Lr : length z_idx = length sel).
  { apply closest_Ok in Hzi as (_ & ? & ? & _ & _ & ->).
    now rewrite length_map, pick_length. }
  assert (Lc : length theta_idx = length sel).
  { apply closest_Ok in Hti as (_ & ? & ? & _ & _ & ->).
    rewrite length_map, map2_length; rewrite !pick_length; reflexivity. }
  pose proof (np_zeros_shape _ _ _ Hg0) as Hs0.
  unfold np_zeros in Hg0, He0.
  destruct ((z_int <? 0) || (theta_int <? 0)); [discriminate|].
  injection Hg0 as <-. injection He0 as <-.
  exists sel, z_axis, theta_axis, z_idx, theta_idx, g, eg.
  cbv zeta in Hout |- *. subst out. cbn [grid_values error_grid area].
  repeat (split; [assumption|]).
  split; [exact (np_add_at_shape _ _ _ _ _ _ _ Hs0 Hg)|].
  split; [exact (np_add_at_shape _ _ _ _ _ _ _ Hs0 Heg)|].
  split; reflexivity.
Qed.

End Shapes.

(** ** The rows a call works on *)

Section Filters.
Context {F : Type} {arith : Arith F}.
Variable rssa : RSSA F.

Lemma nth_map2 {A B C} (f : A -> B -> C) (l : list A) (m : list B)
      (k : nat) (da : A) (db : B) (dc : C) :
  (k < length l)%nat -> length l = length m ->
  nth k (map2 f l m) dc = f (nth k l da) (nth k m db).
Proof.
  revert m k. induction l as [|a l IH]; intros [|b m] k Hk Hl;
    cbn [length] in *; try lia.
  destruct k as [|k]; [reflexivity|]. cbn [map2 nth]. apply IH; lia.
Qed.

Lemma where_column_In (k : nat) (f : F -> bool) (g : F -> F) (i : Z) :
  In i (np_where (map f (map g (column rssa k)))) <->
  0 <= i < len (tracks rssa) /\
  f (g (nth (Z.to_nat i) (column rssa k) fzero)) = true.
Proof.
  rewrite np_where_In, map_map.
  assert (Hl : len (map (fun v => f (g v)) (column rssa k)) = len (tracks rssa))
    by (unfold len; rewrite length_map; apply column_length).
  rewrite Hl. split; intros [Hr Hn]; (split; [exact Hr|]).
  - rewrite (nth_map_bool _ _ fzero) in Hn; [exact Hn|].
    pose proof (column_length rssa k). unfold len in *. lia.
  - rewrite (nth_map_bool _ _ fzero); [exact Hn|].
    pose proof (column_length rssa k). unfold len in *. lia.
Qed.

Lemma where_z_In (f : F -> bool) (i : Z) :
  In i (np_where (map f (z rssa))) <->
  0 <= i < len (tracks rssa) /\ f (nth (Z.to_nat i) (z rssa) fzero) = true.
Proof.
  pose proof (where_column_In 7 f (fun v => v) i) as H.
  rewrite map_id in H. exact H.
Qed.

Lemma get_particle_mask_spec (particle : string) (pm : list Z) :
  get_particle_mask rssa particle = Ok pm ->
  NoDup pm /\
  forall i, In i pm <->
    0 <= i < len (tracks rssa) /\
    let b := fabs (nth (Z.to_nat i) (column rssa 1) fzero) in
    (particle = "n"%string /\ flt b (of_int 900000000) = true) \/
    (particle = "p"%string /\ fle (of_int 900000000) b = true).
Proof.
  unfold get_particle_mask, mask_neutron_tracks, mask_photon_tracks.
  destruct (String.eqb_spec particle "n") as [->|Hn].
  - intros H; injection H as <-. split; [apply np_where_NoDup|].
    intros i. rewrite where_column_In. cbv zeta. split.
    + intros [Hr Hb]. split; [exact Hr|]. left. now split.
    + intros [Hr [[_ Hb]|[E _]]]; [now split|discriminate E].
  - destruct (String.eqb_spec particle "p") as [->|Hp]; [|discriminate].
    intros H; injection H as <-. split; [apply np_where_NoDup|].
    intros i. rewrite where_column_In. cbv zeta. split.
    + intros [Hr Hb]. split; [exact Hr|]. right. now split.
    + intros [Hr [[E _]|[_ Hb]]]; [discriminate E|now split].
Qed.

Lemma axial_mask_spec (lo hi : F) :
  exists m, axial_mask rssa (Some (lo, hi)) = Ok (PyArray (IntArray m)) /\
    NoDup m /\
    forall i, In i m <->
      0 <= i < len (tracks rssa) /\
      flt lo (nth (Z.to_nat i) (z rssa) fzero) = true /\
      flt (nth (Z.to_nat i) (z rssa) fzero) hi = true.
Proof.
  unfold axial_mask.
  set (mask1 := np_where (map (fun v => flt lo v) (z rssa))).
  set (mask2 := np_where (map (fun v => flt v hi) (z rssa))).
  change (np_intersect1d (PyWhere mask1) (PyWhere mask2))
    with (np_intersect1d (PyArray (IntArray mask1)) (PyArray (IntArray mask2))).
  destruct (np_intersect1d_spec mask1 mask2) as (r & Hr & Hnd & Hin).
  rewrite Hr. cbn [bind]. exists r. split; [reflexivity|]. split; [exact Hnd|].
  intros i. rewrite Hin. unfold mask1, mask2. rewrite !where_z_In. tauto.
Qed.

Lemma x_length : length (x rssa) = length (tracks rssa).
Proof. unfold x, column. apply length_map. Qed.

Lemma y_length : length (y rssa) = length (tracks rssa).
Proof. unfold y, column. apply length_map. Qed.

Lemma where_perimeter_In (radius : F) (f : F -> bool) (i : Z) :
  In i (np_where (map f (map (fun t => fmul radius t)
                             (map2 np_angle (x rssa) (y rssa))))) <->
  0 <= i < len (tracks rssa) /\
  f (fmul radius (np_angle (nth (Z.to_nat i) (x rssa) fzero)
                           (nth (Z.to_nat i) (y rssa) fzero))) = true.
Proof.
  rewrite np_where_In, map_map.
  assert (Hl : length (map2 np_angle (x rssa) (y rssa)) = length (tracks rssa)).
  { rewrite map2_length; [apply x_length|]. now rewrite x_length, y_length. }
  unfold len. rewrite length_map, Hl.
  split; intros [Hr Hn]; (split; [exact Hr|]).
  - rewrite (nth_map_bool _ _ fzero) in Hn by lia.
    rewrite (nth_map2 _ _ _ _ fzero fzero) in Hn;
      [exact Hn|rewrite x_length; lia|now rewrite x_length, y_length].
  - rewrite (nth_map_bool _ _ fzero) by lia.
    rewrite (nth_map2 _ _ _ _ fzero fzero);
      [exact Hn|rewrite x_length; lia|now rewrite x_length, y_length].
Qed.

Lemma perimeter_mask_spec (radius : F) (m : list Z) (lo hi : F) :
  exists r, perimeter_mask rssa radius (PyArray (IntArray m)) lo hi
            = Ok (PyArray (IntArray r)) /\
    NoDup r /\
    forall i, In i r <->
      In i m /\ 0 <= i < len (tracks rssa) /\
      let v := fmul radius (np_angle (nth (Z.to_nat i) (x rssa) fzero)
                                     (nth (Z.to_nat i) (y rssa) fzero)) in
      flt lo v = true /\ flt v hi = true.
Proof.
  unfold perimeter_mask.
  set (xv := map (fun t => fmul radius t) (map2 np_angle (x rssa) (y rssa))).
  set (mask1 := np_where (map (fun v => flt lo v) xv)).
  set (mask2 := np_where (map (fun v => flt v hi) xv)).
  change (np_intersect1d (PyArray (IntArray m)) (PyWhere mask1))
    with (np_intersect1d (PyArray (IntArray m)) (PyArray (IntArray mask1))).
  destruct (np_intersect1d_spec m mask1) as (r1 & Hr1 & _ & Hin1).
  rewrite Hr1. cbn [bind].
  change (np_intersect1d (PyArray (IntArray r1)) (PyWhere mask2))
    with (np_intersect1d (PyArray (IntArray r1)) (PyArray (IntArray mask2))).
  destruct (np_intersect1d_spec r1 mask2) as (r2 & Hr2 & Hnd & Hin2).
  rewrite Hr2. cbn [bind]. exists r2. split; [reflexivity|]. split; [exact Hnd|].
  intros i. rewrite Hin2, Hin1. unfold mask1, mask2, xv.
  rewrite !where_perimeter_In. cbv zeta. tauto.
Qed.

Lemma location_mask_both (xlo xhi zlo zhi x0 y0 : F) :
  getitem (x rssa) 0 = Ok x0 -> getitem (y rssa) 0 = Ok y0 ->
  exists m,
    location_mask rssa (Some (xlo, xhi)) (Some (zlo, zhi)) = Ok (PyArray (IntArray m)) /\
    NoDup m /\
    forall i, In i m <->
      0 <= i < len (tracks rssa) /\
      (flt zlo (nth (Z.to_nat i) (z rssa) fzero) = true /\
       flt (nth (Z.to_nat i) (z rssa) fzero) zhi = true) /\
      let v := fmul (np_linalg_norm2 x0 y0)
                    (np_angle (nth (Z.to_nat i) (x rssa) fzero)
                              (nth (Z.to_nat i) (y rssa) fzero)) in
      flt xlo v = true /\ flt v xhi = true.
Proof.
  intros Hx Hy. unfold location_mask.
  destruct (axial_mask_spec zlo zhi) as (m & Hm & _ & Hin).
  rewrite Hm. cbn [bind]. rewrite Hx, Hy. cbn [bind].
  destruct (perimeter_mask_spec (np_linalg_norm2 x0 y0) m xlo xhi)
    as (r & Hr & Hnd & Hinr).
  rewrite Hr. exists r. split; [reflexivity|]. split; [exact Hnd|].
  intros i. rewrite Hinr, Hin. cbv zeta. tauto.
Qed.

End Filters.

(** * float64: the comparisons and what they give the masks *)

Ltac rank_tac :=
  repeat match goal with
         | H : _ \/ (_, _, _) = (_, _, _) |- _ => destruct H as [H|H]
         | H : (_, _, _) = (_, _, _) |- _ => inversion H; clear H
         end;
  first [reflexivity | discriminate | lia | left; lia
        | right; repeat f_equal; lia].

Lemma SFcompare_rank (x y : spec_float) :
  x <> S754_nan -> y <> S754_nan ->
  (SFltb x y = true <-> lex_lt (sf_rank x) (sf_rank y)) /\
  (SFleb x y = true <-> lex_lt (sf_rank x) (sf_rank y) \/ sf_rank x = sf_rank y).
Proof.
  intros Hx Hy. unfold SFltb, SFleb.
  destruct x as [sx|sx| |sx mx ex]; try contradiction;
    destruct y as [sy|sy| |sy my ey]; try contradiction;
    try destruct sx; try destruct sy; cbn [SFcompare sf_rank lex_lt];
    try (split; split; intros H; rank_tac).
  - change (PosDef.Pos.compare_cont Eq mx my) with (Pos.compare mx my).
    destruct (Z.compare_spec ex ey) as [He|He|He];
      [destruct (Pos.compare_spec mx my) as [Hm|Hm|Hm]|..];
      cbn [CompOpp]; split; split; intros H; rank_tac.
  - change (PosDef.Pos.compare_cont Eq mx my) with (Pos.compare mx my).
    destruct (Z.compare_spec ex ey) as [He|He|He];
      [destruct (Pos.compare_spec mx my) as [Hm|Hm|Hm]|..];
      split; split; intros H; rank_tac.
Qed.

Lemma is_nan_spec (x : float) : PrimFloat.is_nan x = true <-> Prim2SF x = S754_nan.
Proof.
  unfold PrimFloat.is_nan. rewrite FloatAxioms.eqb_spec. unfold SFeqb.
  destruct (Prim2SF x) as [s|s| |s m e]; cbn [SFcompare negb];
    try (split; [discriminate|discriminate]); try (split; reflexivity).
  - destruct s; split; discriminate.
  - change (PosDef.Pos.compare_cont Eq m m) with (Pos.compare m m).
    rewrite Z.compare_refl, Pos.compare_refl. destruct s; split; discriminate.
Qed.

Lemma is_nan_false (x : float) : PrimFloat.is_nan x = false <-> Prim2SF x <> S754_nan.
Proof.
  rewrite <- is_nan_spec. destruct (PrimFloat.is_nan x); split; congruence.
Qed.

Lemma is_nan_abs (x : float) : PrimFloat.is_nan (abs x) = PrimFloat.is_nan x.
Proof.
  destruct (PrimFloat.is_nan x) eqn:E.
  - apply is_nan_spec. apply is_nan_spec in E. rewrite FloatAxioms.abs_spec, E.
    reflexivity.
  - apply is_nan_false. apply is_nan_false in E. rewrite FloatAxioms.abs_spec.
    destruct (Prim2SF x); cbn [SFabs]; congruence.
Qed.

Lemma ltb_nan_l (x y : float) : PrimFloat.is_nan x = true -> (x <? y)%float = false.
Proof.
  intros H. apply is_nan_spec in H. rewrite FloatAxioms.ltb_spec, H. reflexivity.
Qed.

Lemma ltb_nan_r (x y : float) : PrimFloat.is_nan y = true -> (x <? y)%float = false.
Proof.
  intros H. apply is_nan_spec in H. rewrite FloatAxioms.ltb_spec, H.
  unfold SFltb. destruct (Prim2SF x); reflexivity.
Qed.

Lemma leb_nan_r (x y : float) : PrimFloat.is_nan y = true -> (x <=? y)%float = false.
Proof.
  intros H. apply is_nan_spec in H. rewrite FloatAxioms.leb_spec, H.
  unfold SFleb. destruct (Prim2SF x); reflexivity.
Qed.

(** [x < y] and [y <= x] exclude each other, and one of them holds unless
    a NaN is compared. *)
Lemma ltb_leb (x y : float) :
  PrimFloat.is_nan x = false -> PrimFloat.is_nan y = false ->
  (x <? y)%float = negb (y <=? x)%float.
Proof.
  intros Hx Hy. apply is_nan_false in Hx, Hy.
  rewrite FloatAxioms.ltb_spec, FloatAxioms.leb_spec.
  destruct (SFcompare_rank _ _ Hx Hy) as [Hlt _].
  destruct (SFcompare_rank _ _ Hy Hx) as [_ Hle].
  destruct (SFltb (Prim2SF x) (Prim2SF y)) eqn:E1;
    destruct (SFleb (Prim2SF y) (Prim2SF x)) eqn:E2; try reflexivity; exfalso.
  - assert (H1 : lex_lt (sf_rank (Prim2SF x)) (sf_rank (Prim2SF y))) by now apply Hlt.
    assert (H2 : lex_lt (sf_rank (Prim2SF y)) (sf_rank (Prim2SF x))
                 \/ sf_rank (Prim2SF y) = sf_rank (Prim2SF x)) by now apply Hle.
    destruct (sf_rank (Prim2SF x)) as [[a1 a2] a3].
    destruct (sf_rank (Prim2SF y)) as [[b1 b2] b3].
    cbn [lex_lt] in *. destruct H2 as [H2|H2]; [lia|inversion H2; lia].
  - assert (H1 : ~ lex_lt (sf_rank (Prim2SF x)) (sf_rank (Prim2SF y)))
      by (intros H; apply Hlt in H; congruence).
    assert (H2 : ~ (lex_lt (sf_rank (Prim2SF y)) (sf_rank (Prim2SF x))
                    \/ sf_rank (Prim2SF y) = sf_rank (Prim2SF x)))
      by (intros H; apply Hle in H; congruence).
    destruct (sf_rank (Prim2SF x)) as [[a1 a2] a3].
    destruct (sf_rank (Prim2SF y)) as [[b1 b2] b3].
    cbn [lex_lt] in *.
    destruct (Z.eq_dec a1 b1) as [->|]; [|lia].
    destruct (Z.eq_dec a2 b2) as [->|]; [|lia].
    destruct (Z.eq_dec a3 b3) as [->|]; [|lia].
    apply H2. now right.
Qed.

(** [<] is transitive. *)
Lemma ltb_trans (x y z : float) :
  (x <? y)%float = true -> (y <? z)%float = true -> (x <? z)%float = true.
Proof.
  intros H1 H2.
  assert (Hx : PrimFloat.is_nan x = false)
    by (destruct (PrimFloat.is_nan x) eqn:E; [rewrite ltb_nan_l in H1|]; congruence).
  assert (Hy : PrimFloat.is_nan y = false)
    by (destruct (PrimFloat.is_nan y) eqn:E; [rewrite ltb_nan_l in H2|]; congruence).
  assert (Hz : PrimFloat.is_nan z = false)
    by (destruct (PrimFloat.is_nan z) eqn:E; [rewrite ltb_nan_r in H2|]; congruence).
  apply is_nan_false in Hx, Hy, Hz.
  rewrite FloatAxioms.ltb_spec in *.
  apply (SFcompare_rank _ _ Hx Hy) in H1. apply (SFcompare_rank _ _ Hy Hz) in H2.
  apply (SFcompare_rank _ _ Hx Hz).
  destruct (sf_rank (Prim2SF x)) as [[a1 a2] a3].
  destruct (sf_rank (Prim2SF y)) as [[b1 b2] b3].
  destruct (sf_rank (Prim2SF z)) as [[c1 c2] c3].
  cbn [lex_lt] in *. lia.
Qed.

Lemma where_from_split {A} (f g : A -> bool) (l : list A) (i : Z) :
  Forall (fun v => f v = negb (g v)) l ->
  (length (where_from i (map f l)) + length (where_from i (map g l)))%nat = length l.
Proof.
  intros H. revert i. induction H as [|v l Hv _ IH]; intros i; [reflexivity|].
  cbn [map where_from]. rewrite Hv. specialize (IH (i + 1)).
  destruct (g v); cbn [negb length]; lia.
Qed.

Lemma flag_threshold_not_nan :
  PrimFloat.is_nan (@of_int float B64 900000000) = false.
Proof. vm_compute. reflexivity. Qed.

Lemma flag_kinds (b : float) :
  PrimFloat.is_nan b = false ->
  @flt float B64 (@fabs float B64 b) (@of_int float B64 900000000)
  = negb (@fle float B64 (@of_int float B64 900000000) (@fabs float B64 b)).
Proof.
  intros H. cbn [flt fle fabs B64 binary64].
  apply ltb_leb; [now rewrite is_nan_abs|exact flag_threshold_not_nan].
Qed.

(** ** get_info *)

Lemma rssa_type_no_track (r : RSSA float) :
  tracks r = [] ->
  @rssa_type float B64 r
  = if 1 <? len (surfaces (parameters r)) then multiple else plane.
Proof.
  intros H. unfold rssa_type, x, y, column. rewrite H.
  destruct (1 <? len (surfaces (parameters r))); [reflexivity|].
  vm_compute. reflexivity.
Qed.

(** * float64: an axis of width zero *)

Lemma SFsub_near (l a b : spec_float) :
  sf_number l -> nan_or_near l a -> nan_or_near l b ->
  zero_or_nan (SFsub prec emax a b).
Proof.
  intros Hl [->|[->|[Hz Ha]]] Hb.
  - exact I.
  - destruct Hb as [->|[->|[Hz Hb]]].
    + now destruct l.
    + destruct l as [s| | |s m e]; try contradiction.
      * now destruct s.
      * cbn [SFsub]. rewrite Z.sub_diag. exact I.
    + destruct l as [s| | |]; try contradiction.
      destruct b as [t| | |]; try contradiction; [|exact I].
      now destruct s, t.
  - destruct l as [s| | |]; try contradiction.
    destruct a as [u| | |]; try contradiction; [|exact I].
    destruct Hb as [->|[->|[_ Hb]]]; [exact I|now destruct u, s|].
    destruct b as [t| | |]; try contradiction; [|exact I].
    now destruct u, t.
Qed.

Lemma SFdiv_zero_or_nan (a y : spec_float) :
  zero_or_nan a -> zero_or_nan (SFdiv prec emax a y).
Proof. destruct a; try contradiction; intros _; now destruct y. Qed.

Lemma SFmul_zero_or_nan (q d : spec_float) :
  zero_or_nan d -> zero_or_nan (SFmul prec emax q d).
Proof. destruct d; try contradiction; intros _; now destruct q. Qed.

Lemma SFadd_near (y l : spec_float) :
  zero_or_nan y -> sf_number l -> nan_or_near l (SFadd prec emax y l).
Proof.
  destruct y as [s| | |]; try contradiction; intros _ Hl.
  - destruct l as [t| | |t m e]; try contradiction.
    + right; right. split; [exact I|]. now destruct s, t.
    + right; left. reflexivity.
  - left. reflexivity.
Qed.

Lemma SFdiv_nan (a b : spec_float) :
  zero_or_nan a -> zero_or_nan b -> SFdiv prec emax a b = S754_nan.
Proof.
  destruct a; try contradiction; destruct b; try contradiction; reflexivity.
Qed.

Lemma is_finite_number (x : float) :
  PrimFloat.is_finite x = true -> sf_number (Prim2SF x).
Proof.
  unfold PrimFloat.is_finite, PrimFloat.is_nan, PrimFloat.is_infinity.
  rewrite !FloatAxioms.eqb_spec, FloatAxioms.abs_spec.
  change (Prim2SF infinity) with (S754_infinity false).
  destruct (Prim2SF x) as [s|[|]| |s m e]; cbn; try discriminate; auto.
Qed.

Lemma astype_int_nan (q : float) :
  Prim2SF q = S754_nan -> float_astype_int q = - 2 ^ 63.
Proof. unfold float_astype_int. now intros ->. Qed.

Lemma arange_two (n : Z) :
  1 <= n -> exists rest, arange (n + 1) = 0 :: 1 :: rest.
Proof.
  intros Hn. unfold arange.
  replace (Z.to_nat (n + 1)) with (S (S (Z.to_nat (n - 1)))) by lia.
  cbn [seq map]. eexists. reflexivity.
Qed.

Section FlatAxis.
Variables (libm_atan2 : float -> float -> float)
          (blas_ddot : list float -> list float -> float).
Let B : Arith float := binary64 libm_atan2 blas_ddot.
Local Existing Instance B.

(** The axis laid over an interval reduced to the finite number [lo]: some
    edges, then [lo]; the first two edges are [lo] (a zero for a zero) or a
    NaN. *)
Lemma np_linspace_flat (lo : float) (n : Z) :
  1 <= n -> PrimFloat.is_finite lo = true ->
  exists l0 a1 rest,
    np_linspace lo lo (n + 1) = Ok (l0 :: a1 :: rest) /\
    len (l0 :: a1 :: rest) = n + 1 /\
    getitem (l0 :: a1 :: rest) (-1) = Ok lo /\
    nan_or_near (Prim2SF lo) (Prim2SF l0) /\
    nan_or_near (Prim2SF lo) (Prim2SF a1).
Proof.
  intros Hn Hfin. pose proof (is_finite_number lo Hfin) as Hl.
  assert (Hd : zero_or_nan (Prim2SF (lo - lo)%float)).
  { rewrite FloatAxioms.sub_spec.
    apply (SFsub_near (Prim2SF lo)); [exact Hl| |]; right; left; reflexivity. }
  assert (Hedge : exists f : float -> float,
             (forall v, zero_or_nan (Prim2SF (f v))) /\
             np_linspace lo lo (n + 1) =
             Ok (set_last (map (fun v => (v + lo)%float)
                               (map f (map float_of_Z (arange (n + 1))))) lo)).
  { unfold np_linspace. destruct (Z.ltb_spec (n + 1) 0); [lia|].
    replace (n + 1 - 1) with n by lia.
    destruct (Z.ltb_spec 0 n); [|lia]. destruct (Z.ltb_spec 1 (n + 1)); [|lia].
    cbn [fsub fdiv fmul fadd feq of_int B binary64].
    destruct (PrimFloat.eqb _ _).
    - exists (fun v => (v / float_of_Z n * (lo - lo))%float). split; [|reflexivity].
      intros v. rewrite FloatAxioms.mul_spec. now apply SFmul_zero_or_nan.
    - exists (fun v => (v * ((lo - lo) / float_of_Z n))%float). split; [|reflexivity].
      intros v. rewrite FloatAxioms.mul_spec. apply SFmul_zero_or_nan.
      rewrite FloatAxioms.div_spec. now apply SFdiv_zero_or_nan. }
  destruct Hedge as (f & Hf & Hax).
  assert (Hnear : forall v, nan_or_near (Prim2SF lo) (Prim2SF (f v + lo)%float)).
  { intros v. rewrite FloatAxioms.add_spec. apply SFadd_near; [apply Hf|exact Hl]. }
  pose proof (np_linspace_length _ _ _ _ Hax) as [_ Hlen].
  assert (Hlast : getitem (set_last (map (fun v => (v + lo)%float)
                     (map f (map float_of_Z (arange (n + 1))))) lo) (-1) = Ok lo).
  { apply getitem_last; [exact lo|].
    destruct (arange_two n Hn) as (rest & ->). discriminate. }
  revert Hax Hlen Hlast. destruct (arange_two n Hn) as (rest & ->). cbn [map].
  destruct rest as [|r rest].
  - cbn [map set_last]. intros Hax Hlen Hlast.
    exists (f (float_of_Z 0) + lo)%float, lo, []. repeat split; try assumption.
    + apply Hnear.
    + right; left; reflexivity.
  - cbn [map].
    match goal with
    | |- context [set_last (?e0 :: ?e1 :: ?t) lo] =>
      change (set_last (e0 :: e1 :: t) lo) with (e0 :: e1 :: set_last t lo)
    end.
    intros Hax Hlen Hlast. eexists _, _, _.
    split; [exact Hax|]. split; [exact Hlen|]. split; [exact Hlast|].
    split; apply Hnear.
Qed.

(** On an axis whose first two edges are [lo] or a NaN, [closest] gives
    the index [-2^63] to the value [lo]. *)
Lemma closest_flat (lo l0 a1 : float) (rest values : list float) :
  PrimFloat.is_finite lo = true ->
  nan_or_near (Prim2SF lo) (Prim2SF l0) ->
  nan_or_near (Prim2SF lo) (Prim2SF a1) ->
  0 <= len (l0 :: a1 :: rest) - 1 ->
  Forall (fun v => v = lo) values ->
  closest (l0 :: a1 :: rest) values = Ok (map (fun _ => - 2 ^ 63) values).
Proof.
  intros Hfin H0 H1 Hlen Hv. pose proof (is_finite_number lo Hfin) as Hl.
  unfold closest. rewrite getitem_head. cbn [bind].
  rewrite (getitem_nth _ 1 lo)
    by (unfold len in *; cbn [length] in *; lia).
  change (nth (Z.to_nat 1) (l0 :: a1 :: rest) lo) with a1. cbn [bind].
  rewrite !map_map. f_equal. apply map_ext_in. intros v Hin.
  rewrite Forall_forall in Hv. rewrite (Hv v Hin).
  cbn [fsub fdiv astype_int B binary64].
  rewrite astype_int_nan.
  - destruct (Z.eqb_spec (- 2 ^ 63) (len (l0 :: a1 :: rest) - 1)); [lia|reflexivity].
  - rewrite FloatAxioms.div_spec, !FloatAxioms.sub_spec. apply SFdiv_nan.
    + apply (SFsub_near (Prim2SF lo)); [exact Hl|right; left; reflexivity|exact H0].
    + apply (SFsub_near (Prim2SF lo)); assumption.
Qed.

End FlatAxis.

(** * Bin counts that are zero or negative *)

Section BinCounts.
Context {F : Type} {arith : Arith F}.
Variable rssa : RSSA F.

Lemma np_linspace_Ok (start stop : F) (num : Z) :
  0 <= num -> exists axis, np_linspace start stop num = Ok axis /\ len axis = num.
Proof.
  intros H. destruct (np_linspace start stop num) as [axis|e] eqn:E.
  - exists axis. split; [reflexivity|]. exact (proj2 (np_linspace_length _ _ _ _ E)).
  - unfold np_linspace in E. destruct (Z.ltb_spec num 0); [lia|discriminate E].
Qed.

Lemma np_linspace_negative (start stop : F) (num : Z) :
  num < 0 -> np_linspace start stop num = Raise (ValueError NegativeSamples).
Proof.
  intros H. unfold np_linspace. destruct (Z.ltb_spec num 0); [reflexivity|lia].
Qed.

Lemma closest_short (axis values : list F) :
  len axis < 2 -> closest axis values = Raise IndexError.
Proof.
  intros H. unfold closest.
  destruct axis as [|a [|b axis]]; [reflexivity|reflexivity|].
  unfold len in H. cbn [length] in H. lia.
Qed.

Lemma closest_long (axis values : list F) :
  2 <= len axis -> exists idx, closest axis values = Ok idx.
Proof.
  intros H. unfold closest.
  destruct axis as [|a [|b axis]]; [unfold len in H; cbn in H; lia..|].
  rewrite getitem_head.
  rewrite (getitem_nth (a :: b :: axis) 1 a)
    by (unfold len in *; cbn [length] in *; lia).
  cbn [bind]. eauto.
Qed.

Lemma np_min_cons (v : F) (l : list F) : exists m, np_min (v :: l) = Ok m.
Proof. cbn [np_min]. eauto. Qed.

Lemma np_max_cons (v : F) (l : list F) : exists m, np_max (v :: l) = Ok m.
Proof. cbn [np_max]. eauto. Qed.

End BinCounts.

(** * The menu *)

(** ** Computations on the terminal *)

Lemma returns_ret {A} (a : A) (Q : A -> Prop) : Q a -> returns (io_ret a) Q.
Proof. intros H w a' w' E. injection E as <- _. exact H. Qed.

Lemma returns_raise {A} (e : py_exn) (Q : A -> Prop) : returns (io_raise e) Q.
Proof. intros w a w' E. discriminate E. Qed.

Lemma returns_bind {A B} (c : io A) (k : A -> io B) (Q : B -> Prop) :
  (forall a, returns (k a) Q) -> returns (io_bind c k) Q.
Proof.
  intros H w b w' E. unfold io_bind in E.
  destruct (c w) as [[a|e] w1]; [exact (H a w1 b w' E)|discriminate E].
Qed.

Lemma returns_bind_with {A B} (c : io A) (k : A -> io B) (P : A -> Prop)
      (Q : B -> Prop) :
  returns c P -> (forall a, P a -> returns (k a) Q) -> returns (io_bind c k) Q.
Proof.
  intros Hc H w b w' E. unfold io_bind in E.
  destruct (c w) as [[a|e] w1] eqn:Ec; [|discriminate E].
  exact (H a (Hc w a w1 Ec) w1 b w' E).
Qed.

Lemma returns_try {A} (c handler : io A) (Q : A -> Prop) :
  returns c Q -> returns handler Q -> returns (try_ValueError c handler) Q.
Proof.
  intros Hc Hh w a w' E. unfold try_ValueError in E.
  destruct (c w) as [[a1|e] w1] eqn:Ec.
  - injection E as <- <-. exact (Hc w a1 w1 Ec).
  - destruct (is_ValueError e); [exact (Hh w1 a w' E)|discriminate E].
Qed.

Lemma reads_ret {A} (a : A) : reads (io_ret a).
Proof. intros w r w' E. injection E as _ <-. lia. Qed.

Lemma reads_raise {A} (e : py_exn) : reads (@io_raise A e).
Proof. intros w r w' E. injection E as _ <-. lia. Qed.

Lemma reads_lift {A} (r : res A) : reads (io_lift r).
Proof. intros w r' w' E. injection E as _ <-. lia. Qed.

Lemma reads_print (t : text) : reads (print t).
Proof. intros w r w' E. injection E as _ <-. cbn. lia. Qed.

Lemma reads_clear : reads clear_screen.
Proof. intros w r w' E. injection E as _ <-. cbn. lia. Qed.

Lemma reads_input (prompt : string) : reads (input prompt).
Proof.
  intros w r w' E. unfold input in E.
  destruct (stdin w) as [|line rest]; injection E as _ <-; cbn; lia.
Qed.

Lemma reads_bind {A B} (c : io A) (k : A -> io B) :
  reads c -> (forall a, reads (k a)) -> reads (io_bind c k).
Proof.
  intros Hc Hk w r w' E. unfold io_bind in E.
  destruct (c w) as [[a|e] w1] eqn:Ec.
  - specialize (Hc w _ w1 Ec). specialize (Hk a w1 r w' E). lia.
  - injection E as _ <-. exact (Hc w _ w1 Ec).
Qed.

Lemma reads_try {A} (c handler : io A) :
  reads c -> reads handler -> reads (try_ValueError c handler).
Proof.
  intros Hc Hh w r w' E. unfold try_ValueError in E.
  destruct (c w) as [[a|e] w1] eqn:Ec.
  - injection E as _ <-. exact (Hc w _ w1 Ec).
  - specialize (Hc w _ w1 Ec).
    destruct (is_ValueError e); [specialize (Hh w1 r w' E); lia|].
    injection E as _ <-. exact Hc.
Qed.

Ltac reads_tac :=
  repeat first
    [ apply reads_ret | apply reads_raise | apply reads_lift | apply reads_print
    | apply reads_clear | apply reads_input
    | apply reads_bind; [|intros]
    | apply reads_try
    | match goal with
      | |- reads (match ?v with _ => _ end) => destruct v
      | |- reads (if ?v then _ else _) => destruct v
      end ].

(** ** select_rssa_index *)

Lemma select_loop_spec (env : Env) (names lines : list string) (out : list out_item)
      (r : res Z) (w' : world) :
  select_loop env names lines out = (r, w') ->
  (length (stdin w') <= length lines)%nat /\
  (forall idx, r = Ret idx -> 0 <= idx < len names).
Proof.
  revert out. induction lines as [|inp rest IH]; intros out E; cbn [select_loop] in E.
  - injection E as <- <-. split; [cbn; lia|discriminate].
  - destruct (env_int env inp) as [idx|].
    + destruct ((0 <=? idx) && (idx <? len names)) eqn:Hin.
      * injection E as <- <-. split; [cbn; lia|].
        intros i Hi. injection Hi as <-. lia.
      * destruct (IH _ E) as [H1 H2]. split; [cbn [length]; lia|exact H2].
    + destruct (IH _ E) as [H1 H2]. split; [cbn [length]; lia|exact H2].
Qed.

Lemma reads_select (env : Env) (m : Menu) : reads (select_rssa_index env m).
Proof.
  intros w r w' E. unfold select_rssa_index in E.
  destruct (len (rssa_list m) =? 1); [injection E as _ <-; lia|].
  exact (proj1 (select_loop_spec _ _ _ _ _ _ E)).
Qed.

Lemma select_rssa_index_range (env : Env) (m : Menu) :
  returns (select_rssa_index env m) (fun idx => 0 <= idx < len (rssa_list m)).
Proof.
  intros w idx w' E. unfold select_rssa_index in E.
  destruct (Z.eqb_spec (len (rssa_list m)) 1) as [H1|H1].
  - injection E as <- _. lia.
  - pose proof (proj2 (select_loop_spec _ _ _ _ _ _ E) idx eq_refl) as H.
    unfold rssa_filenames, len in *. rewrite length_map in H. exact H.
Qed.

(** ** What a command leaves of the menu *)

Lemma go_main_menu_list (m : Menu) (sub : option text) :
  rssa_list (go_main_menu m sub) = rssa_list m /\ command (go_main_menu m sub) = RUN.
Proof. split; reflexivity. Qed.

Lemma returns_try_plot (m : Menu) (call : io unit) : returns (try_plot m call) (back m).
Proof.
  unfold try_plot.
  apply (returns_bind_with _ _ (fun m' => rssa_list m' = rssa_list m)).
  - apply returns_try.
    + apply returns_bind. intros _. now apply returns_ret.
    + now apply returns_ret.
  - intros m' H. apply returns_ret. split; [exact H|reflexivity].
Qed.

Lemma returns_info (env : Env) (m : Menu) : returns (command_info env m) (back m).
Proof.
  unfold command_info.
  destruct (len (rssa_list m) =? 0); [apply returns_ret; split; reflexivity|].
  do 3 (apply returns_bind; intros).
  apply returns_ret. split; reflexivity.
Qed.

Lemma returns_plot (env : Env) (m : Menu) : returns (command_plot env m) (back m).
Proof.
  unfold command_plot.
  destruct (len (rssa_list m) =? 0); [apply returns_ret; split; reflexivity|].
  apply returns_bind; intros idx. apply returns_bind; intros rssa.
  destruct (rssa_type rssa); try (apply returns_ret; split; reflexivity).
  do 4 (apply returns_bind; intros).
  apply returns_try_plot.
Qed.

Lemma returns_custom_plot (env : Env) (m : Menu) :
  returns (command_custom_plot env m) (back m).
Proof.
  unfold command_custom_plot.
  destruct (len (rssa_list m) =? 0); [apply returns_ret; split; reflexivity|].
  apply returns_bind; intros idx. apply returns_bind; intros rssa.
  destruct (rssa_type rssa); try (apply returns_ret; split; reflexivity).
  do 7 (apply returns_bind; intros).
  eapply returns_bind_with; [apply returns_try_plot|].
  intros m' [Hl _]. apply returns_ret. split; [exact Hl|reflexivity].
Qed.

Lemma returns_open (env : Env) (m : Menu) :
  returns (command_open env m)
    (fun m' => command m' = RUN /\
               (rssa_list m' = rssa_list m \/
                exists rssa, rssa_list m' = rssa_list m ++ [rssa] /\
                             ~ In (filename rssa) (rssa_filenames m))).
Proof.
  unfold command_open. apply returns_bind. intros name.
  destruct (existsb (String.eqb name) (rssa_filenames m)) eqn:Hex;
    [apply returns_ret; split; [reflexivity|now left]|].
  unfold RSSA_init.
  destruct (env_files env name) as [| |f];
    try (apply returns_ret; split; [reflexivity|now left]);
    try apply returns_raise.
  destruct (read_rssa f) as [[p t]|e]; [|apply returns_raise].
  apply returns_ret. split; [reflexivity|right].
  eexists. split; [reflexivity|]. cbn [filename].
  intros Hin.
  assert (existsb (String.eqb name) (rssa_filenames m) = true).
  { apply existsb_exists. exists name. split; [exact Hin|apply String.eqb_refl]. }
  congruence.
Qed.

Lemma command_run_reads (m : Menu) (w : world) (m' : Menu) (w' : world) :
  command_run m w = (Ret m', w') ->
  rssa_list m' = rssa_list m /\ length (stdin w) = S (length (stdin w')).
Proof.
  unfold command_run, get_command, io_bind, clear_screen, print, input, io_ret.
  cbn [stdin stdout]. intros E.
  destruct (truthy (subtext m)); cbn [stdin stdout] in E;
    destruct (stdin w) as [|line rest]; try discriminate E;
    injection E as <- <-; cbn [stdin];
    (split; [destruct (Command_of line); reflexivity|reflexivity]).
Qed.

Lemma reads_call_plot (env : Env) (rssa : RSSA float) (p zi ti si : string)
      (vr xr zr : option (float * float)) :
  reads (call_plot env rssa p zi ti si vr xr zr).
Proof. unfold call_plot. reads_tac. Qed.

Lemma reads_ask_range (env : Env) (prompt none_selected : string) :
  reads (ask_range env prompt none_selected).
Proof. unfold ask_range. reads_tac. Qed.

Lemma reads_turn (env : Env) (m : Menu) : reads (turn env m).
Proof.
  unfold turn. destruct (command m).
  - unfold command_run, get_command. reads_tac.
  - unfold command_open. reads_tac.
  - unfold command_info, chosen.
    destruct (len (rssa_list m) =? 0); [apply reads_ret|].
    apply reads_bind; [apply reads_select|intros]. reads_tac.
  - unfold command_plot, chosen, try_plot.
    destruct (len (rssa_list m) =? 0); [apply reads_ret|].
    apply reads_bind; [apply reads_select|intros].
    apply reads_bind; [apply reads_lift|intros].
    destruct (rssa_type a0); try apply reads_ret.
    do 4 (apply reads_bind; [apply reads_input|intros]).
    apply reads_bind; [|intros; apply reads_ret].
    apply reads_try; [|apply reads_ret].
    apply reads_bind; [apply reads_call_plot|intros; apply reads_ret].
  - unfold command_custom_plot, chosen, try_plot.
    destruct (len (rssa_list m) =? 0); [apply reads_ret|].
    apply reads_bind; [apply reads_select|intros].
    apply reads_bind; [apply reads_lift|intros].
    destruct (rssa_type a0); try apply reads_ret.
    do 4 (apply reads_bind; [apply reads_input|intros]).
    do 3 (apply reads_bind; [apply reads_ask_range|intros]).
    apply reads_bind; [|intros; apply reads_ret].
    apply reads_bind; [|intros; apply reads_ret].
    apply reads_try; [|apply reads_ret].
    apply reads_bind; [apply reads_call_plot|intros; apply reads_ret].
  - apply reads_ret.
Qed.

(** A turn on a command other than [RUN] and [END] comes back to [RUN]
    and keeps the files, but for the file a command [OPEN] adds. *)
Lemma turn_back (env : Env) (m : Menu) (w : world) (m' : Menu) (w' : world) :
  command m <> RUN -> command m <> END ->
  turn env m w = (Ret m', w') ->
  command m' = RUN /\
  (rssa_list m' = rssa_list m \/
   exists rssa, rssa_list m' = rssa_list m ++ [rssa] /\
                ~ In (filename rssa) (rssa_filenames m)).
Proof.
  intros Hr He E. unfold turn in E. destruct (command m); try contradiction.
  - exact (returns_open env m w m' w' E).
  - destruct (returns_info env m w m' w' E) as [Hl Hc]. auto.
  - destruct (returns_plot env m w m' w' E) as [Hl Hc]. auto.
  - destruct (returns_custom_plot env m w m' w' E) as [Hl Hc]. auto.
Qed.

(** ** The loop *)

Lemma loop_END (env : Env) (fuel : nat) (m : Menu) (w : world) :
  command m = END ->
  loop env (S fuel) m w
  = Some (Ret m, {| stdin := stdin w; stdout := stdout w ++ [goodbye] |}).
Proof. intros H. cbn [loop]. rewrite H. reflexivity. Qed.

Lemma loop_turn (env : Env) (fuel : nat) (m : Menu) (w : world) :
  command m <> END ->
  loop env (S fuel) m w
  = match turn env m w with
    | (Ret m', w') => loop env fuel m' w'
    | (Exc e, w') => Some (Exc e, w')
    end.
Proof. intros H. cbn [loop]. destruct (command m); try reflexivity. contradiction. Qed.

(** The turns a menu still needs at most. *)
Lemma loop_stops (env : Env) (fuel : nat) (m : Menu) (w : world) :
  (2 * length (stdin w) + match command m with RUN => 0 | _ => 1 end < fuel)%nat ->
  exists r w',
    loop env fuel m w = Some (r, w') /\
    (length (stdin w') <= length (stdin w))%nat /\
    forall m', r = Ret m' ->
               command m' = END /\ exists out, stdout w' = out ++ [goodbye].
Proof.
  revert m w. induction fuel as [|fuel IH]; intros m w Hf; [lia|].
  destruct (command m) eqn:Hc.
  6:{ rewrite loop_END by exact Hc. eexists. eexists. split; [reflexivity|].
      split; [cbn; lia|]. intros m' E. injection E as <-. split; [exact Hc|].
      cbn [stdout]. eauto. }
  all: rewrite loop_turn by congruence;
    destruct (turn env m w) as [[m1|e] w1] eqn:Et;
    [|exists (Exc e), w1; split; [reflexivity|];
      split; [exact (reads_turn env m w _ _ Et)|discriminate]].
  1:{ unfold turn in Et. rewrite Hc in Et.
      destruct (command_run_reads _ _ _ _ Et) as [_ Hl].
      destruct (IH m1 w1) as (r & w' & E & Hle & Hend);
        [destruct (command m1); lia|].
      exists r, w'. split; [exact E|]. split; [lia|exact Hend]. }
  all: destruct (turn_back env m w m1 w1 ltac:(congruence) ltac:(congruence) Et)
         as [Hr _];
    pose proof (reads_turn env m w _ _ Et) as Hl;
    destruct (IH m1 w1) as (r & w' & E & Hle & Hend); [rewrite Hr; lia|];
    exists r, w'; split; [exact E|]; split; [lia|exact Hend].
Qed.

Lemma loop_more_fuel (env : Env) (fuel fuel' : nat) (m : Menu) (w : world)
      (r : res Menu * world) :
  loop env fuel m w = Some r -> (fuel <= fuel')%nat -> loop env fuel' m w = Some r.
Proof.
  revert fuel' m w. induction fuel as [|fuel IH]; intros fuel' m w E Hf;
    [discriminate E|].
  destruct fuel' as [|fuel']; [lia|].
  destruct (command m) eqn:Hc;
    try (rewrite loop_turn in * by congruence;
         destruct (turn env m w) as [[m1|e] w1]; [apply IH; [exact E|lia]|exact E]).
  rewrite loop_END in * by exact Hc. exact E.
Qed.

Lemma loop_files (env : Env) (fuel : nat) (m : Menu) (w : world) (m' : Menu)
      (w' : world) :
  loop env fuel m w = Some (Ret m', w') ->
  (exists l, rssa_list m' = rssa_list m ++ l) /\
  (NoDup (rssa_filenames m) -> NoDup (rssa_filenames m')).
Proof.
  revert m w. induction fuel as [|fuel IH]; intros m w E; [discriminate E|].
  destruct (command m) eqn:Hc.
  6:{ rewrite loop_END in E by exact Hc. injection E as <- _.
      split; [exists []; now rewrite app_nil_r|auto]. }
  all: rewrite loop_turn in E by congruence;
    destruct (turn env m w) as [[m1|e] w1] eqn:Et; [|discriminate E];
    destruct (IH _ _ E) as [(l & Hl) Hnd].
  1:{ unfold turn in Et. rewrite Hc in Et.
      destruct (command_run_reads _ _ _ _ Et) as [H1 _].
      unfold rssa_filenames in *. rewrite H1 in *. eauto. }
  all: destruct (turn_back env m w m1 w1 ltac:(congruence) ltac:(congruence) Et)
         as [_ [H1|(rssa & H1 & Hnew)]]; unfold rssa_filenames in *; rewrite H1 in *;
    [eauto|];
    (split; [exists (rssa :: l); rewrite Hl, <- app_assoc; reflexivity|]);
    intros Hm; apply Hnd; rewrite map_app; cbn [map];
    (apply NoDup_app; [exact Hm|repeat constructor; intros []|]);
    intros a Ha [<-|[]]; exact (Hnew Ha).
Qed.

(** What a call of the plotter with the perimeter range alone comes to. *)
Lemma plot_perimeter_alone (env : Env) (rssa : RSSA float) (particle : string)
      (zi ti : Z) (si : float) (vr : option (float * float)) (xr : float * float) :
  exists e, @plot_current_cyl float (env_arith env) rssa particle zi ti si vr
              (Some xr) None = Raise e /\
            (e = TypeError \/ e = IndexError \/ e = ValueError ParticleKind).
Proof.
  destruct xr as [lo hi]. unfold plot_current_cyl.
  destruct (@location_mask_perimeter_only float (env_arith env) rssa lo hi) as [HR HO].
  destruct (location_mask rssa (Some (lo, hi)) None) as [m|e] eqn:E; cbn [bind].
  - destruct (HO m eq_refl) as (l & ->). apply generate_figures_objects_mask.
  - exists e. split; [reflexivity|]. destruct (HR e eq_refl) as [->| ->]; auto.
Qed.

(** * Further properties of the reader *)

(** X1: [read_fortran_record] returns a payload exactly when the file
    starts with a four-byte marker, that many bytes of payload and a second
    marker of the same value; it returns that payload and leaves the file at
    the byte after the second marker. *)
Theorem record_layout (f : stream) (data rest : list byte) :
  read_fortran_record f = Ok (data, rest) <->
  exists pre suf,
    f = pre ++ data ++ suf ++ rest /\
    length pre = 4%nat /\ length suf = 4%nat /\
    int32_of_bytes pre = len data /\ int32_of_bytes suf = len data.
Proof. apply read_fortran_record_Ok_iff. Qed.

(** X2: a record that is cut short is an [IndexError], not the
    [ValueError] of a frame error: [read_fortran_record] raises [IndexError]
    exactly when the file has fewer than four bytes, or the first marker is
    negative, or the file ends before the end of the second marker. *)
Theorem record_truncated (f : stream) :
  read_fortran_record f = Raise IndexError <->
  (length f < 4)%nat \/
  int32_of_bytes (firstn 4 f) < 0 \/
  len f < int32_of_bytes (firstn 4 f) + 8.
Proof.
  rewrite read_fortran_record_eq.
  destruct (le_lt_dec 4 (length f)) as [Hf|Hf];
    [|rewrite read_int_short by exact Hf; cbn [bind]; split; [now left|reflexivity]].
  rewrite read_int_long by exact Hf. cbn [bind].
  set (n1 := int32_of_bytes (firstn 4 f)).
  set (f1 := skipn 4 f).
  set (n := payload_size n1 f1).
  assert (Hf1 : length f1 = (length f - 4)%nat) by (unfold f1; now rewrite length_skipn).
  destruct (le_lt_dec 4 (length (skipn n f1))) as [Hs|Hs].
  - rewrite read_int_long by exact Hs. cbn [bind].
    rewrite length_skipn in Hs.
    split.
    + destruct (negb _); discriminate.
    + intros [H|[H|H]]; exfalso; [lia| |];
        unfold n, payload_size, len in *; destruct (Z.ltb_spec n1 0); lia.
  - rewrite read_int_short by exact Hs. cbn [bind].
    split; [intros _|reflexivity]. right.
    rewrite length_skipn in Hs.
    unfold n, payload_size, len in *. destruct (Z.ltb_spec n1 0); [now left|right]. lia.
Qed.

(** X3: every header of the supported form is read back: written as its
    records and followed by any bytes, it is returned by [read_header], and
    the file is left at the first of these bytes. *)
Theorem header_round_trip (text summary : list byte) (p : Parameters)
        (rest : list byte) :
  text_ok text -> header_ok p -> len summary < 2 ^ 31 ->
  read_header (encode_header text p summary ++ rest) = Ok (p, rest).
Proof. apply read_header_encode. Qed.

(** X4: [read_tracks] returns one row per record of 96 bytes, made of the
    eleven float64 values between the markers, whatever the two markers
    are. *)
Theorem tracks_round_trip (recs : list (list byte * list Z * list byte)) :
  Forall track_ok recs ->
  read_tracks (concat (map encode_track recs)) = Ok (map track_row recs).
Proof. apply read_tracks_encode. Qed.

(** X5: a file made of a header of the supported form and of track
    records is loaded by [read_rssa] as that header and the rows of these
    records. *)
Theorem file_round_trip (text summary : list byte) (p : Parameters)
        (recs : list (list byte * list Z * list byte)) :
  text_ok text -> header_ok p -> len summary < 2 ^ 31 -> Forall track_ok recs ->
  read_rssa (encode_header text p summary ++ concat (map encode_track recs))
  = Ok (p, map track_row recs).
Proof.
  intros Ht Hp Hs Hr. unfold read_rssa.
  rewrite read_header_encode by assumption. cbn [bind].
  rewrite read_tracks_encode by assumption. reflexivity.
Qed.

(** X6: the header depends on the bytes [read_header] consumes only: with
    any other bytes after them the same header is returned, and [read_rssa]
    returns it with the rows [read_tracks] makes of these bytes. *)
Theorem header_independent_of_tracks (f : stream) (p : Parameters) (rest : stream) :
  read_header f = Ok (p, rest) ->
  exists pre, f = pre ++ rest /\
    forall g, read_header (pre ++ g) = Ok (p, g) /\
              read_rssa (pre ++ g) = (t <- read_tracks g ;; Ok (p, t)).
Proof.
  intros H. destruct (read_header_prefix f p rest H) as (pre & Hf & Hg).
  exists pre. split; [exact Hf|]. intros g. split; [apply Hg|].
  unfold read_rssa. rewrite Hg. reflexivity.
Qed.

(** X7: what every decoded header holds: a negative [np1], [nrcd = 11],
    integers of the width of their field, [max(njsw, 0)] surfaces whose
    fields are int32 and whose [info] is [-1] unless [kjaq = 1], and an
    [niwr] that is not positive unless [njsw + niwr] overflows. *)
Theorem header_fields (f : stream) (p : Parameters) (rest : stream) :
  read_header f = Ok (p, rest) ->
  int64 (np1 p) /\ np1 p < 0 /\ int64 (nrss p) /\ nrcd p = 11 /\
  len (surfaces p) = Z.max 0 (njsw p) /\ int32 (njsw p) /\ int64 (niss p) /\
  int32 (niwr p) /\ (niwr p <= 0 \/ 2 ^ 31 <= njsw p + niwr p) /\
  int32 (mipts p) /\ int32 (kjaq p) /\
  Forall (surface_ok (kjaq p)) (surfaces p).
Proof.
  intros H.
  apply read_header_Ok in H
    as (s & f1 & c & f2 & w0 & m0 & k0 & f3 & surfs & f4 & summary
        & Hid & Hin & Hc & Hcd & Hnp & Hfl & Hsu & Hw & Hsm & ->).
  cbn [np1 nrss nrcd njsw niss niwr mipts kjaq surfaces].
  destruct (read_counts_range _ _ _ Hc) as (R1 & R2 & R3 & R4 & R5).
  destruct (read_flags_range _ _ _ _ _ Hfl) as (R6 & R7 & R8).
  destruct (read_surfaces_Ok _ _ _ _ _ Hsu) as [Hlen _].
  repeat (split; [first [assumption|lia]|]).
  split; [unfold len; rewrite Hlen; lia|].
  repeat (split; [first [assumption|lia]|]).
  split.
  - unfold int32 in *.
    destruct (Z_le_gt_dec w0 0) as [|Hpos]; [now left|right].
    destruct (Z_lt_ge_dec (c_njsw c + w0) (2 ^ 31)) as [Hs|Hs]; [|lia].
    rewrite wrap32_small in Hw by lia. lia.
  - repeat (split; [assumption|]). exact (read_surfaces_ok _ _ _ _ _ Hsu).
Qed.

(** * Further properties of the table and of the binner *)

Section MoreBinner.
Context {F : Type} {arith : Arith F}.
Variable rssa : RSSA F.

(** X8: the rows the binner works on are the rows of the particle kind
    that the mask lists, each of them once, whatever the order and the
    repetitions in the mask. *)
Theorem selection_rows (particle : string) (mask : option index_array)
        (sel : list Z) :
  select_rows rssa particle mask = Ok (IntArray sel) ->
  exists pm, get_particle_mask rssa particle = Ok pm /\
    NoDup sel /\
    forall i, In i sel <->
      In i pm /\ match mask with
                 | Some m => In (Some i) (as_objects m)
                 | None => True
                 end.
Proof.
  unfold select_rows. intros H.
  apply bind_Ok_inv in H as (pm & Hpm & H). exists pm. split; [exact Hpm|].
  destruct mask as [[m|m]|].
  - destruct (np_intersect1d_spec pm m) as (r & Hr & Hnd & Hin).
    rewrite Hr in H. injection H as <-. split; [exact Hnd|].
    intros i. rewrite Hin. cbn [as_objects]. rewrite in_map_iff. split.
    + intros [Ha Hb]. split; [exact Ha|]. now exists i.
    + intros [Ha (j & E & Hb)]. injection E as ->. now split.
  - apply np_intersect1d_objects in H. discriminate H.
  - injection H as <-. split; [exact (proj1 (get_particle_mask_spec rssa _ _ Hpm))|].
    intros i. tauto.
Qed.

(** X9: with an axial range and no perimeter range, [plot_current_cyl]
    bins the rows of the particle kind whose [z] lies strictly between the
    two bounds. *)
Theorem axial_filter (particle : string) (lo hi : F) (pm : list Z) :
  get_particle_mask rssa particle = Ok pm ->
  exists m sel,
    axial_mask rssa (Some (lo, hi)) = Ok (PyArray (IntArray m)) /\
    (forall z_int theta_int source_intensity value_range,
       plot_current_cyl rssa particle z_int theta_int source_intensity
                        value_range None (Some (lo, hi))
       = generate_figures_current_cyl rssa particle z_int theta_int
           source_intensity value_range (Some (IntArray m))) /\
    select_rows rssa particle (Some (IntArray m)) = Ok (IntArray sel) /\
    NoDup sel /\
    forall i, In i sel <->
      In i pm /\
      flt lo (nth (Z.to_nat i) (z rssa) fzero) = true /\
      flt (nth (Z.to_nat i) (z rssa) fzero) hi = true.
Proof.
  intros Hpm.
  destruct (axial_mask_spec rssa lo hi) as (m & Hm & _ & Hin).
  destruct (np_intersect1d_spec pm m) as (sel & Hsel & Hnd & Hs).
  exists m, sel. split; [exact Hm|]. split; [|split; [|split; [exact Hnd|]]].
  - intros. unfold plot_current_cyl, location_mask. rewrite Hm. reflexivity.
  - unfold select_rows. rewrite Hpm. cbn [bind]. exact Hsel.
  - intros i. rewrite Hs, Hin.
    pose proof (particle_mask_range rssa _ _ Hpm) as Hr.
    rewrite Forall_forall in Hr. split; [tauto|].
    intros (Hi & H1 & H2). specialize (Hr i Hi). tauto.
Qed.

(** X10: with both ranges, [plot_current_cyl] bins under the mask of the
    rows whose [z] lies strictly between the axial bounds and whose
    position along the perimeter, the radius of the first track times the
    angle of the row, lies strictly between the perimeter bounds. *)
Theorem both_ranges_filter (r0 : list F) (rest : list (list F))
        (xlo xhi zlo zhi : F) :
  tracks rssa = r0 :: rest ->
  exists m,
    location_mask rssa (Some (xlo, xhi)) (Some (zlo, zhi)) = Ok (PyArray (IntArray m)) /\
    (forall particle z_int theta_int source_intensity value_range,
       plot_current_cyl rssa particle z_int theta_int source_intensity
                        value_range (Some (xlo, xhi)) (Some (zlo, zhi))
       = generate_figures_current_cyl rssa particle z_int theta_int
           source_intensity value_range (Some (IntArray m))) /\
    NoDup m /\
    forall i, In i m <->
      0 <= i < len (tracks rssa) /\
      (flt zlo (nth (Z.to_nat i) (z rssa) fzero) = true /\
       flt (nth (Z.to_nat i) (z rssa) fzero) zhi = true) /\
      let v := fmul (np_linalg_norm2 (nth 5 r0 fzero) (nth 6 r0 fzero))
                    (np_angle (nth (Z.to_nat i) (x rssa) fzero)
                              (nth (Z.to_nat i) (y rssa) fzero)) in
      flt xlo v = true /\ flt v xhi = true.
Proof.
  intros Ht.
  destruct (location_mask_both rssa xlo xhi zlo zhi _ _
              (x_first rssa r0 rest Ht) (y_first rssa r0 rest Ht))
    as (m & Hm & Hnd & Hin).
  exists m. split; [exact Hm|]. split; [|split; [exact Hnd|exact Hin]].
  intros. unfold plot_current_cyl. rewrite Hm. reflexivity.
Qed.

(** X11: whenever the binner returns, both grids have [z_int] rows of
    [theta_int] cells, with at least one bin along each axis, and the extent
    has four entries. *)
Theorem grid_shapes (particle : string) (z_int theta_int : Z)
        (source_intensity : F) (value_range : option (F * F))
        (mask : option index_array) (out : Figures F) :
  generate_figures_current_cyl rssa particle z_int theta_int source_intensity
                               value_range mask = Ok out ->
  (1 <= z_int /\ 1 <= theta_int) /\
  grid_shape (Z.to_nat z_int) (Z.to_nat theta_int) (grid_values out) /\
  grid_shape (Z.to_nat z_int) (Z.to_nat theta_int) (error_grid out) /\
  length (extent out) = 4%nat.
Proof.
  intros H. split; [exact (generate_figures_bins rssa _ _ _ _ _ _ _ H)|].
  apply generate_figures_Ok in H
    as (sel & z_axis & theta_axis & g0 & e0 & zs & z_idx & xs & ys & theta_idx & ws
        & g & eg & x0 & y0 & t0 & tl & z0 & zl & t1 & z1 & _ & _ & Hg0 & He0 & _ & _
        & _ & _ & _ & _ & Hg & Heg & _ & _ & _ & _ & _ & _ & _ & _ & Hout).
  cbv zeta in Hout. subst out. cbn [grid_values error_grid extent].
  apply np_zeros_shape in Hg0, He0.
  split; [|split; [|reflexivity]].
  - do 3 apply map_shape. exact (np_add_at_shape _ _ _ _ _ _ _ Hg0 Hg).
  - do 2 apply map_shape. exact (np_add_at_shape _ _ _ _ _ _ _ He0 Heg).
Qed.

(** X12: the axes [calculate_grid_axes_cyl] returns have [z_int + 1] and
    [theta_int + 1] edges, and with one bin or more the last edge of an axis
    is the maximum of the selected values itself, in any arithmetic. *)
Theorem axes_end_at_maximum (z_int theta_int : Z) (sel : index_array)
        (z_axis theta_axis : list F) :
  calculate_grid_axes_cyl rssa z_int theta_int (Some sel) = Ok (z_axis, theta_axis) ->
  exists zs xs ys z_max theta_max,
    take_idx (z rssa) sel = Ok zs /\
    take_idx (x rssa) sel = Ok xs /\ take_idx (y rssa) sel = Ok ys /\
    np_max zs = Ok z_max /\ np_max (map2 np_angle xs ys) = Ok theta_max /\
    len z_axis = z_int + 1 /\ len theta_axis = theta_int + 1 /\
    (1 <= z_int -> getitem z_axis (-1) = Ok z_max) /\
    (1 <= theta_int -> getitem theta_axis (-1) = Ok theta_max).
Proof.
  intros H. apply calculate_grid_axes_Ok in H
    as (zs & xs & ys & z_min & z_max & theta_min & theta_max & Hzs & _ & Hzmax
        & Hxs & Hys & _ & Htmax & Hza & Hta).
  exists zs, xs, ys, z_max, theta_max.
  repeat (split; [assumption|]).
  split; [exact (proj2 (np_linspace_length _ _ _ _ Hza))|].
  split; [exact (proj2 (np_linspace_length _ _ _ _ Hta))|].
  split; intros Hn; eapply np_linspace_last; eauto; lia.
Qed.

(** X13: on a selection that is not empty, a negative bin count ends in
    a [ValueError] of numpy (of [linspace] or of [zeros]), and a bin count
    of zero, the other one not being negative, in an [IndexError]. *)
Theorem bin_counts_rejected (particle : string) (z_int theta_int : Z)
        (source_intensity : F) (value_range : option (F * F))
        (mask : option index_array) (i : Z) (sel : list Z) :
  select_rows rssa particle mask = Ok (IntArray (i :: sel)) ->
  (z_int < 0 \/ theta_int < 0 ->
   exists w, generate_figures_current_cyl rssa particle z_int theta_int
               source_intensity value_range mask = Raise (ValueError w) /\
             (w = NegativeSamples \/ w = NegativeDimensions)) /\
  (0 <= z_int -> 0 <= theta_int -> z_int = 0 \/ theta_int = 0 ->
   generate_figures_current_cyl rssa particle z_int theta_int
     source_intensity value_range mask = Raise IndexError).
Proof.
  intros Hsel.
  pose proof (select_rows_range rssa _ _ _ Hsel) as Hrange.
  unfold generate_figures_current_cyl. rewrite Hsel. cbn [bind].
  unfold calculate_grid_axes_cyl, take_idx.
  unfold z, x, y, wgt. rewrite !take_column by exact Hrange. cbn [bind].
  cbn [pick map map2].
  destruct (np_min_cons (nth (Z.to_nat i) (column rssa 7) fzero)
                        (pick (column rssa 7) sel)) as (zmin & Hzmin).
  destruct (np_max_cons (nth (Z.to_nat i) (column rssa 7) fzero)
                        (pick (column rssa 7) sel)) as (zmax & Hzmax).
  unfold pick in Hzmin, Hzmax. rewrite Hzmin, Hzmax. cbn [bind].
  match goal with
  | |- context [np_min (?a :: ?l)] =>
    destruct (np_min_cons a l) as (tmin & Htmin);
    destruct (np_max_cons a l) as (tmax & Htmax);
    rewrite Htmin, Htmax
  end.
  cbn [bind].
  split.
  - intros Hneg.
    destruct (Z_lt_ge_dec (z_int + 1) 0) as [Hz|Hz].
    { rewrite np_linspace_negative by exact Hz. cbn [bind]. eauto. }
    destruct (np_linspace_Ok zmin zmax (z_int + 1)) as (za & Hza & _); [lia|].
    rewrite Hza. cbn [bind].
    destruct (Z_lt_ge_dec (theta_int + 1) 0) as [Ht|Ht].
    { rewrite np_linspace_negative by exact Ht. cbn [bind]. eauto. }
    destruct (np_linspace_Ok tmin tmax (theta_int + 1)) as (ta & Hta & _); [lia|].
    rewrite Hta. cbn [bind].
    unfold np_zeros.
    assert (Hn : (z_int <? 0) || (theta_int <? 0) = true).
    { destruct Hneg as [H|H]; [destruct (Z.ltb_spec z_int 0); [reflexivity|lia]|].
      destruct (Z.ltb_spec theta_int 0); [apply orb_true_r|lia]. }
    rewrite Hn. cbn [bind]. eauto.
  - intros Hz Ht Hzero.
    destruct (np_linspace_Ok zmin zmax (z_int + 1)) as (za & Hza & Lza); [lia|].
    destruct (np_linspace_Ok tmin tmax (theta_int + 1)) as (ta & Hta & Lta); [lia|].
    rewrite Hza. cbn [bind]. rewrite Hta. cbn [bind].
    rewrite np_zeros_Ok by assumption. cbn [bind].
    destruct (Z.eq_dec z_int 0) as [Ez|Ez].
    + rewrite closest_short by lia. reflexivity.
    + destruct (closest_long za (map (fun i0 => nth (Z.to_nat i0) (column rssa 7) fzero)
                                     (i :: sel))) as (zi & Hzi); [lia|].
      cbn [map] in Hzi. rewrite Hzi. cbn [bind].
      rewrite closest_short by lia. reflexivity.
Qed.

(** X14: whenever the binner gets to its grids, a cell of the error grid is
    one over the root of the number of selected rows that fell into it,
    that number being counted in the arithmetic (a one added for each of
    them, from zero), and one over the root of one where there is none. *)
Theorem error_cells_count_rows (particle : string) (z_int theta_int : Z)
        (source_intensity : F) (value_range : option (F * F))
        (mask : option index_array) (out : Figures F) :
  generate_figures_current_cyl rssa particle z_int theta_int source_intensity
                               value_range mask = Ok out ->
  exists sel z_axis theta_axis rows cols,
    select_rows rssa particle mask = Ok (IntArray sel) /\
    calculate_grid_axes_cyl rssa z_int theta_int (Some (IntArray sel))
      = Ok (z_axis, theta_axis) /\
    closest z_axis (pick (z rssa) sel) = Ok rows /\
    closest theta_axis (map2 np_angle (pick (x rssa) sel) (pick (y rssa) sel))
      = Ok cols /\
    length rows = length sel /\ length cols = length sel /\
    forall r c, 0 <= r < z_int -> 0 <= c < theta_int ->
      let count :=
        fold_left fadd
                  (map (fun _ => fone) (landed z_int theta_int r c rows cols sel))
                  fzero in
      cell (error_grid out) r c fzero =
      fdiv fone (fsqrt (if feq count fzero then fone else count)).
Proof.
  intros H. apply generate_figures_grids in H
    as (sel & z_axis & theta_axis & rows & cols & g & eg & Hsel & Hax & Hzc & Htc
        & Lr & Lc & [Hz Ht] & H).
  cbv zeta in H. destruct H as (_ & Heg & _ & Hes & _ & Herr).
  destruct (np_add_at_cells z_int theta_int _ eg rows cols (map (fun _ => fone) rows)
              (zeros_shape (Z.to_nat z_int) (Z.to_nat theta_int)))
    as (_ & _ & Hcells);
    [lia|lia|now rewrite length_map|now rewrite length_map, Lc|exact Heg|].
  exists sel, z_axis, theta_axis, rows, cols.
  repeat (split; [assumption|]). intros r c Hr Hc. cbv zeta.
  rewrite Herr. destruct Hes as [Hel Hef].
  rewrite (cell_map _ _ r c fzero _ (Z.to_nat z_int) (Z.to_nat theta_int));
    [|now rewrite !length_map
     |rewrite !Forall_map; revert Hef; apply Forall_impl; intros;
      now rewrite !length_map|lia|lia].
  rewrite (cell_map _ _ r c fzero _ (Z.to_nat z_int) (Z.to_nat theta_int))
    by (assumption || lia).
  rewrite (Hcells r c Hr Hc), cell_zeros.
  rewrite (landed_constant _ _ r c rows cols rows sel) by exact Lr.
  reflexivity.
Qed.
End MoreBinner.


(** X16: in float64, no row is both in the neutron and in the photon
    mask; a row is in one of them exactly when its packed flag is no NaN;
    and when no flag is a NaN, the two masks together have as many entries
    as the table has rows. *)
Theorem particle_kinds_partition (r : RSSA float) :
  (forall i, In i (@mask_neutron_tracks float B64 r) ->
             ~ In i (@mask_photon_tracks float B64 r)) /\
  (forall i, 0 <= i < len (tracks r) ->
     (In i (@mask_neutron_tracks float B64 r) \/ In i (@mask_photon_tracks float B64 r)
      <-> PrimFloat.is_nan (nth (Z.to_nat i) (@column float B64 r 1) (@fzero float B64))
          = false)) /\
  (Forall (fun b => PrimFloat.is_nan b = false) (@column float B64 r 1) ->
   len (@mask_neutron_tracks float B64 r) + len (@mask_photon_tracks float B64 r)
   = len (tracks r)).
Proof.
  unfold mask_neutron_tracks, mask_photon_tracks.
  split; [|split].
  - intros i Hn Hp. apply where_column_In in Hn as [_ Hn].
    apply where_column_In in Hp as [_ Hp].
    destruct (PrimFloat.is_nan (nth (Z.to_nat i) (@column float B64 r 1) (@fzero float B64)))
      eqn:E.
    + cbn [flt fabs B64 binary64] in Hn. rewrite ltb_nan_l in Hn; [discriminate|].
      now rewrite is_nan_abs.
    + rewrite (flag_kinds _ E), Hp in Hn. discriminate Hn.
  - intros i Hi. rewrite !where_column_In.
    set (b := nth (Z.to_nat i) (@column float B64 r 1) (@fzero float B64)).
    destruct (PrimFloat.is_nan b) eqn:E.
    + split; [|discriminate]. intros [[_ H]|[_ H]]; exfalso.
      * cbn [flt fabs B64 binary64] in H. rewrite ltb_nan_l in H; [discriminate|].
        now rewrite is_nan_abs.
      * cbn [fle fabs B64 binary64] in H. rewrite leb_nan_r in H; [discriminate|].
        now rewrite is_nan_abs.
    + split; [reflexivity|]. intros _. rewrite (flag_kinds _ E).
      destruct (@fle float B64 (@of_int float B64 900000000) (@fabs float B64 b));
        [right|left]; split; auto.
  - intros H. unfold np_where, len. rewrite !map_map.
    rewrite <- Nat2Z.inj_add, where_from_split.
    + apply column_length.
    + revert H. apply Forall_impl. intros b Hb. exact (flag_kinds b Hb).
Qed.

(** X17: in float64, [get_info] never raises.  On a table without tracks
    the deviation of the radii is a NaN, the surface is not taken for a
    cylinder, and the first track is not looked at. *)
Theorem get_info_total (r : RSSA float) :
  (exists info, @get_info float B64 r = Ok info) /\
  (tracks r = [] ->
   @rssa_type float B64 r
   = if 1 <? len (surfaces (parameters r)) then multiple else plane).
Proof.
  split; [|apply rssa_type_no_track].
  unfold get_info.
  destruct (@rssa_type float B64 r) eqn:E; cbn [bind]; eauto.
  destruct (tracks r) as [|r0 rest] eqn:Ht.
  - rewrite (rssa_type_no_track r Ht) in E.
    destruct (1 <? len (surfaces (parameters r))); discriminate E.
  - unfold x, y, column. rewrite Ht. cbn [map].
    rewrite !getitem_head. cbn [bind]. eauto.
Qed.

(** X18: in float64, an axial range whose lower bound is not below its
    upper bound selects nothing, and [plot_current_cyl] ends with the
    [ValueError] of the minimum of an empty array. *)
Theorem empty_axial_range (r : RSSA float) (particle : string) (pm : list Z)
        (z_int theta_int : Z) (source_intensity : float)
        (value_range : option (float * float)) (lo hi : float) :
  (lo <? hi)%float = false ->
  @get_particle_mask float B64 r particle = Ok pm ->
  @plot_current_cyl float B64 r particle z_int theta_int source_intensity
     value_range None (Some (lo, hi)) = Raise (ValueError ZeroSizeReduction).
Proof.
  intros Hlt Hpm. unfold plot_current_cyl, location_mask.
  destruct (@axial_mask_spec float B64 r lo hi) as (m & Hm & _ & Hin).
  rewrite Hm. cbn [bind].
  assert (Em : m = []).
  { destruct m as [|i m]; [reflexivity|exfalso].
    destruct (proj1 (Hin i) (or_introl eq_refl)) as (_ & H1 & H2).
    cbn [flt B64 binary64] in H1, H2.
    rewrite (ltb_trans _ _ _ H1 H2) in Hlt. discriminate Hlt. }
  subst m. unfold generate_figures_current_cyl, select_rows.
  rewrite Hpm. cbn [bind].
  destruct (np_intersect1d_spec pm []) as (sel & Hsel & _ & Hs).
  rewrite Hsel. cbn [bind].
  assert (Es : sel = []).
  { destruct sel as [|i sel]; [reflexivity|exfalso].
    destruct (proj1 (Hs i) (or_introl eq_refl)) as [_ []]. }
  subst sel.
  rewrite (calculate_grid_axes_empty r z_int theta_int (IntArray []) eq_refl).
  reflexivity.
Qed.

(** * float64: a selection on one level *)

Lemma np_min_constant (lo : float) (l : list float) (a : float -> float -> float)
      (d : list float -> list float -> float) :
  l <> [] -> Forall (fun v => v = lo) l ->
  @np_min float (binary64 a d) l = Ok lo /\ @np_max float (binary64 a d) l = Ok lo.
Proof.
  intros Hne H. destruct H as [|v l -> H]; [contradiction|]. clear Hne.
  cbn [np_min np_max].
  split; f_equal; induction H as [|w l -> _ IH]; try reflexivity; cbn [fold_left].
  - unfold np_minimum at 2. destruct (_ || _); exact IH.
  - unfold np_maximum at 2. destruct (_ || _); exact IH.
Qed.

(** C8, a defect of the code: in float64, when the selected rows all have
    the same finite value [lo] (as a single row has), the axis that
    [np.linspace] lays from the least to the greatest of them ends at [lo],
    so that every row lies on the last edge; the index [closest] gives to
    each of them is [-2^63], for every number of bins, and not the last
    bin. *)
Theorem last_edge_lost (libm_atan2 : float -> float -> float)
        (blas_ddot : list float -> list float -> float)
        (lo : float) (n : Z) (values : list float) :
  1 <= n -> PrimFloat.is_finite lo = true -> values <> [] ->
  Forall (fun v => v = lo) values ->
  @np_min float (binary64 libm_atan2 blas_ddot) values = Ok lo /\
  @np_max float (binary64 libm_atan2 blas_ddot) values = Ok lo /\
  exists axis,
    @np_linspace float (binary64 libm_atan2 blas_ddot) lo lo (n + 1) = Ok axis /\
    len axis = n + 1 /\
    getitem axis (-1) = Ok lo /\
    @closest float (binary64 libm_atan2 blas_ddot) axis values
      = Ok (map (fun _ => - 2 ^ 63) values) /\
    - 2 ^ 63 <> n - 1.
Proof.
  intros Hn Hfin Hne Hv.
  destruct (np_min_constant lo values libm_atan2 blas_ddot Hne Hv) as [Hmin Hmax].
  split; [exact Hmin|]. split; [exact Hmax|].
  destruct (np_linspace_flat libm_atan2 blas_ddot lo n Hn Hfin)
    as (l0 & a1 & rest & Hax & Hlen & Hlast & H0 & H1).
  exists (l0 :: a1 :: rest).
  split; [exact Hax|]. split; [exact Hlen|]. split; [exact Hlast|].
  split; [|lia].
  apply (closest_flat libm_atan2 blas_ddot lo); try assumption. lia.
Qed.

(** X15: in float64, a selection that is not empty and whose rows all have
    the same finite [z] (a single row, for one) cannot be binned: with one
    bin or more along each axis (fewer than [2^63] along [z]), the binner
    raises [IndexError] when it adds the first row to the grid. *)
Theorem one_level_not_binned (libm_atan2 : float -> float -> float)
        (blas_ddot : list float -> list float -> float)
        (r : RSSA float) (particle : string) (z_int theta_int : Z)
        (source_intensity : float) (value_range : option (float * float))
        (mask : option index_array) (sel : list Z) (lo : float) :
  1 <= z_int < 2 ^ 63 -> 1 <= theta_int ->
  @select_rows float (binary64 libm_atan2 blas_ddot) r particle mask
    = Ok (IntArray sel) ->
  sel <> [] -> PrimFloat.is_finite lo = true ->
  Forall (fun v => v = lo)
         (@pick float (binary64 libm_atan2 blas_ddot)
                (@z float (binary64 libm_atan2 blas_ddot) r) sel) ->
  @generate_figures_current_cyl float (binary64 libm_atan2 blas_ddot) r particle
     z_int theta_int source_intensity value_range mask = Raise IndexError.
Proof.
  intros Hz Ht Hsel Hne Hfin Hv.
  set (B := binary64 libm_atan2 blas_ddot) in *.
  pose proof (@select_rows_range float B r _ _ _ Hsel) as Hrange.
  assert (Hzne : @pick float B (@z float B r) sel <> []).
  { destruct sel; [contradiction|discriminate]. }
  destruct (np_min_constant lo _ libm_atan2 blas_ddot Hzne Hv) as [Hmin Hmax].
  destruct (np_linspace_flat libm_atan2 blas_ddot lo z_int (proj1 Hz) Hfin)
    as (l0 & a1 & rest & Hax & Hlen & _ & H0 & H1).
  pose proof (closest_flat libm_atan2 blas_ddot lo l0 a1 rest _ Hfin H0 H1
                ltac:(lia) Hv) as Hzc.
  fold B in Hmin, Hmax, Hax, Hzc.
  set (thetas := map2 (@np_angle float B) (@pick float B (@x float B r) sel)
                      (@pick float B (@y float B r) sel)).
  assert (Lt : length thetas = length sel).
  { unfold thetas. rewrite map2_length; rewrite !pick_length; reflexivity. }
  assert (Htne : exists t ts, thetas = t :: ts).
  { destruct thetas as [|t ts]; [|eauto].
    destruct sel; [contradiction|discriminate Lt]. }
  destruct Htne as (t & ts & Et).
  destruct (@np_min_cons float B t ts) as (tmin & Htmin).
  destruct (@np_max_cons float B t ts) as (tmax & Htmax).
  destruct (@np_linspace_Ok float B tmin tmax (theta_int + 1) ltac:(lia))
    as (theta_axis & Hta & Htlen).
  destruct (@closest_long float B theta_axis thetas ltac:(lia)) as (cols & Htc).
  assert (Lc : length cols = length sel).
  { apply closest_Ok in Htc as (_ & ? & ? & _ & _ & ->). now rewrite length_map. }
  unfold generate_figures_current_cyl. rewrite Hsel. cbn [bind].
  unfold calculate_grid_axes_cyl, take_idx, z, x, y, wgt.
  rewrite !take_column by exact Hrange. cbn [bind].
  fold (@z float B r) (@x float B r) (@y float B r) (@wgt float B r). fold thetas.
  rewrite Hmin, Hmax. cbn [bind]. rewrite Et, Htmin, Htmax. cbn [bind].
  rewrite Hax, Hta. cbn [bind]. cbn beta iota zeta.
  rewrite np_zeros_Ok by lia. cbn [bind].
  rewrite Hzc. cbn [bind]. rewrite <- Et, Htc. cbn [bind].
  destruct sel as [|i sel]; [contradiction|].
  destruct cols as [|j cols]; [discriminate Lc|].
  cbn [pick map np_add_at]. unfold add_cell, norm_index, len.
  rewrite repeat_length.
  destruct (Z.ltb_spec (- 2 ^ 63) 0); [|lia].
  destruct (Z.ltb_spec (- 2 ^ 63 + Z.of_nat (Z.to_nat z_int)) 0); [|lia].
  reflexivity.
Qed.

(** * The further properties on examples *)

Lemma example_text_ok : text_ok (ascii_bytes d1suned).
Proof.
  split; [vm_compute; reflexivity|].
  exists d1suned. split; vm_compute; reflexivity.
Qed.

Lemma example_header_ok : header_ok short_params_parameters.
Proof.
  unfold header_ok, short_params_parameters, int64, int32.
  cbn [np1 nrss nrcd njsw niss niwr mipts kjaq surfaces].
  repeat (split; [first [lia|reflexivity]|]).
  repeat constructor; cbn; lia.
Qed.

(** [header_round_trip] on the header with one surface of
    [file_short_params]. *)
Lemma header_round_trip_witness :
  read_header (encode_header (ascii_bytes d1suned) short_params_parameters
                             (i32 0 ++ i32 0) ++ i32 88)
  = Ok (short_params_parameters, i32 88).
Proof.
  apply (header_round_trip (ascii_bytes d1suned) (i32 0 ++ i32 0)
           short_params_parameters (i32 88)).
  - exact example_text_ok.
  - exact example_header_ok.
  - vm_compute. reflexivity.
Defined.

(** [tracks_round_trip] on two records, the second one with markers that
    are not 88. *)
Lemma tracks_round_trip_witness :
  read_tracks (concat (map encode_track
                 [(i32 88, repeat 4607182418800017408 11, i32 88);
                  (i32 0, repeat 0 11, i32 77)]))
  = Ok (map track_row [(i32 88, repeat 4607182418800017408 11, i32 88);
                       (i32 0, repeat 0 11, i32 77)]).
Proof.
  apply (tracks_round_trip [(i32 88, repeat 4607182418800017408 11, i32 88);
                            (i32 0, repeat 0 11, i32 77)]).
  repeat constructor.
Defined.

(** [file_round_trip] on that header followed by one track. *)
Lemma file_round_trip_witness :
  read_rssa (encode_header (ascii_bytes d1suned) short_params_parameters
                           (i32 0 ++ i32 0)
             ++ concat (map encode_track
                          [(i32 88, repeat 4607182418800017408 11, i32 88)]))
  = Ok (short_params_parameters,
        map track_row [(i32 88, repeat 4607182418800017408 11, i32 88)]).
Proof.
  apply (file_round_trip (ascii_bytes d1suned) (i32 0 ++ i32 0)
           short_params_parameters
           [(i32 88, repeat 4607182418800017408 11, i32 88)]).
  - exact example_text_ok.
  - exact example_header_ok.
  - vm_compute. reflexivity.
  - repeat constructor.
Defined.

(** [header_independent_of_tracks] on [file_one_track]. *)
Lemma header_independent_of_tracks_witness :
  exists pre,
    file_one_track = pre ++ track_record (repeat 4607182418800017408 11) /\
    forall g, read_header (pre ++ g) = Ok (fst (plain_parameters 1), g) /\
              read_rssa (pre ++ g)
              = (t <- read_tracks g ;; Ok (fst (plain_parameters 1), t)).
Proof.
  apply (header_independent_of_tracks file_one_track (fst (plain_parameters 1))
           (track_record (repeat 4607182418800017408 11))).
  vm_compute. reflexivity.
Defined.

(** [header_fields] on [file_short_params]. *)
Lemma header_fields_witness :
  int64 (np1 short_params_parameters) /\ np1 short_params_parameters < 0 /\
  int64 (nrss short_params_parameters) /\ nrcd short_params_parameters = 11 /\
  len (surfaces short_params_parameters) = Z.max 0 (njsw short_params_parameters) /\
  int32 (njsw short_params_parameters) /\ int64 (niss short_params_parameters) /\
  int32 (niwr short_params_parameters) /\
  (niwr short_params_parameters <= 0
   \/ 2 ^ 31 <= njsw short_params_parameters + niwr short_params_parameters) /\
  int32 (mipts short_params_parameters) /\ int32 (kjaq short_params_parameters) /\
  Forall (surface_ok (kjaq short_params_parameters)) (surfaces short_params_parameters).
Proof.
  apply (header_fields file_short_params short_params_parameters []).
  vm_compute. reflexivity.
Defined.

(** [selection_rows] on the photons of [table_three] under a mask that
    lists a row twice and a row that is not there. *)
Lemma selection_rows_witness :
  exists pm, @get_particle_mask float B64 table_three "p" = Ok pm /\
    NoDup [0; 2] /\
    forall i, In i [0; 2] <->
      In i pm /\ In (Some i) (as_objects (IntArray [2; 0; 2; 7])).
Proof.
  apply (@selection_rows float B64 table_three "p" (Some (IntArray [2; 0; 2; 7]))
           [0; 2]).
  vm_compute. reflexivity.
Defined.

(** [axial_filter] on the photons of [table_three] and the range from -1
    to 7. *)
Lemma axial_filter_witness :
  exists m sel,
    @axial_mask float B64 table_three (Some ((-1)%float, 7%float))
    = Ok (PyArray (IntArray m)) /\
    (forall z_int theta_int source_intensity value_range,
       @plot_current_cyl float B64 table_three "p" z_int theta_int source_intensity
                        value_range None (Some ((-1)%float, 7%float))
       = @generate_figures_current_cyl float B64 table_three "p" z_int theta_int
           source_intensity value_range (Some (IntArray m))) /\
    @select_rows float B64 table_three "p" (Some (IntArray m)) = Ok (IntArray sel) /\
    NoDup sel /\
    forall i, In i sel <->
      In i [0; 1; 2] /\
      @flt float B64 (-1)%float
           (nth (Z.to_nat i) (@z float B64 table_three) (@fzero float B64)) = true /\
      @flt float B64 (nth (Z.to_nat i) (@z float B64 table_three) (@fzero float B64))
           7%float = true.
Proof.
  apply (@axial_filter float B64 table_three "p" (-1)%float 7%float [0; 1; 2]).
  vm_compute. reflexivity.
Defined.

(** [both_ranges_filter] on [table_three]. *)
Lemma both_ranges_filter_witness :
  exists m,
    @location_mask float B64 table_three (Some ((-1)%float, 5%float))
                   (Some ((-1)%float, 11%float)) = Ok (PyArray (IntArray m)) /\
    (forall particle z_int theta_int source_intensity value_range,
       @plot_current_cyl float B64 table_three particle z_int theta_int
          source_intensity value_range (Some ((-1)%float, 5%float))
          (Some ((-1)%float, 11%float))
       = @generate_figures_current_cyl float B64 table_three particle z_int theta_int
           source_intensity value_range (Some (IntArray m))) /\
    NoDup m /\
    forall i, In i m <->
      0 <= i < len (tracks table_three) /\
      (@flt float B64 (-1)%float
            (nth (Z.to_nat i) (@z float B64 table_three) (@fzero float B64)) = true /\
       @flt float B64 (nth (Z.to_nat i) (@z float B64 table_three) (@fzero float B64))
            11%float = true) /\
      let v := @fmul float B64
                 (@np_linalg_norm2 float B64
                    (nth 5 (track 9e8 0.5 1 0 0) (@fzero float B64))
                    (nth 6 (track 9e8 0.5 1 0 0) (@fzero float B64)))
                 (@np_angle float B64
                    (nth (Z.to_nat i) (@x float B64 table_three) (@fzero float B64))
                    (nth (Z.to_nat i) (@y float B64 table_three) (@fzero float B64))) in
      @flt float B64 (-1)%float v = true /\ @flt float B64 v 5%float = true.
Proof.
  apply (@both_ranges_filter float B64 table_three (track 9e8 0.5 1 0 0)
           [track 9e8 0.25 0 1 5; track 9e8 0.125 1 0 10]
           (-1)%float 5%float (-1)%float 11%float).
  reflexivity.
Defined.

(** [grid_shapes] on the two photons of [table_corners]. *)
Lemma grid_shapes_witness :
  exists out,
    @generate_figures_current_cyl float B64 table_corners "p" 2 2 10%float None None
    = Ok out /\
    (1 <= 2 /\ 1 <= 2) /\
    grid_shape (Z.to_nat 2) (Z.to_nat 2) (grid_values out) /\
    grid_shape (Z.to_nat 2) (Z.to_nat 2) (error_grid out) /\
    length (extent out) = 4%nat.
Proof.
  eexists. split; [vm_compute; reflexivity|].
  apply (@grid_shapes float B64 table_corners "p" 2 2 10%float None None).
  vm_compute. reflexivity.
Defined.

(** [axes_end_at_maximum] on the three photons of [table_three]. *)
Lemma axes_end_at_maximum_witness :
  exists zs xs ys z_max theta_max,
    take_idx (@z float B64 table_three) (IntArray [0; 1; 2]) = Ok zs /\
    take_idx (@x float B64 table_three) (IntArray [0; 1; 2]) = Ok xs /\
    take_idx (@y float B64 table_three) (IntArray [0; 1; 2]) = Ok ys /\
    @np_max float B64 zs = Ok z_max /\
    @np_max float B64 (map2 (@np_angle float B64) xs ys) = Ok theta_max /\
    len [0; 5; 10]%float = 2 + 1 /\
    len [0; 0x1.921fb54442d18p-1; 0x1.921fb54442d18p+0]%float = 2 + 1 /\
    (1 <= 2 -> getitem [0; 5; 10]%float (-1) = Ok z_max) /\
    (1 <= 2 ->
     getitem [0; 0x1.921fb54442d18p-1; 0x1.921fb54442d18p+0]%float (-1)
     = Ok theta_max).
Proof.
  apply (@axes_end_at_maximum float B64 table_three 2 2 (IntArray [0; 1; 2])
           [0; 5; 10]%float
           [0; 0x1.921fb54442d18p-1; 0x1.921fb54442d18p+0]%float).
  vm_compute. reflexivity.
Defined.

(** [bin_counts_rejected] on the photons of [table_three]. *)
Lemma bin_counts_rejected_witness :
  (-1 < 0 \/ 2 < 0 ->
   exists w, @generate_figures_current_cyl float B64 table_three "p" (-1) 2
               10%float None None = Raise (ValueError w) /\
             (w = NegativeSamples \/ w = NegativeDimensions)) /\
  (0 <= -1 -> 0 <= 2 -> -1 = 0 \/ 2 = 0 ->
   @generate_figures_current_cyl float B64 table_three "p" (-1) 2
     10%float None None = Raise IndexError).
Proof.
  apply (@bin_counts_rejected float B64 table_three "p" (-1) 2 10%float None None
           0 [1; 2]).
  vm_compute. reflexivity.
Defined.

(** [empty_axial_range] on the photons of [table_three] and the range
    from 5 to 5. *)
Lemma empty_axial_range_witness :
  @plot_current_cyl float B64 table_three "p" 2 2 10%float None None
     (Some (5%float, 5%float)) = Raise (ValueError ZeroSizeReduction).
Proof.
  apply (empty_axial_range table_three "p" [0; 1; 2] 2 2 10%float None
           5%float 5%float).
  - vm_compute. reflexivity.
  - vm_compute. reflexivity.
Defined.

(** ** The binner on examples *)



(** [error_cells_count_rows] on the three photons of [table_three]. *)
Lemma error_cells_count_rows_witness :
  exists out,
    @generate_figures_current_cyl float B64 table_three "p" 2 2 1000%float None None
    = Ok out /\
    exists sel z_axis theta_axis rows cols,
      @select_rows float B64 table_three "p" None = Ok (IntArray sel) /\
      @calculate_grid_axes_cyl float B64 table_three 2 2 (Some (IntArray sel))
        = Ok (z_axis, theta_axis) /\
      @closest float B64 z_axis (@pick float B64 (@z float B64 table_three) sel)
        = Ok rows /\
      @closest float B64 theta_axis
         (map2 (@np_angle float B64)
               (@pick float B64 (@x float B64 table_three) sel)
               (@pick float B64 (@y float B64 table_three) sel)) = Ok cols /\
      length rows = length sel /\ length cols = length sel /\
      forall r c, 0 <= r < 2 -> 0 <= c < 2 ->
        let count :=
          fold_left (@fadd float B64)
                    (map (fun _ => @fone float B64) (landed 2 2 r c rows cols sel))
                    (@fzero float B64) in
        cell (error_grid out) r c (@fzero float B64) =
        @fdiv float B64 (@fone float B64)
          (@fsqrt float B64
             (if @feq float B64 count (@fzero float B64) then @fone float B64
              else count)).
Proof.
  eexists. split; [vm_compute; reflexivity|].
  apply (@error_cells_count_rows float B64 table_three "p" 2 2 1000%float None None).
  vm_compute. reflexivity.
Defined.

(** [last_edge_lost] on the only row of [table_one], at [z = 0], and two
    bins. *)
Lemma last_edge_lost_witness :
  @np_min float B64 [0%float] = Ok 0%float /\
  @np_max float B64 [0%float] = Ok 0%float /\
  exists axis,
    @np_linspace float B64 0%float 0%float (2 + 1) = Ok axis /\
    len axis = 2 + 1 /\
    getitem axis (-1) = Ok 0%float /\
    @closest float B64 axis [0%float] = Ok (map (fun _ => - 2 ^ 63) [0%float]) /\
    - 2 ^ 63 <> 2 - 1.
Proof.
  apply (last_edge_lost atan2_axes ddot_rounded 0%float 2 [0%float]).
  - lia.
  - reflexivity.
  - discriminate.
  - repeat constructor.
Defined.

(** [one_level_not_binned] on the only row of [table_one]. *)
Lemma one_level_not_binned_witness :
  @generate_figures_current_cyl float B64 table_one "n" 2 2 1000%float None None
  = Raise IndexError.
Proof.
  apply (one_level_not_binned atan2_axes ddot_rounded table_one "n" 2 2 1000%float
           None None [0] 0%float).
  - lia.
  - lia.
  - vm_compute. reflexivity.
  - discriminate.
  - reflexivity.
  - repeat constructor.
Defined.

(** An axis need not be reduced to a point for its last edge to be lost:
    on the axis of 4 bins from [1e16] to [1e16 + 4] the second edge is
    rounded onto the first one, and the rows on the first and on the last
    edge both get [-2^63]; the binner raises [IndexError]. *)
Example last_edge_lost_far :
  @np_linspace float B64 1e16%float 10000000000000004%float 5
    = Ok [1e16; 1e16; 10000000000000002; 10000000000000004;
          10000000000000004]%float /\
  @closest float B64
    [1e16; 1e16; 10000000000000002; 10000000000000004; 10000000000000004]%float
    [1e16; 10000000000000004]%float = Ok [- 2 ^ 63; - 2 ^ 63] /\
  @generate_figures_current_cyl float B64 table_far "p" 4 2 1000%float None None
    = Raise IndexError.
Proof. repeat split; vm_compute; reflexivity. Qed.

(** The norm with a dot product that rounds every product and every sum. *)
Example np_linalg_norm2_rounded (libm_atan2 : float -> float -> float) (a b : float) :
  @np_linalg_norm2 float (binary64 libm_atan2 ddot_rounded) a b
  = PrimFloat.sqrt (0 + a * a + b * b)%float.
Proof. reflexivity. Qed.

(** * Properties of the menu *)

(** X19: the index [select_rssa_index] returns is an index of the list
    of loaded files, so that the file the menu then takes is there; with one
    file loaded it is 0. *)
Theorem select_index_valid (env : Env) (m : Menu) (w : world) (idx : Z) (w' : world) :
  select_rssa_index env m w = (Ret idx, w') ->
  0 <= idx < len (rssa_list m) /\
  (exists rssa, getitem (rssa_list m) idx = Ok rssa) /\
  (len (rssa_list m) = 1 -> idx = 0).
Proof.
  intros E. pose proof (select_rssa_index_range env m w idx w' E) as Hr.
  split; [exact Hr|]. split.
  - rewrite (getitem_nth (rssa_list m) idx table_one Hr). eauto.
  - intros H1. unfold select_rssa_index in E. rewrite H1 in E.
    cbn [Z.eqb Pos.eqb] in E. now injection E as <- _.
Qed.

(** X20: the menu stops on every input: with the turns that the lines
    left allow, [loop] ends, with the command [END] and its farewell as the
    last thing printed, or with an exception that escapes it; more turns do
    not change the outcome. *)
Theorem menu_stops (env : Env) (m : Menu) (w : world) :
  exists r w',
    (forall fuel, (turns w <= fuel)%nat -> loop env fuel m w = Some (r, w')) /\
    (length (stdin w') <= length (stdin w))%nat /\
    forall m', r = Ret m' ->
               command m' = END /\ exists out, stdout w' = out ++ [goodbye].
Proof.
  destruct (loop_stops env (turns w) m w) as (r & w' & E & Hl & Hend).
  { unfold turns. destruct (command m); lia. }
  exists r, w'. split; [|split; [exact Hl|exact Hend]].
  intros fuel Hf. exact (loop_more_fuel env _ fuel m w _ E Hf).
Qed.

(** X21: the menu never holds two files of the same name, and never
    drops a file: when the loop ends, the files loaded are those it started
    with, in their order, followed by those opened since, and their names
    are distinct if they were. *)
Theorem filenames_stay_distinct (env : Env) (fuel : nat) (m : Menu) (w : world)
        (m' : Menu) (w' : world) :
  NoDup (rssa_filenames m) ->
  loop env fuel m w = Some (Ret m', w') ->
  NoDup (rssa_filenames m') /\ exists l, rssa_list m' = rssa_list m ++ l.
Proof.
  intros Hm E. destruct (loop_files env fuel m w m' w' E) as [Hl Hnd]. auto.
Qed.

(** X22: an exception of the reader is not caught by the menu: a command
    [OPEN] on a file that [read_rssa] rejects, for whatever reason, ends the
    loop with that exception, once the name has been read. *)
Theorem reader_error_stops_menu (env : Env) (fuel : nat) (m : Menu) (w : world)
        (name : string) (rest : list string) (f : stream) (e : exn) :
  command m = OPEN ->
  stdin w = name :: rest ->
  ~ In name (rssa_filenames m) ->
  env_files env name = Contents f ->
  read_rssa f = Raise e ->
  loop env (S fuel) m w
  = Some (Exc (Known e),
          {| stdin := rest;
             stdout := stdout w ++ [Prompt " enter rssa file name: "] |}).
Proof.
  intros Hc Hs Hn Hf He. rewrite loop_turn by congruence.
  unfold turn. rewrite Hc. unfold command_open, io_bind, input. rewrite Hs.
  assert (Hex : existsb (String.eqb name) (rssa_filenames m) = false).
  { destruct (existsb (String.eqb name) (rssa_filenames m)) eqn:Hex; [|reflexivity].
    apply existsb_exists in Hex as (n & Hin & Heq).
    apply String.eqb_eq in Heq. subst n. contradiction. }
  rewrite Hex. unfold RSSA_init. rewrite Hf, He. reflexivity.
Qed.

(** X23: in the custom plot, a perimeter range given without an axial
    range never gives a plot: nothing is drawn nor printed, and the command
    ends with a [TypeError] or an [IndexError] that escapes the menu, or
    with the message on an incorrect parameter. *)
Theorem perimeter_range_alone_in_menu (env : Env) (m : Menu) (rssa : RSSA float)
        (particle z_int theta_int source_intensity : string)
        (value_range : option (float * float)) (x_range : float * float)
        (w : world) :
  exists r,
    try_plot m (call_plot env rssa particle z_int theta_int source_intensity
                          value_range (Some x_range) None) w = (r, w) /\
    (r = Exc (Known TypeError) \/ r = Exc (Known IndexError) \/
     r = Ret (go_main_menu (go_main_menu m (Some incorrect_parameter)) None)).
Proof.
  assert (Hv : exists r,
            try_plot m (io_raise OtherValueError) w = (r, w) /\
            (r = Exc (Known TypeError) \/ r = Exc (Known IndexError) \/
             r = Ret (go_main_menu (go_main_menu m (Some incorrect_parameter)) None))).
  { eexists. split; [reflexivity|]. auto. }
  unfold call_plot.
  destruct (env_int env z_int) as [zi|]; [|exact Hv].
  destruct (env_int env theta_int) as [ti|]; [|exact Hv].
  destruct (env_float env source_intensity) as [si|]; [|exact Hv].
  destruct (plot_perimeter_alone env rssa particle zi ti si value_range x_range)
    as (e & He & Hk).
  unfold try_plot, io_bind, try_ValueError, io_lift. rewrite He. cbn [lift].
  destruct Hk as [->|[->| ->]]; (eexists; split; [reflexivity|]; auto).
Qed.

(** [select_index_valid] on a menu with two files, where two lines are
    refused before the index 1 is read. *)
Lemma select_index_valid_witness :
  0 <= 1 < len (rssa_list menu_two) /\
  (exists rssa, getitem (rssa_list menu_two) 1 = Ok rssa) /\
  (len (rssa_list menu_two) = 1 -> 1 = 0).
Proof.
  eapply (select_index_valid env_demo menu_two
            {| stdin := ["7"; "x"; "1"; "end"]%string; stdout := [] |} 1).
  vm_compute. reflexivity.
Defined.

(** [filenames_stay_distinct] on a session that opens the same file
    twice. *)
Lemma filenames_stay_distinct_witness :
  exists m' w',
    loop env_demo 12 Menu_init
         {| stdin := ["open"; "one.w"; "open"; "one.w"; "end"]%string; stdout := [] |}
    = Some (Ret m', w') /\
    rssa_filenames m' = ["one.w"%string] /\
    NoDup (rssa_filenames m') /\ exists l, rssa_list m' = rssa_list Menu_init ++ l.
Proof.
  eexists. eexists. split; [vm_compute; reflexivity|].
  split; [reflexivity|].
  eapply (filenames_stay_distinct env_demo 12 Menu_init
            {| stdin := ["open"; "one.w"; "open"; "one.w"; "end"]%string;
               stdout := [] |}).
  - constructor.
  - vm_compute. reflexivity.
Defined.

(** [reader_error_stops_menu] on the file whose first record is not
    text. *)
Lemma reader_error_stops_menu_witness :
  loop env_demo 3 {| rssa_list := []; command := OPEN; subtext := [] |}
       {| stdin := ["bad.w"; "end"]%string; stdout := [] |}
  = Some (Exc (Known UnicodeDecodeError),
          {| stdin := ["end"%string];
             stdout := [] ++ [Prompt " enter rssa file name: "] |}).
Proof.
  apply (reader_error_stops_menu env_demo 2
           {| rssa_list := []; command := OPEN; subtext := [] |}
           {| stdin := ["bad.w"; "end"]%string; stdout := [] |}
           "bad.w" ["end"%string] file_bad_text UnicodeDecodeError).
  - reflexivity.
  - reflexivity.
  - intros [].
  - reflexivity.
  - vm_compute. reflexivity.
Defined.
